(** * Fitness club management: the booking and conflict-resolution core

    A shallow embedding of the scheduling code of the repository
    (models/room_booking.py, models/trainer_availability.py,
    services/admin_service.py, services/member_service.py,
    services/trainer_service.py) together with the properties its
    specification states about it.

    Conventions of the embedding.
    - Python [int] is [Z]; [None]-able arguments and columns are [option].
    - [datetime.date] is its proleptic Gregorian ordinal
      ([date.toordinal()], day 1 is 0001-01-01, a Monday);
      [datetime.time] is the number of microseconds since midnight;
      [datetime.datetime] is [ordinal * 86_400_000_000 + time].  The
      services compute with these numbers without the range limit of the
      Python types (years 1..9999, beyond which Python raises
      OverflowError); the properties that need the limit assume it as
      [valid_datetime].
    - An INTEGER column holds 32 bits: the INSERT of a duration or a
      capacity outside of it fails.  Primary and foreign keys are not
      bounded.
    - The clock ([datetime.now()], [date.today()]) is an argument [now] of
      every operation that reads it.
    - A Python [str] is a [string] of characters the database stores (no
      NUL); the length of a VARCHAR column counts them.
    - An autoincrement sequence is the key the next INSERT gets.  A failed
      INSERT leaves it as it was (PostgreSQL advances it all the same): no
      property depends on the key that follows a failed INSERT.
    - A table is the list of its rows; [query.all()] returns the rows in
      list order and [query.first()] the first match.
    - A service result [{'success': ..., ...}] is a value of [Result];
      every failure message of the source is one constructor of [Error]. *)

From Stdlib Require Import ZArith List Bool Lia String.
Import ListNotations.
Local Open Scope Z_scope.

(** ** Dates and times *)

Definition date := Z.
Definition time := Z.
Definition datetime := Z.

Definition usec_per_minute : Z := 60000000.
Definition usec_per_day : Z := 86400000000.

(** [datetime.date()] and [datetime.time()]. *)
Definition dt_date (t : datetime) : date := t / usec_per_day.
Definition dt_time (t : datetime) : time := t mod usec_per_day.

(** [timedelta(minutes=n)]. *)
Definition timedelta_minutes (n : Z) : Z := n * usec_per_minute.

(** [datetime.combine(d, t)] and [time(h, m)], used to write scenarios. *)
Definition datetime_combine (d : date) (t : time) : datetime := d * usec_per_day + t.
Definition hm (h m : Z) : time := (h * 60 + m) * usec_per_minute.

(** [date(y, m, d).toordinal()], as in the Python library's [_ymd2ord]. *)
Definition is_leap (y : Z) : bool :=
  (y mod 4 =? 0) && (negb (y mod 100 =? 0) || (y mod 400 =? 0)).

Definition days_before_year (y : Z) : Z :=
  let p := y - 1 in p * 365 + p / 4 - p / 100 + p / 400.

Definition days_before_month (y m : Z) : Z :=
  nth (Z.to_nat m) [0; 0; 31; 59; 90; 120; 151; 181; 212; 243; 273; 304; 334] 0
  + (if (2 <? m) && is_leap y then 1 else 0).

Definition ymd (y m d : Z) : date :=
  days_before_year y + days_before_month y m + d.

(** ** models/trainer_availability.py *)

Module DayOfWeek.
Inductive t := MONDAY | TUESDAY | WEDNESDAY | THURSDAY | FRIDAY | SATURDAY | SUNDAY.

Definition value (d : t) : Z :=
  match d with
  | MONDAY => 0 | TUESDAY => 1 | WEDNESDAY => 2 | THURSDAY => 3
  | FRIDAY => 4 | SATURDAY => 5 | SUNDAY => 6
  end.

Definition eqb (a b : t) : bool := value a =? value b.

(** [DayOfWeek[d.strftime('%A').upper()]]: the member named after the
    weekday of [d]; [date.weekday()] is [(toordinal() + 6) % 7]. *)
Definition of_date (d : date) : t :=
  match (d + 6) mod 7 with
  | 0 => MONDAY | 1 => TUESDAY | 2 => WEDNESDAY | 3 => THURSDAY
  | 4 => FRIDAY | 5 => SATURDAY | _ => SUNDAY
  end.
End DayOfWeek.

Module TrainerAvailability.
Record t := mk {
  availability_id : option Z;
  trainer_id : Z;
  day_of_week : DayOfWeek.t;
  start_time : time;
  end_time : time
}.

Definition overlaps_with (self other : t) : bool :=
  if negb (trainer_id self =? trainer_id other) then false
  else if negb (DayOfWeek.eqb (day_of_week self) (day_of_week other)) then false
  else (start_time self <? end_time other) && (start_time other <? end_time self).
End TrainerAvailability.

(** ** models/room_booking.py *)

Module BookingStatus.
Inductive t := CONFIRMED | PENDING | CANCELLED.

Definition eqb (a b : t) : bool :=
  match a, b with
  | CONFIRMED, CONFIRMED | PENDING, PENDING | CANCELLED, CANCELLED => true
  | _, _ => false
  end.
End BookingStatus.

Module RoomBooking.
(** [booking_id] is [None] until the row is inserted; [status] is [None]
    on an object built without it (book_room), and the column default
    CONFIRMED is filled in when the row is inserted. *)
Record t := mk {
  booking_id : option Z;
  room_id : Z;
  booking_date : date;
  start_time : time;
  end_time : time;
  purpose : option string;
  booked_by_admin_id : option Z;
  status : option BookingStatus.t
}.

(** [b.status == BookingStatus.CANCELLED] *)
Definition is_cancelled (b : t) : bool :=
  match status b with
  | Some s => BookingStatus.eqb s BookingStatus.CANCELLED
  | None => false
  end.

Definition conflicts_with (self other : t) : bool :=
  if negb (room_id self =? room_id other) then false
  else if negb (booking_date self =? booking_date other) then false
  else if is_cancelled self || is_cancelled other then false
  else (start_time self <? end_time other) && (start_time other <? end_time self).

Definition set_status (s : BookingStatus.t) (b : t) : t :=
  mk (booking_id b) (room_id b) (booking_date b) (start_time b) (end_time b)
     (purpose b) (booked_by_admin_id b) (Some s).

(** The row as it is after the INSERT: key assigned, default applied. *)
Definition inserted (id : Z) (b : t) : t :=
  mk (Some id) (room_id b) (booking_date b) (start_time b) (end_time b)
     (purpose b) (booked_by_admin_id b)
     (match status b with Some s => Some s | None => Some BookingStatus.CONFIRMED end).
End RoomBooking.

(** ** models/room.py, fitness_class.py, class_registration.py,
       personal_training_session.py

    Columns that the scheduling code never reads (room_type, created_at,
    registered_at) are left out. *)

Module Room.
Record t := mk {
  room_id : Z;
  name : string;
  capacity : Z
}.
End Room.

Module ClassStatus.
Inductive t := SCHEDULED | IN_PROGRESS | COMPLETED | CANCELLED.

Definition eqb (a b : t) : bool :=
  match a, b with
  | SCHEDULED, SCHEDULED | IN_PROGRESS, IN_PROGRESS
  | COMPLETED, COMPLETED | CANCELLED, CANCELLED => true
  | _, _ => false
  end.
End ClassStatus.

Module FitnessClass.
Record t := mk {
  class_id : option Z;
  name : string;
  description : option string;
  trainer_id : Z;
  room_id : Z;
  scheduled_time : datetime;
  duration_minutes : Z;
  capacity : Z;
  status : ClassStatus.t
}.

Definition get_end_time (self : t) : datetime :=
  scheduled_time self + timedelta_minutes (duration_minutes self).

Definition set_status (s : ClassStatus.t) (c : t) : t :=
  mk (class_id c) (name c) (description c) (trainer_id c) (room_id c)
     (scheduled_time c) (duration_minutes c) (capacity c) s.

Definition inserted (id : Z) (c : t) : t :=
  mk (Some id) (name c) (description c) (trainer_id c) (room_id c)
     (scheduled_time c) (duration_minutes c) (capacity c) (status c).
End FitnessClass.

Module RegistrationStatus.
Inductive t := REGISTERED | ATTENDED | CANCELLED | NO_SHOW.

Definition eqb (a b : t) : bool :=
  match a, b with
  | REGISTERED, REGISTERED | ATTENDED, ATTENDED
  | CANCELLED, CANCELLED | NO_SHOW, NO_SHOW => true
  | _, _ => false
  end.
End RegistrationStatus.

Module ClassRegistration.
Record t := mk {
  registration_id : option Z;
  member_id : Z;
  class_id : Z;
  status : RegistrationStatus.t
}.

Definition set_status (s : RegistrationStatus.t) (r : t) : t :=
  mk (registration_id r) (member_id r) (class_id r) s.

Definition inserted (id : Z) (r : t) : t :=
  mk (Some id) (member_id r) (class_id r) (status r).
End ClassRegistration.

Module SessionStatus.
Inductive t := SCHEDULED | COMPLETED | CANCELLED | NO_SHOW.

Definition eqb (a b : t) : bool :=
  match a, b with
  | SCHEDULED, SCHEDULED | COMPLETED, COMPLETED
  | CANCELLED, CANCELLED | NO_SHOW, NO_SHOW => true
  | _, _ => false
  end.
End SessionStatus.

Module PersonalTrainingSession.
Record t := mk {
  session_id : option Z;
  member_id : Z;
  trainer_id : Z;
  room_id : option Z;
  scheduled_time : datetime;
  duration_minutes : Z;
  notes : option string;
  status : SessionStatus.t
}.

Definition get_end_time (self : t) : datetime :=
  scheduled_time self + timedelta_minutes (duration_minutes self).

Definition set_status (s : SessionStatus.t) (p : t) : t :=
  mk (session_id p) (member_id p) (trainer_id p) (room_id p)
     (scheduled_time p) (duration_minutes p) (notes p) s.

Definition inserted (id : Z) (p : t) : t :=
  mk (Some id) (member_id p) (trainer_id p) (room_id p)
     (scheduled_time p) (duration_minutes p) (notes p) (status p).
End PersonalTrainingSession.

(** ** The persistent store and the SQLAlchemy session

    [Database] is the committed content of the tables.  Members, trainers
    and admins are represented by their primary keys, the only thing the
    scheduling code asks of them.  The [next_*] fields are the
    autoincrement sequences. *)

Record Database := mkDatabase {
  members : list Z;
  trainers : list Z;
  admins : list Z;
  rooms : list Room.t;
  room_bookings : list RoomBooking.t;
  trainer_availability : list TrainerAvailability.t;
  fitness_classes : list FitnessClass.t;
  class_registrations : list ClassRegistration.t;
  personal_training_sessions : list PersonalTrainingSession.t;
  next_booking_id : Z;
  next_class_id : Z;
  next_registration_id : Z;
  next_session_id : Z
}.

(** [column == id] on a primary key. *)
Definition has_id (key : option Z) (id : Z) : bool :=
  match key with Some k => k =? id | None => false end.

(** [x in ids] for a foreign key. *)
Definition mem_id (id : Z) (ids : list Z) : bool := existsb (Z.eqb id) ids.

Definition room_exists (id : Z) (db : Database) : bool :=
  existsb (fun r => Room.room_id r =? id) (rooms db).

(** The unit of work: what [session.add(obj)] and attribute assignments on
    loaded objects leave pending until the next flush. *)
Inductive PendingOp :=
| AddRoomBooking (b : RoomBooking.t)
| AddFitnessClass (c : FitnessClass.t)
| AddRegistration (r : ClassRegistration.t)
| AddSession (p : PersonalTrainingSession.t)
| SetBookingStatus (id : Z) (s : BookingStatus.t)
| SetClassStatus (id : Z) (s : ClassStatus.t)
| SetRegistrationStatus (id : Z) (s : RegistrationStatus.t)
| SetSessionStatus (id : Z) (s : SessionStatus.t).

(** The sessions of the application are made by
    [sessionmaker(autocommit=False, autoflush=False)] (models/base.py):
    queries read [db], the committed rows, and do not see [pending]. *)
Record Session := mkSession {
  db : Database;
  pending : list PendingOp
}.

Definition with_room_bookings (l : list RoomBooking.t) (n : Z) (d : Database) : Database :=
  mkDatabase (members d) (trainers d) (admins d) (rooms d) l
             (trainer_availability d) (fitness_classes d) (class_registrations d)
             (personal_training_sessions d)
             n (next_class_id d) (next_registration_id d) (next_session_id d).

Definition with_fitness_classes (l : list FitnessClass.t) (n : Z) (d : Database) : Database :=
  mkDatabase (members d) (trainers d) (admins d) (rooms d) (room_bookings d)
             (trainer_availability d) l (class_registrations d)
             (personal_training_sessions d)
             (next_booking_id d) n (next_registration_id d) (next_session_id d).

Definition with_class_registrations (l : list ClassRegistration.t) (n : Z) (d : Database) : Database :=
  mkDatabase (members d) (trainers d) (admins d) (rooms d) (room_bookings d)
             (trainer_availability d) (fitness_classes d) l
             (personal_training_sessions d)
             (next_booking_id d) (next_class_id d) n (next_session_id d).

Definition with_sessions (l : list PersonalTrainingSession.t) (n : Z) (d : Database) : Database :=
  mkDatabase (members d) (trainers d) (admins d) (rooms d) (room_bookings d)
             (trainer_availability d) (fitness_classes d) (class_registrations d)
             l
             (next_booking_id d) (next_class_id d) (next_registration_id d) n.

(** [UPDATE ... SET status = s WHERE key = id] on one table. *)
Definition update_where {A} (key : A -> option Z) (upd : A -> A) (id : Z) (l : list A) : list A :=
  map (fun r => if has_id (key r) id then upd r else r) l.

(** A value an INTEGER column stores (32 bits, signed). *)
Definition fits_integer (n : Z) : bool :=
  (-2147483648 <=? n) && (n <=? 2147483647).

(** One statement of a flush.  [None] stands for the exception the
    database raises: on a violated constraint (the foreign keys of the
    inserted row, and [uq_member_class_registration], the uniqueness of
    (member_id, class_id) in class_registrations), on a class name longer
    than its VARCHAR(100) column, and on a duration or capacity outside
    its INTEGER column. *)
Definition apply_op (d : Database) (op : PendingOp) : option Database :=
  match op with
  | AddRoomBooking b =>
      if room_exists (RoomBooking.room_id b) d
         && match RoomBooking.booked_by_admin_id b with
            | Some a => mem_id a (admins d)
            | None => true
            end
      then Some (with_room_bookings
                   (room_bookings d ++ [RoomBooking.inserted (next_booking_id d) b])
                   (next_booking_id d + 1) d)
      else None
  | AddFitnessClass c =>
      if mem_id (FitnessClass.trainer_id c) (trainers d)
         && room_exists (FitnessClass.room_id c) d
         && (String.length (FitnessClass.name c) <=? 100)%nat
         && fits_integer (FitnessClass.duration_minutes c)
         && fits_integer (FitnessClass.capacity c)
      then Some (with_fitness_classes
                   (fitness_classes d ++ [FitnessClass.inserted (next_class_id d) c])
                   (next_class_id d + 1) d)
      else None
  | AddRegistration r =>
      if mem_id (ClassRegistration.member_id r) (members d)
         && existsb (fun c => has_id (FitnessClass.class_id c) (ClassRegistration.class_id r))
                    (fitness_classes d)
         && negb (existsb (fun r' =>
                     (ClassRegistration.member_id r' =? ClassRegistration.member_id r)
                     && (ClassRegistration.class_id r' =? ClassRegistration.class_id r))
                   (class_registrations d))
      then Some (with_class_registrations
                   (class_registrations d ++ [ClassRegistration.inserted (next_registration_id d) r])
                   (next_registration_id d + 1) d)
      else None
  | AddSession p =>
      if mem_id (PersonalTrainingSession.member_id p) (members d)
         && mem_id (PersonalTrainingSession.trainer_id p) (trainers d)
         && match PersonalTrainingSession.room_id p with
            | Some r => room_exists r d
            | None => true
            end
         && fits_integer (PersonalTrainingSession.duration_minutes p)
      then Some (with_sessions
                   (personal_training_sessions d
                      ++ [PersonalTrainingSession.inserted (next_session_id d) p])
                   (next_session_id d + 1) d)
      else None
  | SetBookingStatus id s =>
      Some (with_room_bookings
              (update_where RoomBooking.booking_id (RoomBooking.set_status s) id (room_bookings d))
              (next_booking_id d) d)
  | SetClassStatus id s =>
      Some (with_fitness_classes
              (update_where FitnessClass.class_id (FitnessClass.set_status s) id (fitness_classes d))
              (next_class_id d) d)
  | SetRegistrationStatus id s =>
      Some (with_class_registrations
              (update_where ClassRegistration.registration_id (ClassRegistration.set_status s) id
                            (class_registrations d))
              (next_registration_id d) d)
  | SetSessionStatus id s =>
      Some (with_sessions
              (update_where PersonalTrainingSession.session_id
                            (PersonalTrainingSession.set_status s) id
                            (personal_training_sessions d))
              (next_session_id d) d)
  end.

Fixpoint flush (ops : list PendingOp) (d : Database) : option Database :=
  match ops with
  | [] => Some d
  | op :: ops' =>
      match apply_op d op with
      | Some d' => flush ops' d'
      | None => None
      end
  end.

(** [session.add(obj)] and [obj.status = ...]. *)
Definition add (op : PendingOp) (s : Session) : Session :=
  mkSession (db s) (pending s ++ [op]).

(** [session.commit()]: flush the unit of work and make it durable;
    [None] when the flush raises. *)
Definition commit (s : Session) : option Session :=
  match flush (pending s) (db s) with
  | Some d => Some (mkSession d [])
  | None => None
  end.

(** [session.rollback()]: the transaction is undone and every pending
    change of the unit of work is discarded. *)
Definition rollback (s : Session) : Session := mkSession (db s) [].

(** ** The tables and sequences the room and trainer services write *)

Definition with_rooms (l : list Room.t) (d : Database) : Database :=
  mkDatabase (members d) (trainers d) (admins d) l (room_bookings d)
             (trainer_availability d) (fitness_classes d) (class_registrations d)
             (personal_training_sessions d)
             (next_booking_id d) (next_class_id d) (next_registration_id d)
             (next_session_id d).

Definition with_trainer_availability (l : list TrainerAvailability.t) (d : Database)
  : Database :=
  mkDatabase (members d) (trainers d) (admins d) (rooms d) (room_bookings d)
             l (fitness_classes d) (class_registrations d)
             (personal_training_sessions d)
             (next_booking_id d) (next_class_id d) (next_registration_id d)
             (next_session_id d).

(** The session together with the autoincrement sequences of rooms and
    trainer_availability, which [Database] does not carry. *)
Record Club := mkClub {
  session : Session;
  next_room_id : Z;
  next_availability_id : Z
}.

(** ** Service results *)

Inductive Error :=
| RoomNotFound              (* 'Room not found' *)
| InvalidRange              (* 'End time must be after start time' *)
| PastDate                  (* 'Cannot book for past dates' *)
| Conflict (start_time end_time : time)
                            (* f'Room is already booked from {start} to {end}' *)
| BookingNotFound           (* 'Booking not found' *)
| TrainerNotFound           (* 'Trainer not found' *)
| CapacityExceeded (capacity room_capacity : Z)
                            (* f'Class capacity ({c}) exceeds room capacity ({r})' *)
| DurationNotPositive       (* 'Duration must be positive' *)
| PastSchedule              (* 'Cannot schedule class in the past' *)
| RoomConflict              (* 'Room is not available at this time' *)
| ClassNotFound             (* 'Class not found' *)
| MemberNotFound            (* 'Member not found' *)
| SessionNotInFuture        (* 'Session must be scheduled in the future' *)
| TrainerUnavailable (day : DayOfWeek.t) (start_time : time)
                            (* f'Trainer is not available on {day} at {start}' *)
| TrainerConflict           (* 'Trainer has a conflicting session at this time' *)
| MemberConflict            (* 'You have a conflicting session at this time' *)
| SessionNotFound           (* 'Session not found' *)
| SessionAlreadyCancelled   (* 'Session is already cancelled' *)
| SessionAlreadyCompleted   (* 'Cannot cancel a completed session' *)
| PastSession               (* 'Cannot cancel a past session' *)
| NotScheduled              (* 'Can only reschedule scheduled sessions' *)
| ClassNotAvailable         (* 'Class is not available for registration' *)
| PastClass                 (* 'Cannot register for past classes' *)
| AlreadyRegistered         (* 'You are already registered for this class' *)
| ClassFull                 (* 'Class is full' *)
| SessionConflict           (* 'You have a conflicting PT session at this time' *)
| RegistrationNotFound      (* 'Registration not found' *)
| RegistrationAlreadyCancelled (* 'Registration is already cancelled' *)
| AttendedClass             (* 'Cannot cancel an attended class' *)
| ClassStarted              (* 'Cannot cancel registration for a class that has started' *)
| DatabaseError             (* str(e) of an exception raised by the commit *)
| Uncaught.                 (* no result: an exception leaves the service call *)

Inductive Data :=
| BookingData (b : RoomBooking.t)
| ClassData (c : FitnessClass.t)
| SessionData (p : PersonalTrainingSession.t)
| RegistrationData (r : ClassRegistration.t)
| Message (m : string).

Inductive Result :=
| Success (d : Data)
| Failure (e : Error).

(** [result['success']] *)
Definition success (r : Result) : bool :=
  match r with Success _ => true | Failure _ => false end.

(** ** services/admin_service.py *)

Module AdminService.

Definition get_room_by_id (s : Session) (room_id : Z) : option Room.t :=
  find (fun r => Room.room_id r =? room_id) (rooms (db s)).

(** The query shared by book_room and is_room_available:
    room_id and booking_date equal, [status != CANCELLED] (in SQL a NULL
    status does not satisfy the comparison). *)
Definition existing_bookings (s : Session) (room_id : Z) (booking_date : date)
  : list RoomBooking.t :=
  filter (fun b =>
            (RoomBooking.room_id b =? room_id)
            && (RoomBooking.booking_date b =? booking_date)
            && match RoomBooking.status b with
               | Some st => negb (BookingStatus.eqb st BookingStatus.CANCELLED)
               | None => false
               end)
         (room_bookings (db s)).

Definition book_room (s : Session) (now : datetime)
           (room_id : Z) (booking_date : date) (start_time end_time : time)
           (purpose : option string) (admin_id : option Z) : Result * Session :=
  match get_room_by_id s room_id with
  | None => (Failure RoomNotFound, s)
  | Some _ =>
      if start_time >=? end_time then (Failure InvalidRange, s)
      else if booking_date <? dt_date now then (Failure PastDate, s)
      else
        let new_booking :=
          RoomBooking.mk None room_id booking_date start_time end_time
                         purpose admin_id None in
        match find (fun booking => RoomBooking.conflicts_with new_booking booking)
                   (existing_bookings s room_id booking_date) with
        | Some booking =>
            (Failure (Conflict (RoomBooking.start_time booking)
                               (RoomBooking.end_time booking)), s)
        | None =>
            let s1 := add (AddRoomBooking new_booking) s in
            match commit s1 with
            | Some s2 =>
                (Success (BookingData
                            (RoomBooking.inserted (next_booking_id (db s)) new_booking)), s2)
            | None => (Failure DatabaseError, rollback s1)
            end
        end
  end.

Definition cancel_room_booking (s : Session) (booking_id : Z) : Result * Session :=
  match find (fun b => has_id (RoomBooking.booking_id b) booking_id)
             (room_bookings (db s)) with
  | None => (Failure BookingNotFound, s)
  | Some _ =>
      let s1 := add (SetBookingStatus booking_id BookingStatus.CANCELLED) s in
      match commit s1 with
      | Some s2 => (Success (Message "Booking cancelled"), s2)
      | None => (Failure DatabaseError, rollback s1)
      end
  end.

Definition is_room_available (s : Session) (room_id : Z) (booking_date : date)
           (start_time end_time : time) : bool :=
  match find (fun booking =>
                (start_time <? RoomBooking.end_time booking)
                && (RoomBooking.start_time booking <? end_time))
             (existing_bookings s room_id booking_date) with
  | Some _ => false
  | None => true
  end.

Definition create_class (s : Session) (now : datetime)
           (name : string) (trainer_id room_id : Z)
           (scheduled_time : datetime) (duration_minutes : Z)
           (capacity : option Z) (description : option string) : Result * Session :=
  if negb (mem_id trainer_id (trainers (db s))) then (Failure TrainerNotFound, s)
  else
    match get_room_by_id s room_id with
    | None => (Failure RoomNotFound, s)
    | Some room =>
        let checked_capacity :=
          match capacity with
          | None => inl (Room.capacity room)
          | Some c =>
              if c >? Room.capacity room
              then inr (CapacityExceeded c (Room.capacity room))
              else inl c
          end in
        match checked_capacity with
        | inr e => (Failure e, s)
        | inl capacity =>
            if duration_minutes <=? 0 then (Failure DurationNotPositive, s)
            else if scheduled_time <? now then (Failure PastSchedule, s)
            else
              let end_time := scheduled_time + timedelta_minutes duration_minutes in
              let booking_date := dt_date scheduled_time in
              let start_time_only := dt_time scheduled_time in
              let end_time_only := dt_time end_time in
              if negb (is_room_available s room_id booking_date
                                         start_time_only end_time_only)
              then (Failure RoomConflict, s)
              else
                let fitness_class :=
                  FitnessClass.mk None name description trainer_id room_id
                                  scheduled_time duration_minutes capacity
                                  ClassStatus.SCHEDULED in
                let s1 := add (AddFitnessClass fitness_class) s in
                let room_booking :=
                  RoomBooking.mk None room_id booking_date
                                 start_time_only end_time_only
                                 (Some ("Fitness Class: " ++ name)%string) None
                                 (Some BookingStatus.CONFIRMED) in
                let s2 := add (AddRoomBooking room_booking) s1 in
                match commit s2 with
                | Some s3 =>
                    (Success (ClassData
                                (FitnessClass.inserted (next_class_id (db s)) fitness_class)),
                     s3)
                | None => (Failure DatabaseError, rollback s2)
                end
        end
    end.

Definition get_class_by_id (s : Session) (class_id : Z) : option FitnessClass.t :=
  find (fun c => has_id (FitnessClass.class_id c) class_id) (fitness_classes (db s)).

Definition cancel_class (s : Session) (class_id : Z) : Result * Session :=
  match get_class_by_id s class_id with
  | None => (Failure ClassNotFound, s)
  | Some _ =>
      let s1 := add (SetClassStatus class_id ClassStatus.CANCELLED) s in
      match commit s1 with
      | Some s2 => (Success (Message "Class cancelled"), s2)
      | None => (Failure DatabaseError, rollback s1)
      end
  end.

(** create_room.  [room_type] is the outcome of the lookup
    [RoomType(room_type.lower())]: [None] when it raises ValueError.  The
    INSERT fails on a capacity beyond the INTEGER column, on a name longer
    than the column (VARCHAR(100)) and on a name already taken (the unique
    constraint on rooms.name). *)
Inductive RoomType := STUDIO | GYM_FLOOR | TRAINING_ROOM | POOL | OUTDOOR.

Inductive RoomError :=
| CapacityNotPositive       (* 'Capacity must be positive' *)
| InvalidRoomType           (* f'Invalid room type. Must be one of: {...}' *)
| RoomNameExists            (* 'Room with this name already exists' *)
| RoomDatabaseError.        (* str(e) of an exception raised by the commit *)

Inductive RoomResult :=
| RoomCreated (r : Room.t)
| RoomFailure (e : RoomError).

Definition create_room (c : Club) (name : string) (capacity : Z)
           (room_type : option RoomType) : RoomResult * Club :=
  let s := session c in
  if capacity <=? 0 then (RoomFailure CapacityNotPositive, c)
  else
    match room_type with
    | None => (RoomFailure InvalidRoomType, c)
    | Some _ =>
        match find (fun r => String.eqb (Room.name r) name) (rooms (db s)) with
        | Some _ => (RoomFailure RoomNameExists, c)
        | None =>
            (* session.add(room); session.commit() *)
            match flush (pending s) (db s) with
            | Some d =>
                if (capacity <=? 2147483647)
                   && (String.length name <=? 100)%nat
                   && negb (existsb (fun r => String.eqb (Room.name r) name) (rooms d))
                then
                  (RoomCreated (Room.mk (next_room_id c) name capacity),
                   mkClub (mkSession
                             (with_rooms
                                (rooms d ++ [Room.mk (next_room_id c) name capacity]) d)
                             [])
                          (next_room_id c + 1) (next_availability_id c))
                else
                  (RoomFailure RoomDatabaseError,
                   mkClub (rollback s) (next_room_id c) (next_availability_id c))
            | None =>
                (RoomFailure RoomDatabaseError,
                 mkClub (rollback s) (next_room_id c) (next_availability_id c))
            end
        end
    end.

End AdminService.

(** ** services/member_service.py *)

Module MemberService.

(** The filter shared by the three session-conflict queries: a SCHEDULED
    session whose scheduled_time lies in [[window_start, window_end)]. *)
Definition starts_within (window_start window_end : datetime)
           (p : PersonalTrainingSession.t) : bool :=
  SessionStatus.eqb (PersonalTrainingSession.status p) SessionStatus.SCHEDULED
  && (PersonalTrainingSession.scheduled_time p <? window_end)
  && (PersonalTrainingSession.scheduled_time p >=? window_start).

Definition book_personal_training_session (s : Session) (now : datetime)
           (member_id trainer_id : Z) (scheduled_time : datetime)
           (duration_minutes : Z) (room_id : option Z) (notes : option string)
  : Result * Session :=
  if negb (mem_id member_id (members (db s))) then (Failure MemberNotFound, s)
  else if negb (mem_id trainer_id (trainers (db s))) then (Failure TrainerNotFound, s)
  else if scheduled_time <=? now then (Failure SessionNotInFuture, s)
  else
    let end_time := scheduled_time + timedelta_minutes duration_minutes in
    let day_of_week := DayOfWeek.of_date (dt_date scheduled_time) in
    let start_time := dt_time scheduled_time in
    let trainer_available :=
      find (fun a =>
              (TrainerAvailability.trainer_id a =? trainer_id)
              && DayOfWeek.eqb (TrainerAvailability.day_of_week a) day_of_week
              && (TrainerAvailability.start_time a <=? start_time)
              && (TrainerAvailability.end_time a >=? dt_time end_time))
           (trainer_availability (db s)) in
    match trainer_available with
    | None => (Failure (TrainerUnavailable day_of_week start_time), s)
    | Some _ =>
        let trainer_conflict :=
          find (fun p =>
                  (PersonalTrainingSession.trainer_id p =? trainer_id)
                  && starts_within scheduled_time end_time p)
               (personal_training_sessions (db s)) in
        match trainer_conflict with
        | Some _ => (Failure TrainerConflict, s)
        | None =>
            let member_session_conflict :=
              find (fun p =>
                      (PersonalTrainingSession.member_id p =? member_id)
                      && starts_within scheduled_time end_time p)
                   (personal_training_sessions (db s)) in
            match member_session_conflict with
            | Some _ => (Failure MemberConflict, s)
            | None =>
                let room_conflict :=
                  match room_id with
                  | Some r =>
                      if r =? 0 then None   (* [if room_id:] is false for 0 *)
                      else
                        find (fun b =>
                                (RoomBooking.room_id b =? r)
                                && (RoomBooking.booking_date b =? dt_date scheduled_time)
                                && match RoomBooking.status b with
                                   | Some st => BookingStatus.eqb st BookingStatus.CONFIRMED
                                   | None => false
                                   end
                                && (RoomBooking.start_time b <? dt_time end_time)
                                && (RoomBooking.end_time b >? start_time))
                             (room_bookings (db s))
                  | None => None
                  end in
                match room_conflict with
                | Some _ => (Failure RoomConflict, s)
                | None =>
                    let session :=
                      PersonalTrainingSession.mk None member_id trainer_id room_id
                                                 scheduled_time duration_minutes notes
                                                 SessionStatus.SCHEDULED in
                    let s1 := add (AddSession session) s in
                    match commit s1 with
                    | Some s2 =>
                        (Success (SessionData
                                    (PersonalTrainingSession.inserted
                                       (next_session_id (db s)) session)), s2)
                    | None => (Failure DatabaseError, rollback s1)
                    end
                end
            end
        end
    end.

Definition find_session (s : Session) (member_id session_id : Z)
  : option PersonalTrainingSession.t :=
  find (fun p =>
          has_id (PersonalTrainingSession.session_id p) session_id
          && (PersonalTrainingSession.member_id p =? member_id))
       (personal_training_sessions (db s)).

Definition cancel_pt_session (s : Session) (now : datetime)
           (member_id session_id : Z) : Result * Session :=
  match find_session s member_id session_id with
  | None => (Failure SessionNotFound, s)
  | Some session =>
      if SessionStatus.eqb (PersonalTrainingSession.status session) SessionStatus.CANCELLED
      then (Failure SessionAlreadyCancelled, s)
      else if SessionStatus.eqb (PersonalTrainingSession.status session) SessionStatus.COMPLETED
      then (Failure SessionAlreadyCompleted, s)
      else if PersonalTrainingSession.scheduled_time session <=? now
      then (Failure PastSession, s)
      else
        let s1 := add (SetSessionStatus session_id SessionStatus.CANCELLED) s in
        match commit s1 with
        | Some s2 => (Success (Message "Session cancelled successfully"), s2)
        | None => (Failure DatabaseError, rollback s1)
        end
  end.

Definition reschedule_pt_session (s : Session) (now : datetime)
           (member_id session_id : Z) (new_time : datetime) : Result * Session :=
  match find_session s member_id session_id with
  | None => (Failure SessionNotFound, s)
  | Some old_session =>
      if negb (SessionStatus.eqb (PersonalTrainingSession.status old_session)
                                 SessionStatus.SCHEDULED)
      then (Failure NotScheduled, s)
      else
        (* old_session.status = SessionStatus.CANCELLED *)
        let s1 := add (SetSessionStatus session_id SessionStatus.CANCELLED) s in
        let (result, s2) :=
          book_personal_training_session
            s1 now member_id
            (PersonalTrainingSession.trainer_id old_session)
            new_time
            (PersonalTrainingSession.duration_minutes old_session)
            (PersonalTrainingSession.room_id old_session)
            (PersonalTrainingSession.notes old_session) in
        match result with
        | Success data =>
            match commit s2 with
            | Some s3 => (Success data, s3)
            | None => (Failure Uncaught, s2)
            end
        | Failure _ => (result, rollback s2)
        end
  end.

Definition register_for_class (s : Session) (now : datetime)
           (member_id class_id : Z) : Result * Session :=
  if negb (mem_id member_id (members (db s))) then (Failure MemberNotFound, s)
  else
    match find (fun c => has_id (FitnessClass.class_id c) class_id)
               (fitness_classes (db s)) with
    | None => (Failure ClassNotFound, s)
    | Some fitness_class =>
        if negb (ClassStatus.eqb (FitnessClass.status fitness_class) ClassStatus.SCHEDULED)
        then (Failure ClassNotAvailable, s)
        else if FitnessClass.scheduled_time fitness_class <=? now
        then (Failure PastClass, s)
        else
          let existing_registration :=
            find (fun r =>
                    (ClassRegistration.member_id r =? member_id)
                    && (ClassRegistration.class_id r =? class_id)
                    && (RegistrationStatus.eqb (ClassRegistration.status r)
                                               RegistrationStatus.REGISTERED
                        || RegistrationStatus.eqb (ClassRegistration.status r)
                                                  RegistrationStatus.ATTENDED))
                 (class_registrations (db s)) in
          match existing_registration with
          | Some _ => (Failure AlreadyRegistered, s)
          | None =>
              let registered_count :=
                Z.of_nat (List.length
                  (filter (fun r =>
                             (ClassRegistration.class_id r =? class_id)
                             && RegistrationStatus.eqb (ClassRegistration.status r)
                                                       RegistrationStatus.REGISTERED)
                          (class_registrations (db s)))) in
              if registered_count >=? FitnessClass.capacity fitness_class
              then (Failure ClassFull, s)
              else
                let class_end_time := FitnessClass.get_end_time fitness_class in
                let session_conflict :=
                  find (fun p =>
                          (PersonalTrainingSession.member_id p =? member_id)
                          && starts_within (FitnessClass.scheduled_time fitness_class)
                                           class_end_time p)
                       (personal_training_sessions (db s)) in
                match session_conflict with
                | Some _ => (Failure SessionConflict, s)
                | None =>
                    let registration :=
                      ClassRegistration.mk None member_id class_id
                                           RegistrationStatus.REGISTERED in
                    let s1 := add (AddRegistration registration) s in
                    match commit s1 with
                    | Some s2 =>
                        (Success (RegistrationData
                                    (ClassRegistration.inserted
                                       (next_registration_id (db s)) registration)), s2)
                    | None =>
                        (* except IntegrityError *)
                        (Failure AlreadyRegistered, rollback s1)
                    end
                end
          end
    end.

Definition cancel_class_registration (s : Session) (now : datetime)
           (member_id registration_id : Z) : Result * Session :=
  match find (fun r =>
                has_id (ClassRegistration.registration_id r) registration_id
                && (ClassRegistration.member_id r =? member_id))
             (class_registrations (db s)) with
  | None => (Failure RegistrationNotFound, s)
  | Some registration =>
      if RegistrationStatus.eqb (ClassRegistration.status registration)
                                RegistrationStatus.CANCELLED
      then (Failure RegistrationAlreadyCancelled, s)
      else if RegistrationStatus.eqb (ClassRegistration.status registration)
                                     RegistrationStatus.ATTENDED
      then (Failure AttendedClass, s)
      else
        (* registration.fitness_class: the row the foreign key points to *)
        match find (fun c => has_id (FitnessClass.class_id c)
                                    (ClassRegistration.class_id registration))
                   (fitness_classes (db s)) with
        | None => (Failure Uncaught, s)
        | Some fitness_class =>
            if FitnessClass.scheduled_time fitness_class <=? now
            then (Failure ClassStarted, s)
            else
              let s1 := add (SetRegistrationStatus registration_id
                                                   RegistrationStatus.CANCELLED) s in
              match commit s1 with
              | Some s2 => (Success (Message "Registration cancelled successfully"), s2)
              | None => (Failure DatabaseError, rollback s1)
              end
        end
  end.

End MemberService.

(** ** Sequences of service calls *)

Inductive Call :=
| BookRoom (now : datetime) (room_id : Z) (booking_date : date)
           (start_time end_time : time) (purpose : option string) (admin_id : option Z)
| CancelRoomBooking (booking_id : Z)
| CreateClass (now : datetime) (name : string) (trainer_id room_id : Z)
              (scheduled_time : datetime) (duration_minutes : Z)
              (capacity : option Z) (description : option string)
| CancelClass (class_id : Z)
| BookSession (now : datetime) (member_id trainer_id : Z) (scheduled_time : datetime)
              (duration_minutes : Z) (room_id : option Z) (notes : option string)
| CancelSession (now : datetime) (member_id session_id : Z)
| RescheduleSession (now : datetime) (member_id session_id : Z) (new_time : datetime)
| RegisterForClass (now : datetime) (member_id class_id : Z)
| CancelRegistration (now : datetime) (member_id registration_id : Z).

Definition call (s : Session) (c : Call) : Result * Session :=
  match c with
  | BookRoom now r d st en p a => AdminService.book_room s now r d st en p a
  | CancelRoomBooking b => AdminService.cancel_room_booking s b
  | CreateClass now n t r sch dur cap desc =>
      AdminService.create_class s now n t r sch dur cap desc
  | CancelClass c => AdminService.cancel_class s c
  | BookSession now m t sch dur r n =>
      MemberService.book_personal_training_session s now m t sch dur r n
  | CancelSession now m p => MemberService.cancel_pt_session s now m p
  | RescheduleSession now m p t => MemberService.reschedule_pt_session s now m p t
  | RegisterForClass now m c => MemberService.register_for_class s now m c
  | CancelRegistration now m r => MemberService.cancel_class_registration s now m r
  end.

Fixpoint run (s : Session) (cs : list Call) : Session :=
  match cs with
  | [] => s
  | c :: cs' => run (snd (call s c)) cs'
  end.

(** The results of the calls of a sequence, in order. *)
Fixpoint results (s : Session) (cs : list Call) : list Result :=
  match cs with
  | [] => []
  | c :: cs' => fst (call s c) :: results (snd (call s c)) cs'
  end.

(** ** Properties of the room-booking table *)

(** The half-open overlap test on two bookings' time windows. *)
Definition windows_overlap (a b : RoomBooking.t) : Prop :=
  RoomBooking.start_time a < RoomBooking.end_time b
  /\ RoomBooking.start_time b < RoomBooking.end_time a.

Definition not_cancelled (b : RoomBooking.t) : Prop :=
  RoomBooking.status b <> Some BookingStatus.CANCELLED.

(** No two distinct non-cancelled bookings of one room on one date overlap. *)
Definition no_double_booking (d : Database) : Prop :=
  forall a b,
    In a (room_bookings d) -> In b (room_bookings d) ->
    RoomBooking.booking_id a <> RoomBooking.booking_id b ->
    RoomBooking.room_id a = RoomBooking.room_id b ->
    RoomBooking.booking_date a = RoomBooking.booking_date b ->
    not_cancelled a -> not_cancelled b ->
    ~ windows_overlap a b.

(** What the database itself guarantees of room_bookings: primary keys are
    set, below the sequence and unique, and status is never NULL. *)
Definition bookings_well_keyed (d : Database) : Prop :=
  (forall b, In b (room_bookings d) ->
             (exists id, RoomBooking.booking_id b = Some id /\ id < next_booking_id d)
             /\ RoomBooking.status b <> None)
  /\ NoDup (map RoomBooking.booking_id (room_bookings d)).

(** The inductive form of the invariant, on the code's own predicate. *)
Definition conflict_free (l : list RoomBooking.t) : Prop :=
  ForallOrdPairs (fun a b => RoomBooking.conflicts_with a b = false) l.

(** ** Scenario data *)

Definition studio_a : Room.t := Room.mk 1 "Studio A" 30.

(** A club with two members, one trainer available on Mondays 09:00-12:00,
    one admin and one room; nothing is booked yet. *)
Definition club : Database :=
  mkDatabase [1; 2] [1] [1] [studio_a] []
             [TrainerAvailability.mk (Some 1) 1 DayOfWeek.MONDAY (hm 9 0) (hm 12 0)]
             [] [] []
             1 1 1 1.

Definition club_session : Session := mkSession club [].

(** 2025-05-01 12:00, the clock reading of the scenarios. *)
Definition may_1_noon : datetime := datetime_combine (ymd 2025 5 1) (hm 12 0).

(** 2025-06-01 is a Sunday and 2025-06-02 a Monday. *)
Definition june_1 : date := ymd 2025 6 1.
Definition june_2 : date := ymd 2025 6 2.

(** ** Predicates used to state the properties *)

(** Operations other than an insert into, or an update of, room_bookings. *)
Definition leaves_bookings (op : PendingOp) : Prop :=
  match op with
  | AddRoomBooking _ | SetBookingStatus _ _ => False
  | _ => True
  end.

(** Two databases with the same room_bookings table and sequence. *)
Definition same_bookings (d d' : Database) : Prop :=
  room_bookings d' = room_bookings d /\ next_booking_id d' = next_booking_id d.

(** The invariant in the form that each call preserves. *)
Definition booking_inv (d : Database) : Prop :=
  bookings_well_keyed d /\ conflict_free (room_bookings d).

(** The room, the date and the window are valid for book_room at [now]. *)
Definition bookable (s : Session) (now : datetime) (room_id : Z) (booking_date : date)
           (start_time end_time : time) : Prop :=
  AdminService.get_room_by_id s room_id <> None
  /\ start_time < end_time
  /\ dt_date now <= booking_date.

(** A non-cancelled booking of the room on the date whose window overlaps
    [[start_time, end_time)]. *)
Definition collides (room_id : Z) (booking_date : date) (start_time end_time : time)
           (b : RoomBooking.t) : Prop :=
  RoomBooking.room_id b = room_id
  /\ RoomBooking.booking_date b = booking_date
  /\ not_cancelled b
  /\ start_time < RoomBooking.end_time b
  /\ RoomBooking.start_time b < end_time.

(** An availability slot of the trainer on the weekday of [scheduled_time]
    that contains the session: it starts no later than the session's start
    time and ends no earlier than the session's end time, both taken as
    times of day. *)
Definition contains_session (trainer_id : Z) (scheduled_time : datetime)
           (duration_minutes : Z) (a : TrainerAvailability.t) : Prop :=
  TrainerAvailability.trainer_id a = trainer_id
  /\ TrainerAvailability.day_of_week a = DayOfWeek.of_date (dt_date scheduled_time)
  /\ TrainerAvailability.start_time a <= dt_time scheduled_time
  /\ dt_time (scheduled_time + timedelta_minutes duration_minutes)
     <= TrainerAvailability.end_time a.

(** Steps 1 to 4 of the booking pass: member and trainer exist, the time
    is in the future, and some slot contains the session. *)
Definition bookable_session (s : Session) (now : datetime) (member_id trainer_id : Z)
           (scheduled_time : datetime) (duration_minutes : Z) : Prop :=
  In member_id (members (db s))
  /\ In trainer_id (trainers (db s))
  /\ now < scheduled_time
  /\ exists a, In a (trainer_availability (db s))
               /\ contains_session trainer_id scheduled_time duration_minutes a.

(** A scheduled session that starts in [[window_start, window_end)]. *)
Definition starts_in (window_start window_end : datetime)
           (p : PersonalTrainingSession.t) : Prop :=
  PersonalTrainingSession.status p = SessionStatus.SCHEDULED
  /\ window_start <= PersonalTrainingSession.scheduled_time p < window_end.

(** The room booking create_class derives from the class. *)
Definition class_booking (id : Z) (name : string) (room_id : Z)
           (scheduled_time : datetime) (duration_minutes : Z) : RoomBooking.t :=
  RoomBooking.mk (Some id) room_id (dt_date scheduled_time) (dt_time scheduled_time)
                 (dt_time (scheduled_time + timedelta_minutes duration_minutes))
                 (Some ("Fitness Class: " ++ name)%string) None
                 (Some BookingStatus.CONFIRMED).

(** The checks of create_class other than room availability pass. *)
Definition schedulable (s : Session) (now : datetime) (trainer_id room_id : Z)
           (scheduled_time : datetime) (duration_minutes : Z) (capacity : option Z) : Prop :=
  In trainer_id (trainers (db s))
  /\ (exists room, AdminService.get_room_by_id s room_id = Some room
                   /\ match capacity with
                      | Some c => c <= Room.capacity room
                      | None => True
                      end)
  /\ 0 < duration_minutes
  /\ now <= scheduled_time.

(** Case analysis along every path of a service function. *)
Ltac case_paths :=
  repeat match goal with
         | |- context [match ?x with _ => _ end] => destruct x eqn:?
         end.

(** ** Predicates on registrations and sessions *)

(** The count register_for_class compares with the capacity: the
    REGISTERED rows of the class. *)
Definition registered_count (d : Database) (class_id : Z) : Z :=
  Z.of_nat (List.length
    (filter (fun r =>
               (ClassRegistration.class_id r =? class_id)
               && RegistrationStatus.eqb (ClassRegistration.status r)
                                         RegistrationStatus.REGISTERED)
            (class_registrations d))).

(** The member, the class and the clock allow a registration: the member
    exists, and the class is found, SCHEDULED and strictly in the future. *)
Definition registrable (s : Session) (now : datetime) (member_id class_id : Z)
           (c : FitnessClass.t) : Prop :=
  In member_id (members (db s))
  /\ find (fun c => has_id (FitnessClass.class_id c) class_id) (fitness_classes (db s))
     = Some c
  /\ FitnessClass.status c = ClassStatus.SCHEDULED
  /\ now < FitnessClass.scheduled_time c.

(** What the tables guarantee of classes and registrations: one row per
    (member, class) pair, class keys set, unique and below the sequence,
    registrations pointing below the sequence; and the capacity bound. *)
Definition registration_inv (d : Database) : Prop :=
  NoDup (map (fun r => (ClassRegistration.member_id r, ClassRegistration.class_id r))
             (class_registrations d))
  /\ NoDup (map FitnessClass.class_id (fitness_classes d))
  /\ (forall c, In c (fitness_classes d) ->
                exists k, FitnessClass.class_id c = Some k /\ k < next_class_id d)
  /\ (forall r, In r (class_registrations d) ->
                ClassRegistration.class_id r < next_class_id d)
  /\ (forall c k, In c (fitness_classes d) -> FitnessClass.class_id c = Some k ->
                  registered_count d k <= Z.max 0 (FitnessClass.capacity c)).

(** The statements a call hands to the unit of work. *)
Definition issues (c : Call) (op : PendingOp) : Prop :=
  match c with
  | BookRoom _ r d st en p a =>
      op = AddRoomBooking (RoomBooking.mk None r d st en p a None)
  | CancelRoomBooking b => op = SetBookingStatus b BookingStatus.CANCELLED
  | CreateClass _ _ _ _ _ _ _ _ =>
      (exists fc, op = AddFitnessClass fc) \/ (exists rb, op = AddRoomBooking rb)
  | CancelClass k => op = SetClassStatus k ClassStatus.CANCELLED
  | BookSession _ m t sch dur r n =>
      op = AddSession (PersonalTrainingSession.mk None m t r sch dur n
                                                  SessionStatus.SCHEDULED)
  | CancelSession _ _ p => op = SetSessionStatus p SessionStatus.CANCELLED
  | RescheduleSession _ m p t =>
      op = SetSessionStatus p SessionStatus.CANCELLED
      \/ exists tr dur r n,
           op = AddSession (PersonalTrainingSession.mk None m tr r t dur n
                                                       SessionStatus.SCHEDULED)
  | RegisterForClass _ m k =>
      op = AddRegistration (ClassRegistration.mk None m k RegistrationStatus.REGISTERED)
  | CancelRegistration _ _ r =>
      op = SetRegistrationStatus r RegistrationStatus.CANCELLED
  end.

(** Statements that keep [registration_inv] whatever the database. *)
Definition keeps_registrations (op : PendingOp) : Prop :=
  match op with
  | AddRegistration _ => False
  | SetRegistrationStatus _ st => st <> RegistrationStatus.REGISTERED
  | _ => True
  end.

(** The room of a session request passes: none is given, or the room
    exists and, unless its key is 0 (for which [if room_id:] skips the
    check), no CONFIRMED booking of the room on the session's date has
    start < session end and end > session start, as times of day. *)
Definition session_room_ok (s : Session) (room_id : option Z)
           (scheduled_time : datetime) (duration_minutes : Z) : Prop :=
  match room_id with
  | None => True
  | Some r =>
      room_exists r (db s) = true
      /\ (r = 0
          \/ forall b, In b (room_bookings (db s)) ->
                       ~ (RoomBooking.room_id b = r
                          /\ RoomBooking.booking_date b = dt_date scheduled_time
                          /\ RoomBooking.status b = Some BookingStatus.CONFIRMED
                          /\ RoomBooking.start_time b
                             < dt_time (scheduled_time + timedelta_minutes duration_minutes)
                          /\ dt_time scheduled_time < RoomBooking.end_time b))
  end.

(** No SCHEDULED session of the trainer or of the member starts in the
    window of the request. *)
Definition no_session_starts_in (s : Session) (member_id trainer_id : Z)
           (scheduled_time : datetime) (duration_minutes : Z) : Prop :=
  forall p, In p (personal_training_sessions (db s)) ->
            PersonalTrainingSession.trainer_id p = trainer_id
            \/ PersonalTrainingSession.member_id p = member_id ->
            ~ starts_in scheduled_time
                        (scheduled_time + timedelta_minutes duration_minutes) p.

(** Primary keys of personal_training_sessions are set and below the
    sequence. *)
Definition sessions_well_keyed (d : Database) : Prop :=
  forall p, In p (personal_training_sessions d) ->
            exists id, PersonalTrainingSession.session_id p = Some id
                       /\ id < next_session_id d.

(** ** services/trainer_service.py *)

Module TrainerService.

Inductive Error :=
| TrainerNotFound           (* 'Trainer not found' *)
| InvalidDay                (* f'Invalid day. Must be one of: {...}' *)
| InvalidRange              (* 'End time must be after start time' *)
| Overlap (start_time end_time : time)
                            (* f'Time slot overlaps with existing availability ({s}-{e})' *)
| SlotExists                (* 'This exact time slot already exists' *)
| SlotNotFound              (* 'Availability slot not found' *)
| DatabaseError.            (* str(e) of an exception raised by the commit *)

Inductive Data :=
| SlotData (a : TrainerAvailability.t)
| Message (m : string).

Inductive Result :=
| Success (d : Data)
| Failure (e : Error).

Definition success (r : Result) : bool :=
  match r with Success _ => true | Failure _ => false end.

(** The INSERT of a slot.  [None] stands for the IntegrityError of a
    violated constraint: the foreign key to trainers, or
    uq_trainer_availability_slot on (trainer_id, day_of_week, start_time,
    end_time). *)
Definition insert_slot (id : Z) (a : TrainerAvailability.t) (d : Database)
  : option Database :=
  if mem_id (TrainerAvailability.trainer_id a) (trainers d)
     && negb (existsb (fun a' =>
                 (TrainerAvailability.trainer_id a' =? TrainerAvailability.trainer_id a)
                 && DayOfWeek.eqb (TrainerAvailability.day_of_week a')
                                  (TrainerAvailability.day_of_week a)
                 && (TrainerAvailability.start_time a' =? TrainerAvailability.start_time a)
                 && (TrainerAvailability.end_time a' =? TrainerAvailability.end_time a))
               (trainer_availability d))
  then Some (with_trainer_availability
               (trainer_availability d
                  ++ [TrainerAvailability.mk (Some id)
                        (TrainerAvailability.trainer_id a)
                        (TrainerAvailability.day_of_week a)
                        (TrainerAvailability.start_time a)
                        (TrainerAvailability.end_time a)])
               d)
  else None.

(** The slots of a trainer on a day: the query of set_availability and of
    is_available_at. *)
Definition slots_on (s : Session) (trainer_id : Z) (day : DayOfWeek.t)
  : list TrainerAvailability.t :=
  filter (fun a =>
            (TrainerAvailability.trainer_id a =? trainer_id)
            && DayOfWeek.eqb (TrainerAvailability.day_of_week a) day)
         (trainer_availability (db s)).

(** [day_of_week] is the outcome of the lookup
    [DayOfWeek[day_of_week.upper()]]: [None] when it raises KeyError. *)
Definition set_availability (c : Club) (trainer_id : Z) (day_of_week : option DayOfWeek.t)
           (start_time end_time : time) : Result * Club :=
  let s := session c in
  if negb (mem_id trainer_id (trainers (db s))) then (Failure TrainerNotFound, c)
  else
    match day_of_week with
    | None => (Failure InvalidDay, c)
    | Some day_enum =>
        if start_time >=? end_time then (Failure InvalidRange, c)
        else
          let existing_slots := slots_on s trainer_id day_enum in
          let new_slot :=
            TrainerAvailability.mk None trainer_id day_enum start_time end_time in
          match find (fun slot => TrainerAvailability.overlaps_with new_slot slot)
                     existing_slots with
          | Some slot =>
              (Failure (Overlap (TrainerAvailability.start_time slot)
                                (TrainerAvailability.end_time slot)), c)
          | None =>
              (* session.add(new_slot); session.commit() *)
              match flush (pending s) (db s) with
              | Some d =>
                  match insert_slot (next_availability_id c) new_slot d with
                  | Some d' =>
                      (Success (SlotData
                                  (TrainerAvailability.mk
                                     (Some (next_availability_id c)) trainer_id day_enum
                                     start_time end_time)),
                       mkClub (mkSession d' []) (next_room_id c)
                              (next_availability_id c + 1))
                  | None =>
                      (Failure SlotExists,
                       mkClub (rollback s) (next_room_id c) (next_availability_id c))
                  end
              | None =>
                  (Failure SlotExists,
                   mkClub (rollback s) (next_room_id c) (next_availability_id c))
              end
          end
    end.

Definition delete_availability (c : Club) (trainer_id availability_id : Z)
  : Result * Club :=
  let s := session c in
  match find (fun a =>
                has_id (TrainerAvailability.availability_id a) availability_id
                && (TrainerAvailability.trainer_id a =? trainer_id))
             (trainer_availability (db s)) with
  | None => (Failure SlotNotFound, c)
  | Some _ =>
      (* session.delete(slot); session.commit() *)
      match flush (pending s) (db s) with
      | Some d =>
          (Success (Message "Availability slot deleted"),
           mkClub (mkSession
                     (with_trainer_availability
                        (filter (fun a =>
                                   negb (has_id (TrainerAvailability.availability_id a)
                                                availability_id))
                                (trainer_availability d))
                        d)
                     [])
                  (next_room_id c) (next_availability_id c))
      | None =>
          (Failure DatabaseError,
           mkClub (rollback s) (next_room_id c) (next_availability_id c))
      end
  end.

Definition is_available_at (s : Session) (trainer_id : Z) (day_of_week : DayOfWeek.t)
           (check_time : time) : bool :=
  match find (fun slot =>
                (TrainerAvailability.start_time slot <=? check_time)
                && (check_time <? TrainerAvailability.end_time slot))
             (slots_on s trainer_id day_of_week) with
  | Some _ => true
  | None => false
  end.

End TrainerService.

(** ** Calls of all the services *)

Inductive ClubCall :=
| Service (c : Call)
| CreateRoom (name : string) (capacity : Z) (room_type : option AdminService.RoomType)
| SetAvailability (trainer_id : Z) (day_of_week : option DayOfWeek.t)
                  (start_time end_time : time)
| DeleteAvailability (trainer_id availability_id : Z).

Definition club_call (c : Club) (k : ClubCall) : Club :=
  match k with
  | Service k' =>
      mkClub (snd (call (session c) k')) (next_room_id c) (next_availability_id c)
  | CreateRoom n cap ty => snd (AdminService.create_room c n cap ty)
  | SetAvailability t d st en => snd (TrainerService.set_availability c t d st en)
  | DeleteAvailability t a => snd (TrainerService.delete_availability c t a)
  end.

Fixpoint club_run (c : Club) (ks : list ClubCall) : Club :=
  match ks with
  | [] => c
  | k :: ks' => club_run (club_call c k) ks'
  end.

(** What the database guarantees of trainer_availability (keys set,
    below the sequence and unique), together with what set_availability
    maintains: no slot overlaps another one. *)
Definition availability_inv (c : Club) : Prop :=
  (forall a, In a (trainer_availability (db (session c))) ->
             exists id, TrainerAvailability.availability_id a = Some id
                        /\ id < next_availability_id c)
  /\ NoDup (map TrainerAvailability.availability_id
                (trainer_availability (db (session c))))
  /\ ForallOrdPairs (fun a b => TrainerAvailability.overlaps_with a b = false)
                    (trainer_availability (db (session c))).

(** What the database guarantees of rooms (keys below the sequence, names
    unique and within the column), together with what create_room
    maintains: capacities are positive. *)
Definition rooms_inv (c : Club) : Prop :=
  (forall r, In r (rooms (db (session c))) ->
             Room.room_id r < next_room_id c
             /\ 0 < Room.capacity r
             /\ (String.length (Room.name r) <= 100)%nat)
  /\ NoDup (map Room.room_id (rooms (db (session c))))
  /\ NoDup (map Room.name (rooms (db (session c)))).

(** The club of the scenarios with its sequences. *)
Definition the_club : Club := mkClub club_session 2 2.

(** ** models/fitness_class.py: the registrations of a class

    [self.registrations] is the relationship to class_registrations: the
    rows whose class_id is the key of the class, whatever their status.
    [current_registration_count] is [len(self.registrations)] (0 for the
    empty list as well). *)
Definition registrations (d : Database) (c : FitnessClass.t) : list ClassRegistration.t :=
  filter (fun r => has_id (FitnessClass.class_id c) (ClassRegistration.class_id r))
         (class_registrations d).

Definition current_registration_count (d : Database) (c : FitnessClass.t) : Z :=
  Z.of_nat (List.length (registrations d c)).

Definition has_capacity (d : Database) (c : FitnessClass.t) : bool :=
  current_registration_count d c <? FitnessClass.capacity c.

(** ** Listings

    [query.order_by(key).all()]: the rows in ascending order of the key.
    Rows with equal keys come in an order the database chooses; they are
    kept here in table order, and no property below depends on it. *)
Fixpoint insert_by {A} (key : A -> Z) (x : A) (l : list A) : list A :=
  match l with
  | [] => [x]
  | y :: l' => if key x <=? key y then x :: l else y :: insert_by key x l'
  end.

Definition order_by {A} (key : A -> Z) (l : list A) : list A :=
  fold_right (insert_by key) [] l.

(** MemberService.get_available_classes; [from_date] defaults to the
    clock. *)
Definition get_available_classes (s : Session) (now : datetime)
           (from_date : option datetime) : list FitnessClass.t :=
  let from_date := match from_date with Some t => t | None => now end in
  order_by FitnessClass.scheduled_time
           (filter (fun c =>
                      (FitnessClass.scheduled_time c >=? from_date)
                      && ClassStatus.eqb (FitnessClass.status c) ClassStatus.SCHEDULED)
                   (fitness_classes (db s))).



(** A value of [datetime.datetime]: 0001-01-01 00:00 up to 9999-12-31
    23:59:59.999999.  Outside of it [scheduled_time + timedelta(...)]
    raises OverflowError. *)
Definition valid_datetime (t : datetime) : Prop :=
  1 * usec_per_day <= t < 3652060 * usec_per_day.

(** The columns of a new class hold the request: the name fits
    VARCHAR(100), and duration and capacity (the room's, when none is
    given) fit INTEGER. *)
Definition storable_class (s : Session) (room_id : Z) (name : string)
           (duration_minutes : Z) (capacity : option Z) : Prop :=
  (String.length name <= 100)%nat
  /\ duration_minutes <= 2147483647
  /\ match capacity with
     | Some c => -2147483648 <= c
     | None => forall room, AdminService.get_room_by_id s room_id = Some room ->
                            -2147483648 <= Room.capacity room
     end
  /\ (forall room, AdminService.get_room_by_id s room_id = Some room ->
                   Room.capacity room <= 2147483647).

(** * Properties *)

(** ** Equality tests of the enumerations *)

Lemma DayOfWeek_eqb_eq (a b : DayOfWeek.t) : DayOfWeek.eqb a b = true <-> a = b.
Proof. destruct a, b; cbv; split; congruence. Qed.

Lemma DayOfWeek_eqb_sym (a b : DayOfWeek.t) : DayOfWeek.eqb a b = DayOfWeek.eqb b a.
Proof. unfold DayOfWeek.eqb. apply Z.eqb_sym. Qed.

Lemma BookingStatus_eqb_eq (a b : BookingStatus.t) : BookingStatus.eqb a b = true <-> a = b.
Proof. destruct a, b; cbn; split; congruence. Qed.

Lemma SessionStatus_eqb_eq (a b : SessionStatus.t) : SessionStatus.eqb a b = true <-> a = b.
Proof. destruct a, b; cbn; split; congruence. Qed.

Lemma RegistrationStatus_eqb_eq (a b : RegistrationStatus.t) :
  RegistrationStatus.eqb a b = true <-> a = b.
Proof. destruct a, b; cbn; split; congruence. Qed.

Lemma ClassStatus_eqb_eq (a b : ClassStatus.t) : ClassStatus.eqb a b = true <-> a = b.
Proof. destruct a, b; cbn; split; congruence. Qed.

Lemma is_cancelled_true (b : RoomBooking.t) :
  RoomBooking.is_cancelled b = true <-> RoomBooking.status b = Some BookingStatus.CANCELLED.
Proof.
  unfold RoomBooking.is_cancelled.
  destruct (RoomBooking.status b) as [st|]; [| split; discriminate].
  rewrite BookingStatus_eqb_eq. split; congruence.
Qed.

Lemma is_cancelled_false (b : RoomBooking.t) :
  RoomBooking.is_cancelled b = false <-> not_cancelled b.
Proof.
  unfold not_cancelled. rewrite <- is_cancelled_true.
  destruct (RoomBooking.is_cancelled b); split; congruence.
Qed.

(** ** The conflict predicates *)

Lemma conflicts_with_true (a b : RoomBooking.t) :
  RoomBooking.conflicts_with a b = true <->
  RoomBooking.room_id a = RoomBooking.room_id b
  /\ RoomBooking.booking_date a = RoomBooking.booking_date b
  /\ not_cancelled a /\ not_cancelled b
  /\ windows_overlap a b.
Proof.
  unfold RoomBooking.conflicts_with, windows_overlap.
  rewrite <- !is_cancelled_false.
  destruct (Z.eqb_spec (RoomBooking.room_id a) (RoomBooking.room_id b)) as [Hr|Hr]; cbn.
  2:{ split; [discriminate | tauto]. }
  destruct (Z.eqb_spec (RoomBooking.booking_date a) (RoomBooking.booking_date b)) as [Hd|Hd]; cbn.
  2:{ split; [discriminate | tauto]. }
  destruct (RoomBooking.is_cancelled a), (RoomBooking.is_cancelled b); cbn;
    try (split; [discriminate | intros (_ & _ & ? & ? & _); discriminate]).
  rewrite andb_true_iff, !Z.ltb_lt. tauto.
Qed.

Lemma overlaps_with_true (x y : TrainerAvailability.t) :
  TrainerAvailability.overlaps_with x y = true <->
  TrainerAvailability.trainer_id x = TrainerAvailability.trainer_id y
  /\ TrainerAvailability.day_of_week x = TrainerAvailability.day_of_week y
  /\ TrainerAvailability.start_time x < TrainerAvailability.end_time y
  /\ TrainerAvailability.start_time y < TrainerAvailability.end_time x.
Proof.
  unfold TrainerAvailability.overlaps_with.
  destruct (Z.eqb_spec (TrainerAvailability.trainer_id x) (TrainerAvailability.trainer_id y));
    cbn; [| split; [discriminate | tauto]].
  rewrite <- DayOfWeek_eqb_eq.
  destruct (DayOfWeek.eqb (TrainerAvailability.day_of_week x)
                          (TrainerAvailability.day_of_week y)); cbn.
  - rewrite andb_true_iff, !Z.ltb_lt. tauto.
  - split; [discriminate | intros (_ & ? & _); discriminate].
Qed.

Lemma conflicts_with_sym (a b : RoomBooking.t) :
  RoomBooking.conflicts_with a b = RoomBooking.conflicts_with b a.
Proof.
  unfold RoomBooking.conflicts_with.
  rewrite (Z.eqb_sym (RoomBooking.room_id b)), (Z.eqb_sym (RoomBooking.booking_date b)).
  rewrite (orb_comm (RoomBooking.is_cancelled b)).
  rewrite (andb_comm (RoomBooking.start_time b <? _)).
  reflexivity.
Qed.

(** C4. The time-interval conflict checker.  [RoomBooking.conflicts_with]
    is true exactly when the two bookings have the same room and the same
    date, neither has status CANCELLED, and the half-open windows overlap
    (start_a < end_b and start_b < end_a); so a cancelled booking
    conflicts with nothing.  [TrainerAvailability.overlaps_with] is the
    same test keyed by trainer and weekday; availability slots have no
    status and so are never cancelled.  Two intervals that touch at an
    endpoint (a.end = b.start) do not conflict, in either order.  Both
    predicates are functions of their two records alone: they neither read
    nor change the session. *)
Theorem conflict_checker_contract (a b : RoomBooking.t) (x y : TrainerAvailability.t) :
  (RoomBooking.conflicts_with a b = true <->
     RoomBooking.room_id a = RoomBooking.room_id b
     /\ RoomBooking.booking_date a = RoomBooking.booking_date b
     /\ RoomBooking.status a <> Some BookingStatus.CANCELLED
     /\ RoomBooking.status b <> Some BookingStatus.CANCELLED
     /\ RoomBooking.start_time a < RoomBooking.end_time b
     /\ RoomBooking.start_time b < RoomBooking.end_time a)
  /\ (RoomBooking.status a = Some BookingStatus.CANCELLED
      \/ RoomBooking.status b = Some BookingStatus.CANCELLED ->
      RoomBooking.conflicts_with a b = false)
  /\ (TrainerAvailability.overlaps_with x y = true <->
        TrainerAvailability.trainer_id x = TrainerAvailability.trainer_id y
        /\ TrainerAvailability.day_of_week x = TrainerAvailability.day_of_week y
        /\ TrainerAvailability.start_time x < TrainerAvailability.end_time y
        /\ TrainerAvailability.start_time y < TrainerAvailability.end_time x)
  /\ (RoomBooking.end_time a = RoomBooking.start_time b ->
        RoomBooking.conflicts_with a b = false /\ RoomBooking.conflicts_with b a = false)
  /\ (TrainerAvailability.end_time x = TrainerAvailability.start_time y ->
        TrainerAvailability.overlaps_with x y = false
        /\ TrainerAvailability.overlaps_with y x = false).
Proof.
  split; [exact (conflicts_with_true a b) |].
  split; [| split; [exact (overlaps_with_true x y) | split]].
  - intros Hc. destruct (RoomBooking.conflicts_with a b) eqn:E; [| reflexivity].
    apply conflicts_with_true in E. unfold not_cancelled in E. tauto.
  - intros Htouch. split.
    + destruct (RoomBooking.conflicts_with a b) eqn:E; [| reflexivity].
      apply conflicts_with_true in E. unfold windows_overlap in E. lia.
    + destruct (RoomBooking.conflicts_with b a) eqn:E; [| reflexivity].
      apply conflicts_with_true in E. unfold windows_overlap in E. lia.
  - intros Htouch. split.
    + destruct (TrainerAvailability.overlaps_with x y) eqn:E; [| reflexivity].
      apply overlaps_with_true in E. lia.
    + destruct (TrainerAvailability.overlaps_with y x) eqn:E; [| reflexivity].
      apply overlaps_with_true in E. lia.
Qed.

(** The contract at the bookings 09:00-10:00 and 10:00-11:00 of one room,
    at the cancelled booking 09:30-10:30 of that room, which overlaps the
    first and does not conflict with it, and at the Monday slots
    09:00-12:00 and 12:00-14:00 of one trainer. *)
Lemma conflict_checker_contract_witness :
  let a := RoomBooking.mk (Some 1) 1 june_1 (hm 9 0) (hm 10 0) None None
                          (Some BookingStatus.CONFIRMED) in
  let b := RoomBooking.mk (Some 2) 1 june_1 (hm 10 0) (hm 11 0) None None
                          (Some BookingStatus.CONFIRMED) in
  let c := RoomBooking.mk (Some 3) 1 june_1 (hm 9 30) (hm 10 30) None None
                          (Some BookingStatus.CANCELLED) in
  let x := TrainerAvailability.mk (Some 1) 1 DayOfWeek.MONDAY (hm 9 0) (hm 12 0) in
  let y := TrainerAvailability.mk (Some 2) 1 DayOfWeek.MONDAY (hm 12 0) (hm 14 0) in
  (RoomBooking.conflicts_with a b = false /\ RoomBooking.conflicts_with b a = false)
  /\ (TrainerAvailability.overlaps_with x y = false
      /\ TrainerAvailability.overlaps_with y x = false)
  /\ RoomBooking.conflicts_with a c = false
  /\ RoomBooking.conflicts_with c a = false.
Proof.
  intros a b c x y.
  destruct (conflict_checker_contract a b x y) as (_ & _ & _ & Hroom & Hslot).
  destruct (conflict_checker_contract a c x y) as (_ & Hac & _).
  destruct (conflict_checker_contract c a x y) as (_ & Hca & _).
  split; [apply Hroom; reflexivity |].
  split; [apply Hslot; reflexivity |].
  split; [apply Hac; right; reflexivity | apply Hca; left; reflexivity].
Defined.

(** C10. Both conflict predicates are symmetric in their two arguments. *)
Theorem conflict_predicates_symmetric (a b : RoomBooking.t) (x y : TrainerAvailability.t) :
  RoomBooking.conflicts_with a b = RoomBooking.conflicts_with b a
  /\ TrainerAvailability.overlaps_with x y = TrainerAvailability.overlaps_with y x.
Proof.
  split; [apply conflicts_with_sym |].
  unfold TrainerAvailability.overlaps_with.
  rewrite (Z.eqb_sym (TrainerAvailability.trainer_id y)).
  rewrite (DayOfWeek_eqb_sym (TrainerAvailability.day_of_week y)).
  rewrite (andb_comm (TrainerAvailability.start_time y <? _)).
  reflexivity.
Qed.

(** ** The unit of work *)

Lemma commit_pending (s s' : Session) : commit s = Some s' -> pending s' = [].
Proof.
  unfold commit. destruct (flush (pending s) (db s)); [| discriminate].
  intros [= <-]. reflexivity.
Qed.

Lemma commit_flush (s s' : Session) :
  commit s = Some s' -> flush (pending s) (db s) = Some (db s').
Proof.
  unfold commit. destruct (flush (pending s) (db s)); [| discriminate].
  intros [= <-]. reflexivity.
Qed.

Lemma flush_app (ops ops' : list PendingOp) (d : Database) :
  flush (ops ++ ops') d =
  match flush ops d with Some d' => flush ops' d' | None => None end.
Proof.
  revert d. induction ops as [|op ops IH]; intros d; cbn; [reflexivity |].
  destruct (apply_op d op); [apply IH | reflexivity].
Qed.

Lemma commit_add_single (s s' : Session) (op : PendingOp) :
  pending s = [] -> commit (add op s) = Some s' -> apply_op (db s) op = Some (db s').
Proof.
  intros Hp H. apply commit_flush in H. cbn in H. rewrite Hp in H. cbn in H.
  destruct (apply_op (db s) op); [assumption | discriminate].
Qed.

Lemma commit_add_pair (s s' : Session) (op1 op2 : PendingOp) :
  pending s = [] -> commit (add op2 (add op1 s)) = Some s' ->
  exists d1, apply_op (db s) op1 = Some d1 /\ apply_op d1 op2 = Some (db s').
Proof.
  intros Hp H. apply commit_flush in H. unfold add in H. cbn [pending db] in H.
  rewrite Hp in H. cbn [app flush] in H.
  destruct (apply_op (db s) op1) as [d1|]; [| discriminate].
  exists d1. split; [reflexivity |].
  destruct (apply_op d1 op2); [assumption | discriminate].
Qed.

Lemma same_bookings_refl (d : Database) : same_bookings d d.
Proof. split; reflexivity. Qed.

Lemma apply_op_same_bookings (d d' : Database) (op : PendingOp) :
  leaves_bookings op -> apply_op d op = Some d' -> same_bookings d d'.
Proof.
  destruct op; cbn; try contradiction; intros _;
    repeat match goal with
           | |- context [if ?c then _ else _] => destruct c
           end;
    intros [= <-]; split; reflexivity.
Qed.

Lemma flush_same_bookings (ops : list PendingOp) (d d' : Database) :
  Forall leaves_bookings ops -> flush ops d = Some d' -> same_bookings d d'.
Proof.
  intros Hops. revert d.
  induction Hops as [|op ops Hop _ IH]; intros d; cbn.
  - intros [= <-]. apply same_bookings_refl.
  - destruct (apply_op d op) as [d1|] eqn:E; [| discriminate].
    intros H. apply IH in H. apply (apply_op_same_bookings _ _ _ Hop) in E.
    destruct E as [E1 E2], H as [H1 H2]. split; congruence.
Qed.

(** ** The room-booking invariant *)

Lemma booking_inv_same (d d' : Database) :
  same_bookings d d' -> booking_inv d -> booking_inv d'.
Proof.
  intros [Hb Hn]. unfold booking_inv, bookings_well_keyed. rewrite Hb, Hn. tauto.
Qed.

Lemma conflict_free_snoc (l : list RoomBooking.t) (x : RoomBooking.t) :
  conflict_free l ->
  (forall b, In b l -> RoomBooking.conflicts_with b x = false) ->
  conflict_free (l ++ [x]).
Proof.
  unfold conflict_free. induction 1 as [|a l Ha Hl IH]; intros Hx; cbn.
  - constructor; constructor.
  - constructor.
    + apply Forall_app. split; [assumption |].
      constructor; [apply Hx; left; reflexivity | constructor].
    + apply IH. intros b Hb. apply Hx. right. assumption.
Qed.

Lemma conflicts_with_cancelled_l (a b : RoomBooking.t) :
  RoomBooking.conflicts_with (RoomBooking.set_status BookingStatus.CANCELLED a) b = false.
Proof.
  unfold RoomBooking.conflicts_with. cbn.
  destruct (negb _); [reflexivity |]. destruct (negb _); reflexivity.
Qed.

Lemma conflicts_with_cancelled_r (a b : RoomBooking.t) :
  RoomBooking.conflicts_with a (RoomBooking.set_status BookingStatus.CANCELLED b) = false.
Proof. rewrite conflicts_with_sym. apply conflicts_with_cancelled_l. Qed.

Lemma conflict_free_cancel (id : Z) (l : list RoomBooking.t) :
  conflict_free l ->
  conflict_free (update_where RoomBooking.booking_id
                              (RoomBooking.set_status BookingStatus.CANCELLED) id l).
Proof.
  unfold conflict_free, update_where.
  induction 1 as [|a l Ha Hl IH]; cbn; constructor; [| assumption].
  apply Forall_map. rewrite Forall_forall in *. intros b Hb.
  specialize (Ha b Hb).
  destruct (has_id (RoomBooking.booking_id a) id);
    destruct (has_id (RoomBooking.booking_id b) id);
    auto using conflicts_with_cancelled_l, conflicts_with_cancelled_r.
Qed.

Lemma update_where_keys {A} (key : A -> option Z) (upd : A -> A) (id : Z) (l : list A) :
  (forall r, key (upd r) = key r) ->
  map key (update_where key upd id l) = map key l.
Proof.
  intros Hk. unfold update_where. rewrite map_map. apply map_ext.
  intros r. destruct (has_id (key r) id); auto.
Qed.

Lemma well_keyed_cancel (id : Z) (d : Database) :
  bookings_well_keyed d ->
  bookings_well_keyed
    (with_room_bookings
       (update_where RoomBooking.booking_id
                     (RoomBooking.set_status BookingStatus.CANCELLED) id (room_bookings d))
       (next_booking_id d) d).
Proof.
  intros [Hrows Hnd]. split; cbn.
  - intros b Hb. unfold update_where in Hb. apply in_map_iff in Hb.
    destruct Hb as (b0 & <- & Hb0). destruct (Hrows b0 Hb0) as [Hid Hst].
    destruct (has_id (RoomBooking.booking_id b0) id); cbn; [| tauto].
    split; [assumption | discriminate].
  - rewrite update_where_keys; [assumption | reflexivity].
Qed.

Lemma well_keyed_insert (d : Database) (b : RoomBooking.t) :
  bookings_well_keyed d ->
  bookings_well_keyed
    (with_room_bookings
       (room_bookings d ++ [RoomBooking.inserted (next_booking_id d) b])
       (next_booking_id d + 1) d).
Proof.
  intros [Hrows Hnd]. split; cbn.
  - intros x Hx. apply in_app_iff in Hx. destruct Hx as [Hx | [<- | []]].
    + destruct (Hrows x Hx) as [(id & Hid & Hlt) Hst]. split; [| assumption].
      exists id. split; [assumption | lia].
    + cbn. split; [exists (next_booking_id d); split; [reflexivity | lia] |].
      destruct (RoomBooking.status b); discriminate.
  - rewrite map_app. cbn.
    apply NoDup_app; [assumption | constructor; [intros [] | constructor] |].
    intros k Hk [<- | []]. apply in_map_iff in Hk. destruct Hk as (x & Hkx & Hx).
    destruct (Hrows x Hx) as [(id & Hid & Hlt) _]. cbn in Hkx.
    rewrite Hid in Hkx. injection Hkx as ->. lia.
Qed.

Lemma existing_bookings_In (s : Session) (room_id : Z) (booking_date : date)
      (b : RoomBooking.t) :
  In b (AdminService.existing_bookings s room_id booking_date) <->
  In b (room_bookings (db s))
  /\ RoomBooking.room_id b = room_id
  /\ RoomBooking.booking_date b = booking_date
  /\ exists st, RoomBooking.status b = Some st /\ st <> BookingStatus.CANCELLED.
Proof.
  unfold AdminService.existing_bookings. rewrite filter_In, !andb_true_iff, !Z.eqb_eq.
  assert (Hst : match RoomBooking.status b with
                | Some st => negb (BookingStatus.eqb st BookingStatus.CANCELLED)
                | None => false
                end = true <->
                exists st, RoomBooking.status b = Some st /\ st <> BookingStatus.CANCELLED).
  { destruct (RoomBooking.status b) as [st|].
    - rewrite negb_true_iff. split.
      + intros H. exists st. split; [reflexivity |]. intros ->. discriminate.
      + intros (st' & [= <-] & Hne). destruct st; try reflexivity. contradiction.
    - split; [discriminate | intros (st & [=] & _)]. }
  rewrite Hst. tauto.
Qed.

(** A booking that conflicts with none of the rows the query returns
    conflicts with no row of the table at all. *)
Lemma no_conflict_with_existing (s : Session) (x : RoomBooking.t) :
  (forall b, In b (room_bookings (db s)) -> RoomBooking.status b <> None) ->
  (forall b, In b (AdminService.existing_bookings
                     s (RoomBooking.room_id x) (RoomBooking.booking_date x)) ->
             RoomBooking.conflicts_with x b = false) ->
  forall b, In b (room_bookings (db s)) -> RoomBooking.conflicts_with x b = false.
Proof.
  intros Hst Hex b Hb.
  destruct (RoomBooking.conflicts_with x b) eqn:E; [| reflexivity].
  rewrite <- E. apply Hex. apply existing_bookings_In.
  apply conflicts_with_true in E. destruct E as (Hr & Hd & _ & Hnc & _).
  repeat split; try congruence.
  destruct (RoomBooking.status b) as [st|] eqn:Es.
  - exists st. split; [reflexivity |]. intros ->. apply Hnc. assumption.
  - exfalso. apply (Hst b Hb). assumption.
Qed.

Lemma is_cancelled_inserted (id : Z) (x : RoomBooking.t) :
  RoomBooking.is_cancelled (RoomBooking.inserted id x) = RoomBooking.is_cancelled x.
Proof.
  unfold RoomBooking.is_cancelled. cbn. destruct (RoomBooking.status x); reflexivity.
Qed.

Lemma conflicts_with_inserted (id : Z) (x b : RoomBooking.t) :
  RoomBooking.conflicts_with b (RoomBooking.inserted id x) = RoomBooking.conflicts_with x b.
Proof.
  rewrite (conflicts_with_sym x b). unfold RoomBooking.conflicts_with.
  rewrite is_cancelled_inserted. reflexivity.
Qed.

Lemma booking_inv_insert (d d' : Database) (x : RoomBooking.t) :
  booking_inv d ->
  (forall b, In b (room_bookings d) -> RoomBooking.conflicts_with x b = false) ->
  apply_op d (AddRoomBooking x) = Some d' ->
  booking_inv d'.
Proof.
  intros [Hk Hf] Hx. cbn.
  destruct (_ && _); [| discriminate]. intros [= <-]. split.
  - apply well_keyed_insert. assumption.
  - cbn. apply conflict_free_snoc; [assumption |].
    intros b Hb. rewrite conflicts_with_inserted. apply Hx. assumption.
Qed.

Lemma booking_inv_cancel (d d' : Database) (id : Z) :
  booking_inv d ->
  apply_op d (SetBookingStatus id BookingStatus.CANCELLED) = Some d' ->
  booking_inv d'.
Proof.
  intros [Hk Hf]. cbn. intros [= <-]. split.
  - apply well_keyed_cancel. assumption.
  - cbn. apply conflict_free_cancel. assumption.
Qed.

Lemma well_keyed_status (d : Database) :
  bookings_well_keyed d ->
  forall b, In b (room_bookings d) -> RoomBooking.status b <> None.
Proof. intros [H _] b Hb. apply (H b Hb). Qed.

Lemma book_room_inv (s : Session) now room_id booking_date start_time end_time purpose admin_id :
  pending s = [] -> booking_inv (db s) ->
  booking_inv (db (snd (AdminService.book_room s now room_id booking_date
                                               start_time end_time purpose admin_id))).
Proof.
  intros Hp Hinv. unfold AdminService.book_room.
  destruct (AdminService.get_room_by_id s room_id); [| assumption].
  destruct (start_time >=? end_time); [assumption |].
  destruct (booking_date <? dt_date now); [assumption |].
  destruct (find _ _) eqn:Efind; [assumption |].
  destruct (commit _) as [s2|] eqn:Ec; cbn; [| assumption].
  apply (commit_add_single _ _ _ Hp) in Ec.
  refine (booking_inv_insert _ _ _ Hinv _ Ec).
  apply no_conflict_with_existing; [apply well_keyed_status, Hinv |].
  cbn. intros b Hb. apply (find_none _ _ Efind b Hb).
Qed.

Lemma cancel_room_booking_inv (s : Session) booking_id :
  pending s = [] -> booking_inv (db s) ->
  booking_inv (db (snd (AdminService.cancel_room_booking s booking_id))).
Proof.
  intros Hp Hinv. unfold AdminService.cancel_room_booking.
  destruct (find _ _); [| assumption].
  destruct (commit _) as [s2|] eqn:Ec; cbn; [| assumption].
  apply (commit_add_single _ _ _ Hp) in Ec.
  exact (booking_inv_cancel _ _ _ Hinv Ec).
Qed.

Lemma is_room_available_true (s : Session) room_id booking_date start_time end_time :
  AdminService.is_room_available s room_id booking_date start_time end_time = true <->
  forall b, In b (AdminService.existing_bookings s room_id booking_date) ->
            ~ (start_time < RoomBooking.end_time b /\ RoomBooking.start_time b < end_time).
Proof.
  unfold AdminService.is_room_available.
  destruct (find _ _) as [c|] eqn:Efind.
  - split; [discriminate |]. intros H. exfalso.
    apply find_some in Efind. destruct Efind as [Hc Hov].
    apply (H c Hc). rewrite andb_true_iff, !Z.ltb_lt in Hov. assumption.
  - split; [| reflexivity]. intros _ b Hb Hov.
    pose proof (find_none _ _ Efind b Hb) as Hf. cbn in Hf.
    rewrite andb_false_iff, !Z.ltb_ge in Hf. lia.
Qed.

Lemma create_class_inv (s : Session) now name trainer_id room_id
      scheduled_time duration_minutes capacity description :
  pending s = [] -> booking_inv (db s) ->
  booking_inv (db (snd (AdminService.create_class s now name trainer_id room_id
                          scheduled_time duration_minutes capacity description))).
Proof.
  intros Hp Hinv. unfold AdminService.create_class.
  destruct (negb _); [assumption |].
  destruct (AdminService.get_room_by_id s room_id) as [room|]; [| assumption].
  destruct (match capacity with None => _ | Some _ => _ end) as [cap|e]; [| assumption].
  destruct (duration_minutes <=? 0); [assumption |].
  destruct (scheduled_time <? now); [assumption |].
  destruct (AdminService.is_room_available _ _ _ _ _) eqn:Eav; cbn [negb]; [| assumption].
  destruct (commit _) as [s3|] eqn:Ec; cbn [snd rollback add db]; [| assumption].
  apply (commit_add_pair _ _ _ _ Hp) in Ec. destruct Ec as (d1 & Eop1 & Eop2).
  apply apply_op_same_bookings in Eop1; [| exact I].
  refine (booking_inv_insert d1 _ _ (booking_inv_same _ _ Eop1 Hinv) _ Eop2).
  destruct Eop1 as [-> _].
  apply (no_conflict_with_existing s); [apply well_keyed_status, Hinv |].
  cbn. intros b Hb.
  destruct (RoomBooking.conflicts_with _ b) eqn:E; [| reflexivity].
  apply conflicts_with_true in E. destruct E as (_ & _ & _ & _ & Hov).
  rewrite is_room_available_true in Eav. exfalso. apply (Eav b Hb). exact Hov.
Qed.

(** ** Outcomes of the member-service calls *)

(** The three ways book_personal_training_session ends: a validation
    failure that leaves the session as it was, a failed commit followed by
    a rollback, or a successful commit of the new row. *)
Lemma book_session_outcome (s : Session) now member_id trainer_id scheduled_time
      duration_minutes room_id notes :
  let p := PersonalTrainingSession.mk None member_id trainer_id room_id scheduled_time
                                      duration_minutes notes SessionStatus.SCHEDULED in
  let out := MemberService.book_personal_training_session
               s now member_id trainer_id scheduled_time duration_minutes room_id notes in
  (exists e, out = (Failure e, s))
  \/ (out = (Failure DatabaseError, rollback (add (AddSession p) s))
      /\ commit (add (AddSession p) s) = None)
  \/ (exists s2, commit (add (AddSession p) s) = Some s2
                 /\ out = (Success (SessionData
                                      (PersonalTrainingSession.inserted
                                         (next_session_id (db s)) p)), s2)).
Proof.
  intros p out. subst out. unfold MemberService.book_personal_training_session.
  destruct (negb (mem_id member_id _)); [left; eexists; reflexivity |].
  destruct (negb (mem_id trainer_id _)); [left; eexists; reflexivity |].
  destruct (scheduled_time <=? now); [left; eexists; reflexivity |].
  cbv zeta.
  destruct (find _ (trainer_availability (db s))); [| left; eexists; reflexivity].
  destruct (find _ (personal_training_sessions (db s))); [left; eexists; reflexivity |].
  destruct (find _ (personal_training_sessions (db s))); [left; eexists; reflexivity |].
  destruct (match room_id with Some _ => _ | None => _ end); [left; eexists; reflexivity |].
  fold p. destruct (commit (add (AddSession p) s)) as [s2|] eqn:Ec.
  - right. right. exists s2. split; reflexivity.
  - right. left. split; reflexivity.
Qed.

Lemma commit_nil (s : Session) : pending s = [] -> commit s = Some (mkSession (db s) []).
Proof. unfold commit. intros ->. reflexivity. Qed.

(** Every call returns the session with an empty unit of work. *)
Lemma call_pending (s : Session) (c : Call) :
  pending s = [] -> pending (snd (call s c)) = [].
Proof.
  intros Hp. destruct c; cbn [call].
  - unfold AdminService.book_room.
    case_paths; cbn [snd rollback pending]; eauto using commit_pending.
  - unfold AdminService.cancel_room_booking.
    case_paths; cbn [snd rollback pending]; eauto using commit_pending.
  - unfold AdminService.create_class.
    case_paths; cbn [snd rollback pending]; eauto using commit_pending.
  - unfold AdminService.cancel_class.
    case_paths; cbn [snd rollback pending]; eauto using commit_pending.
  - pose proof (book_session_outcome s now member_id trainer_id scheduled_time
                                     duration_minutes room_id notes) as H.
    cbv zeta in H. destruct H as [[e ->] | [[-> _] | (s2 & Ec & ->)]];
      cbn [snd rollback pending]; eauto using commit_pending.
  - unfold MemberService.cancel_pt_session.
    case_paths; cbn [snd rollback pending]; eauto using commit_pending.
  - unfold MemberService.reschedule_pt_session.
    destruct (MemberService.find_session s member_id session_id) as [old|]; [| assumption].
    destruct (negb _); [assumption |].
    destruct (MemberService.book_personal_training_session _ _ _ _ _ _ _ _) as [r s2] eqn:Eb.
    destruct r; [| reflexivity].
    destruct (commit s2) as [s3|] eqn:Ec; cbn [snd]; [eauto using commit_pending |].
    match type of Eb with
    | MemberService.book_personal_training_session ?s1 ?n ?m ?t ?sch ?dur ?r ?nt = _ =>
        pose proof (book_session_outcome s1 n m t sch dur r nt) as H
    end.
    cbv zeta in H. rewrite Eb in H.
    destruct H as [[e [=]] | [[[=] _] | (s2' & Ec' & [= _ <-])]].
    apply commit_pending in Ec'. rewrite (commit_nil _ Ec') in Ec. discriminate.
  - unfold MemberService.register_for_class.
    case_paths; cbn [snd rollback pending]; eauto using commit_pending.
  - unfold MemberService.cancel_class_registration.
    case_paths; cbn [snd rollback pending]; eauto using commit_pending.
Qed.

Lemma committed_same_bookings (s s2 : Session) (op : PendingOp) :
  pending s = [] -> leaves_bookings op -> commit (add op s) = Some s2 ->
  same_bookings (db s) (db s2).
Proof.
  intros Hp Hop Ec. apply (commit_add_single _ _ _ Hp) in Ec.
  exact (apply_op_same_bookings _ _ _ Hop Ec).
Qed.

Lemma reschedule_same_bookings (s : Session) now member_id session_id new_time :
  pending s = [] ->
  same_bookings (db s)
    (db (snd (MemberService.reschedule_pt_session s now member_id session_id new_time))).
Proof.
  intros Hp. unfold MemberService.reschedule_pt_session.
  destruct (MemberService.find_session s member_id session_id) as [old|];
    [| apply same_bookings_refl].
  destruct (negb _); [apply same_bookings_refl |].
  match goal with
  | |- context [MemberService.book_personal_training_session ?s1 ?n ?m ?t ?sch ?dur ?r ?nt] =>
      pose proof (book_session_outcome s1 n m t sch dur r nt) as H
  end.
  cbv zeta in H. destruct H as [[e ->] | [[-> _] | (s2 & Ec & ->)]];
    try apply same_bookings_refl.
  assert (Hs2 : same_bookings (db s) (db s2)).
  { apply commit_flush in Ec. cbn [add pending db] in Ec. rewrite Hp in Ec.
    refine (flush_same_bookings _ _ _ _ Ec). repeat constructor. }
  rewrite (commit_nil s2 (commit_pending _ _ Ec)). exact Hs2.
Qed.

Lemma call_same_bookings (s : Session) (c : Call) :
  pending s = [] ->
  match c with
  | BookRoom _ _ _ _ _ _ _ | CancelRoomBooking _ | CreateClass _ _ _ _ _ _ _ _ => True
  | _ => same_bookings (db s) (db (snd (call s c)))
  end.
Proof.
  intros Hp. destruct c; cbn [call]; try exact I.
  - unfold AdminService.cancel_class.
    case_paths; cbn [snd rollback add db];
      try apply same_bookings_refl; eapply committed_same_bookings; eauto; exact I.
  - pose proof (book_session_outcome s now member_id trainer_id scheduled_time
                                     duration_minutes room_id notes) as H.
    cbv zeta in H. destruct H as [[e ->] | [[-> _] | (s2 & Ec & ->)]];
      cbn [snd rollback add db];
      try apply same_bookings_refl; eapply committed_same_bookings; eauto; exact I.
  - unfold MemberService.cancel_pt_session.
    case_paths; cbn [snd rollback add db];
      try apply same_bookings_refl; eapply committed_same_bookings; eauto; exact I.
  - apply reschedule_same_bookings. assumption.
  - unfold MemberService.register_for_class.
    case_paths; cbn [snd rollback add db];
      try apply same_bookings_refl; eapply committed_same_bookings; eauto; exact I.
  - unfold MemberService.cancel_class_registration.
    case_paths; cbn [snd rollback add db];
      try apply same_bookings_refl; eapply committed_same_bookings; eauto; exact I.
Qed.

Lemma call_inv (s : Session) (c : Call) :
  pending s = [] -> booking_inv (db s) -> booking_inv (db (snd (call s c))).
Proof.
  intros Hp Hinv. pose proof (call_same_bookings s c Hp) as Hsame.
  destruct c; cbn [call] in *;
    try (apply (booking_inv_same _ _ Hsame Hinv)).
  - apply book_room_inv; assumption.
  - apply cancel_room_booking_inv; assumption.
  - apply create_class_inv; assumption.
Qed.

Lemma run_inv (cs : list Call) (s : Session) :
  pending s = [] -> booking_inv (db s) ->
  pending (run s cs) = [] /\ booking_inv (db (run s cs)).
Proof.
  revert s. induction cs as [|c cs IH]; intros s Hp Hinv; cbn [run].
  - split; assumption.
  - apply IH; [apply call_pending | apply call_inv]; assumption.
Qed.

(** From the inductive form to the invariant as the specification words it. *)
Lemma booking_inv_no_double_booking (d : Database) :
  booking_inv d -> no_double_booking d.
Proof.
  intros [_ Hf] a b Ha Hb Hid Hr Hd Hca Hcb Hov.
  destruct (ForallOrdPairs_In Hf a b Ha Hb) as [-> | [H | H]].
  - apply Hid. reflexivity.
  - assert (E : RoomBooking.conflicts_with a b = true)
      by (apply conflicts_with_true; tauto).
    congruence.
  - assert (E : RoomBooking.conflicts_with a b = true)
      by (apply conflicts_with_true; tauto).
    rewrite conflicts_with_sym in E. congruence.
Qed.

(** Conversely, a well-keyed table without double bookings is in the
    inductive form. *)
Lemma no_double_booking_inv (d : Database) :
  bookings_well_keyed d -> no_double_booking d -> booking_inv d.
Proof.
  intros Hk Hn. split; [assumption |].
  destruct Hk as [_ Hnd]. unfold no_double_booking in Hn. unfold conflict_free.
  induction (room_bookings d) as [|a l IH]; [constructor |].
  cbn in Hnd. apply NoDup_cons_iff in Hnd. destruct Hnd as [Hnotin Hnd].
  constructor.
  - apply Forall_forall. intros b Hb.
    destruct (RoomBooking.conflicts_with a b) eqn:E; [| reflexivity].
    apply conflicts_with_true in E. destruct E as (Hr & Hd & Hca & Hcb & Hov).
    assert (Hid : RoomBooking.booking_id a <> RoomBooking.booking_id b).
    { intros Hid. apply Hnotin. rewrite Hid. apply in_map. assumption. }
    exfalso.
    exact (Hn a b (or_introl eq_refl) (or_intror Hb) Hid Hr Hd Hca Hcb Hov).
  - apply IH; try assumption.
    intros x y Hx Hy. apply Hn; right; assumption.
Qed.

(** ** book_room: rejection and acceptance *)

Lemma mem_id_In (x : Z) (l : list Z) : mem_id x l = true <-> In x l.
Proof.
  unfold mem_id. rewrite existsb_exists. split.
  - intros (y & Hy & E). apply Z.eqb_eq in E. subst. assumption.
  - intros H. exists x. split; [assumption | apply Z.eqb_refl].
Qed.

Lemma room_exists_get (s : Session) (room_id : Z) :
  room_exists room_id (db s) = true <-> AdminService.get_room_by_id s room_id <> None.
Proof.
  unfold room_exists, AdminService.get_room_by_id. rewrite existsb_exists. split.
  - intros (r & Hr & E) Hnone. pose proof (find_none _ _ Hnone r Hr) as H.
    cbn in H. congruence.
  - destruct (find _ _) as [r|] eqn:E; [| congruence].
    intros _. apply find_some in E. exists r. exact E.
Qed.

Lemma commit_add_eq (s : Session) (op : PendingOp) :
  pending s = [] ->
  commit (add op s) =
  match apply_op (db s) op with
  | Some d => Some (mkSession d [])
  | None => None
  end.
Proof.
  intros Hp. unfold commit, add. cbn [pending db]. rewrite Hp. cbn [app flush].
  destruct (apply_op (db s) op); reflexivity.
Qed.

Lemma book_room_rejects (s : Session) now room_id booking_date start_time end_time
      purpose admin_id (b : RoomBooking.t) :
  bookings_well_keyed (db s) ->
  bookable s now room_id booking_date start_time end_time ->
  In b (room_bookings (db s)) ->
  collides room_id booking_date start_time end_time b ->
  exists c,
    In c (room_bookings (db s))
    /\ collides room_id booking_date start_time end_time c
    /\ AdminService.book_room s now room_id booking_date start_time end_time
                              purpose admin_id
       = (Failure (Conflict (RoomBooking.start_time c) (RoomBooking.end_time c)), s).
Proof.
  intros Hk (Hroom & Hlt & Hdate) Hb (Hr & Hd & Hnc & Hov).
  unfold AdminService.book_room.
  destruct (AdminService.get_room_by_id s room_id); [| congruence].
  rewrite Z.geb_leb. destruct (Z.leb_spec end_time start_time); [lia |].
  destruct (Z.ltb_spec booking_date (dt_date now)); [lia |].
  set (nb := RoomBooking.mk None room_id booking_date start_time end_time
                            purpose admin_id None).
  destruct (find _ _) as [c|] eqn:Efind.
  - apply find_some in Efind. destruct Efind as [Hc Hcc].
    apply existing_bookings_In in Hc. destruct Hc as (Hc & _).
    apply conflicts_with_true in Hcc. unfold windows_overlap in Hcc. cbn in Hcc.
    exists c. unfold collides. intuition congruence.
  - exfalso.
    assert (Hex : In b (AdminService.existing_bookings s room_id booking_date)).
    { apply existing_bookings_In. repeat split; try assumption.
      destruct (RoomBooking.status b) as [st|] eqn:Es.
      - exists st. split; [reflexivity |]. intros ->. apply Hnc. assumption.
      - exfalso. apply (well_keyed_status _ Hk b Hb). assumption. }
    pose proof (find_none _ _ Efind b Hex) as Hf. cbn beta in Hf.
    assert (Ht : RoomBooking.conflicts_with nb b = true).
    { apply conflicts_with_true. unfold windows_overlap, not_cancelled. cbn.
      repeat split; try congruence; lia. }
    congruence.
Qed.

Lemma book_room_accepts (s : Session) now room_id booking_date start_time end_time
      purpose admin_id :
  pending s = [] ->
  bookable s now room_id booking_date start_time end_time ->
  match admin_id with Some a => In a (admins (db s)) | None => True end ->
  (forall b, In b (room_bookings (db s)) ->
             ~ collides room_id booking_date start_time end_time b) ->
  let row := RoomBooking.mk (Some (next_booking_id (db s))) room_id booking_date
                            start_time end_time purpose admin_id
                            (Some BookingStatus.CONFIRMED) in
  exists s',
    AdminService.book_room s now room_id booking_date start_time end_time
                           purpose admin_id
    = (Success (BookingData row), s')
    /\ room_bookings (db s') = room_bookings (db s) ++ [row].
Proof.
  intros Hp (Hroom & Hlt & Hdate) Hadmin Hfree row.
  unfold AdminService.book_room.
  destruct (AdminService.get_room_by_id s room_id) eqn:Eroom; [| congruence].
  rewrite Z.geb_leb. destruct (Z.leb_spec end_time start_time); [lia |].
  destruct (Z.ltb_spec booking_date (dt_date now)); [lia |].
  set (nb := RoomBooking.mk None room_id booking_date start_time end_time
                            purpose admin_id None).
  destruct (find _ _) as [c|] eqn:Efind.
  - exfalso. apply find_some in Efind. destruct Efind as [Hc Hcc].
    apply existing_bookings_In in Hc. destruct Hc as (Hc & _).
    apply conflicts_with_true in Hcc. unfold windows_overlap in Hcc. cbn in Hcc.
    apply (Hfree c Hc). unfold collides. intuition congruence.
  - cbv zeta. rewrite (commit_add_eq _ _ Hp). cbn [apply_op].
    assert (Hfk : room_exists (RoomBooking.room_id nb) (db s)
                  && match RoomBooking.booked_by_admin_id nb with
                     | Some a => mem_id a (admins (db s))
                     | None => true
                     end = true).
    { apply andb_true_iff. split.
      - apply room_exists_get. cbn. congruence.
      - cbn. destruct admin_id; [apply mem_id_In; assumption | reflexivity]. }
    rewrite Hfk. eexists. split; reflexivity.
Qed.

(** C1. Room bookings are never double-booked.  Start from a session with
    an empty unit of work whose room_bookings table is well keyed and has
    no double booking (an empty table, for one), and make any sequence of
    service calls: book_room, create_class, the cancel operations, and
    the member-service calls as well.  In the session reached, no two
    distinct non-cancelled bookings of one room on one date have
    overlapping half-open windows.  There, for a valid room, date and
    window, book_room
    - rejects a request that overlaps a non-cancelled booking of that room
      and date, with the failure that names the window of a colliding
      booking, and leaves the session unchanged;
    - accepts a request that collides with no such booking and appends the
      confirmed row; a booking that only touches the requested window at
      an endpoint does not collide. *)
Theorem room_booking_no_double_booking (s0 : Session) (calls : list Call) :
  pending s0 = [] -> bookings_well_keyed (db s0) -> no_double_booking (db s0) ->
  let s := run s0 calls in
  no_double_booking (db s)
  /\ forall now room_id booking_date start_time end_time purpose admin_id,
       bookable s now room_id booking_date start_time end_time ->
       (forall b, In b (room_bookings (db s)) ->
                  collides room_id booking_date start_time end_time b ->
                  exists c,
                    In c (room_bookings (db s))
                    /\ collides room_id booking_date start_time end_time c
                    /\ AdminService.book_room s now room_id booking_date
                                              start_time end_time purpose admin_id
                       = (Failure (Conflict (RoomBooking.start_time c)
                                            (RoomBooking.end_time c)), s))
       /\ (match admin_id with Some a => In a (admins (db s)) | None => True end ->
           (forall b, In b (room_bookings (db s)) ->
                      ~ collides room_id booking_date start_time end_time b) ->
           exists s',
             AdminService.book_room s now room_id booking_date
                                    start_time end_time purpose admin_id
             = (Success (BookingData
                           (RoomBooking.mk (Some (next_booking_id (db s))) room_id
                                           booking_date start_time end_time purpose
                                           admin_id (Some BookingStatus.CONFIRMED))), s')
             /\ room_bookings (db s')
                = room_bookings (db s)
                  ++ [RoomBooking.mk (Some (next_booking_id (db s))) room_id
                                     booking_date start_time end_time purpose
                                     admin_id (Some BookingStatus.CONFIRMED)])
       /\ (forall b, RoomBooking.end_time b = start_time
                     \/ RoomBooking.start_time b = end_time ->
                     ~ collides room_id booking_date start_time end_time b).
Proof.
  intros Hp Hk Hn s.
  destruct (run_inv calls s0 Hp (no_double_booking_inv _ Hk Hn)) as [Hps Hinv].
  fold s in Hps, Hinv. split; [apply booking_inv_no_double_booking; assumption |].
  intros now room_id booking_date start_time end_time purpose admin_id Hok.
  split; [| split].
  - intros b Hb Hcol. apply (book_room_rejects s) with (b := b); try assumption.
    apply Hinv.
  - intros Hadmin Hfree. apply book_room_accepts; assumption.
  - intros b Htouch (_ & _ & _ & H1 & H2). destruct Hok as (_ & Hlt & _).
    destruct Htouch; lia.
Qed.

(** The Studio A scenario: after 09:00-10:00 is booked on 2025-06-01,
    09:30-10:30 is rejected and 10:00-11:00 is accepted. *)
Lemma room_booking_no_double_booking_witness :
  let s := run club_session
               [BookRoom may_1_noon 1 june_1 (hm 9 0) (hm 10 0) None (Some 1)] in
  no_double_booking (db s)
  /\ (exists c,
        In c (room_bookings (db s))
        /\ collides 1 june_1 (hm 9 30) (hm 10 30) c
        /\ AdminService.book_room s may_1_noon 1 june_1 (hm 9 30) (hm 10 30) None (Some 1)
           = (Failure (Conflict (RoomBooking.start_time c) (RoomBooking.end_time c)), s))
  /\ (exists s',
        AdminService.book_room s may_1_noon 1 june_1 (hm 10 0) (hm 11 0) None (Some 1)
        = (Success (BookingData
                      (RoomBooking.mk (Some 2) 1 june_1 (hm 10 0) (hm 11 0) None (Some 1)
                                      (Some BookingStatus.CONFIRMED))), s')
        /\ room_bookings (db s')
           = room_bookings (db s)
             ++ [RoomBooking.mk (Some 2) 1 june_1 (hm 10 0) (hm 11 0) None (Some 1)
                                (Some BookingStatus.CONFIRMED)]).
Proof.
  intros s.
  assert (Hk : bookings_well_keyed (db club_session)).
  { split; [intros b [] | constructor]. }
  assert (Hn : no_double_booking (db club_session)).
  { intros a b []. }
  destruct (room_booking_no_double_booking
              club_session
              [BookRoom may_1_noon 1 june_1 (hm 9 0) (hm 10 0) None (Some 1)]
              eq_refl Hk Hn) as [Hinv Hbook].
  fold s in Hinv, Hbook. split; [exact Hinv |]. split.
  - assert (Hok : bookable s may_1_noon 1 june_1 (hm 9 30) (hm 10 30)).
    { repeat split; vm_compute; congruence. }
    destruct (Hbook may_1_noon 1 june_1 (hm 9 30) (hm 10 30) None (Some 1) Hok)
      as (Hrej & _ & _).
    apply (Hrej (RoomBooking.mk (Some 1) 1 june_1 (hm 9 0) (hm 10 0) None (Some 1)
                                (Some BookingStatus.CONFIRMED))).
    + left. reflexivity.
    + repeat split; vm_compute; congruence.
  - assert (Hok : bookable s may_1_noon 1 june_1 (hm 10 0) (hm 11 0)).
    { repeat split; vm_compute; congruence. }
    destruct (Hbook may_1_noon 1 june_1 (hm 10 0) (hm 11 0) None (Some 1) Hok)
      as (_ & Hacc & Htouch).
    apply Hacc.
    + left. reflexivity.
    + intros b [<- | []]. apply Htouch. left. reflexivity.
Defined.

(** The same scenario, evaluated: the three results in order. *)
Example studio_a_scenario :
  results club_session
          [BookRoom may_1_noon 1 june_1 (hm 9 0) (hm 10 0) None (Some 1);
           BookRoom may_1_noon 1 june_1 (hm 9 30) (hm 10 30) None (Some 1);
           BookRoom may_1_noon 1 june_1 (hm 10 0) (hm 11 0) None (Some 1)]
  = [Success (BookingData
                (RoomBooking.mk (Some 1) 1 june_1 (hm 9 0) (hm 10 0) None (Some 1)
                                (Some BookingStatus.CONFIRMED)));
     Failure (Conflict (hm 9 0) (hm 10 0));
     Success (BookingData
                (RoomBooking.mk (Some 2) 1 june_1 (hm 10 0) (hm 11 0) None (Some 1)
                                (Some BookingStatus.CONFIRMED)))].
Proof. vm_compute. reflexivity. Qed.

(** ** Registration after a cancellation *)

(** register_for_class never succeeds for a (member, class) pair that
    already has a row in class_registrations, whatever the status of that
    row: passing the duplicate check of the service, the INSERT still
    violates uq_member_class_registration. *)
Lemma register_for_class_blocked (s : Session) now member_id class_id
      (r : ClassRegistration.t) :
  pending s = [] ->
  In r (class_registrations (db s)) ->
  ClassRegistration.member_id r = member_id ->
  ClassRegistration.class_id r = class_id ->
  success (fst (MemberService.register_for_class s now member_id class_id)) = false.
Proof.
  intros Hp Hr Hm Hc. unfold MemberService.register_for_class.
  case_paths; try reflexivity.
  exfalso.
  match goal with
  | H : commit (add (AddRegistration ?x) s) = Some _ |- _ =>
      apply (commit_add_single _ _ _ Hp) in H; cbn [apply_op] in H;
      destruct (_ && _) eqn:E in H; [clear H | discriminate]
  end.
  rewrite !andb_true_iff, negb_true_iff in E. destruct E as [_ E].
  assert (Hex : existsb
                  (fun r' => (ClassRegistration.member_id r' =? member_id)
                             && (ClassRegistration.class_id r' =? class_id))
                  (class_registrations (db s)) = true).
  { apply existsb_exists. exists r. split; [assumption |].
    rewrite Hm, Hc, !Z.eqb_refl. reflexivity. }
  cbn in E. congruence.
Qed.

(** C2. Re-registration after a cancellation fails.  Member 1 registers
    for class 1, cancels the registration, and registers again.  Before the
    last call the only registration of the pair is cancelled, the class is
    scheduled, in the future and empty, and the member has no personal
    training session; the call still fails with 'You are already
    registered for this class', and nothing changes. *)
Theorem reregistration_after_cancel_fails :
  let s := run club_session
               [CreateClass may_1_noon "Yoga" 1 1 (datetime_combine june_1 (hm 9 0)) 60
                            (Some 10) None;
                RegisterForClass may_1_noon 1 1;
                CancelRegistration may_1_noon 1 1] in
  class_registrations (db s)
  = [ClassRegistration.mk (Some 1) 1 1 RegistrationStatus.CANCELLED]
  /\ fitness_classes (db s)
     = [FitnessClass.mk (Some 1) "Yoga" None 1 1 (datetime_combine june_1 (hm 9 0)) 60 10
                        ClassStatus.SCHEDULED]
  /\ may_1_noon < datetime_combine june_1 (hm 9 0)
  /\ personal_training_sessions (db s) = []
  /\ MemberService.register_for_class s may_1_noon 1 1 = (Failure AlreadyRegistered, s).
Proof. vm_compute. repeat split; reflexivity. Qed.

(** ** Cancelling what is already cancelled *)

Lemma cancel_pt_session_cancelled (s : Session) now member_id session_id
      (p : PersonalTrainingSession.t) :
  MemberService.find_session s member_id session_id = Some p ->
  PersonalTrainingSession.status p = SessionStatus.CANCELLED ->
  MemberService.cancel_pt_session s now member_id session_id
  = (Failure SessionAlreadyCancelled, s).
Proof.
  intros Hf Hst. unfold MemberService.cancel_pt_session. rewrite Hf, Hst. reflexivity.
Qed.

Lemma cancel_class_registration_cancelled (s : Session) now member_id registration_id
      (r : ClassRegistration.t) :
  find (fun r => has_id (ClassRegistration.registration_id r) registration_id
                 && (ClassRegistration.member_id r =? member_id))
       (class_registrations (db s)) = Some r ->
  ClassRegistration.status r = RegistrationStatus.CANCELLED ->
  MemberService.cancel_class_registration s now member_id registration_id
  = (Failure RegistrationAlreadyCancelled, s).
Proof.
  intros Hf Hst. unfold MemberService.cancel_class_registration.
  rewrite Hf, Hst. reflexivity.
Qed.

Lemma has_id_true (key : option Z) (id : Z) : has_id key id = true <-> key = Some id.
Proof.
  destruct key as [k|]; cbn; [| split; discriminate].
  rewrite Z.eqb_eq. split; congruence.
Qed.

(** Setting CANCELLED again on the rows with a key whose row is already
    cancelled changes nothing. *)
Lemma cancel_again_same_rows (id : Z) (l : list RoomBooking.t) :
  (forall b, In b l -> RoomBooking.booking_id b = Some id ->
             RoomBooking.status b = Some BookingStatus.CANCELLED) ->
  update_where RoomBooking.booking_id (RoomBooking.set_status BookingStatus.CANCELLED) id l
  = l.
Proof.
  intros H. unfold update_where. rewrite <- (map_id l) at 2. apply map_ext_in.
  intros b Hb. destruct (has_id (RoomBooking.booking_id b) id) eqn:E; [| reflexivity].
  apply has_id_true in E. specialize (H b Hb E).
  destruct b as [bid r d st en p a status]. cbn in *. rewrite H. reflexivity.
Qed.

Lemma with_room_bookings_same (d : Database) :
  with_room_bookings (room_bookings d) (next_booking_id d) d = d.
Proof. destruct d. reflexivity. Qed.

(** C3. Cancelling what is already cancelled.  For a personal training
    session and for a class registration the call fails, reporting that
    the record is already cancelled, and leaves the session as it was.
    For a room booking the state is left as it was too, but
    cancel_room_booking has no such check: the call reports success
    ('Booking cancelled'), not a failure. *)
Theorem cancel_already_cancelled (s : Session) (now : datetime) :
  pending s = [] ->
  (forall member_id session_id p,
      MemberService.find_session s member_id session_id = Some p ->
      PersonalTrainingSession.status p = SessionStatus.CANCELLED ->
      MemberService.cancel_pt_session s now member_id session_id
      = (Failure SessionAlreadyCancelled, s))
  /\ (forall member_id registration_id r,
         find (fun r => has_id (ClassRegistration.registration_id r) registration_id
                        && (ClassRegistration.member_id r =? member_id))
              (class_registrations (db s)) = Some r ->
         ClassRegistration.status r = RegistrationStatus.CANCELLED ->
         MemberService.cancel_class_registration s now member_id registration_id
         = (Failure RegistrationAlreadyCancelled, s))
  /\ (forall booking_id b,
         NoDup (map RoomBooking.booking_id (room_bookings (db s))) ->
         In b (room_bookings (db s)) ->
         RoomBooking.booking_id b = Some booking_id ->
         RoomBooking.status b = Some BookingStatus.CANCELLED ->
         AdminService.cancel_room_booking s booking_id
         = (Success (Message "Booking cancelled"), s)).
Proof.
  intros Hp. split; [| split].
  - intros. eapply cancel_pt_session_cancelled; eassumption.
  - intros. eapply cancel_class_registration_cancelled; eassumption.
  - intros id b Hnd Hb Hid Hst. unfold AdminService.cancel_room_booking.
    destruct (find _ _) eqn:Ef.
    2:{ pose proof (find_none _ _ Ef b Hb) as H. cbn in H.
        rewrite Hid in H. cbn in H. rewrite Z.eqb_refl in H. discriminate. }
    rewrite (commit_add_eq _ _ Hp). cbn [apply_op].
    rewrite cancel_again_same_rows, with_room_bookings_same.
    + destruct s as [d pnd]. cbn in Hp. subst pnd. reflexivity.
    + intros b' Hb' Hid'.
      assert (b' = b); [| subst; assumption].
      clear Ef. revert Hnd Hb Hb'. generalize (room_bookings (db s)) as l.
      induction l as [|x l IH]; cbn; [contradiction |].
      intros Hnd. apply NoDup_cons_iff in Hnd. destruct Hnd as [Hx Hnd].
      intros [-> | Hb] [-> | Hb']; auto.
      * exfalso. apply Hx. rewrite Hid, <- Hid'. apply in_map. assumption.
      * exfalso. apply Hx. rewrite Hid', <- Hid. apply in_map. assumption.
Qed.

(** Booking 1 of Studio A is cancelled twice, session 1 of member 1 too. *)
Lemma cancel_already_cancelled_witness :
  let s := run club_session
               [BookRoom may_1_noon 1 june_1 (hm 9 0) (hm 10 0) None (Some 1);
                CancelRoomBooking 1;
                BookSession may_1_noon 1 1 (datetime_combine june_2 (hm 10 0)) 60 None None;
                CancelSession may_1_noon 1 1] in
  AdminService.cancel_room_booking s 1 = (Success (Message "Booking cancelled"), s)
  /\ MemberService.cancel_pt_session s may_1_noon 1 1
     = (Failure SessionAlreadyCancelled, s).
Proof.
  intros s.
  destruct (cancel_already_cancelled s may_1_noon eq_refl) as (Hpt & _ & Hroom).
  split.
  - apply (Hroom 1 (RoomBooking.mk (Some 1) 1 june_1 (hm 9 0) (hm 10 0) None (Some 1)
                                   (Some BookingStatus.CANCELLED))).
    + vm_compute. repeat constructor. intros [].
    + left. reflexivity.
    + reflexivity.
    + reflexivity.
  - apply (Hpt 1 1 (PersonalTrainingSession.mk
                      (Some 1) 1 1 None (datetime_combine june_2 (hm 10 0)) 60 None
                      SessionStatus.CANCELLED)); reflexivity.
Defined.

(** ** Booking a personal training session *)

Lemma find_not_none {A} (f : A -> bool) (l : list A) :
  find f l <> None <-> exists x, In x l /\ f x = true.
Proof.
  split.
  - destruct (find f l) as [x|] eqn:E; [| congruence].
    intros _. exists x. apply (find_some _ _ E).
  - intros (x & Hx & Hf) Hnone. pose proof (find_none _ _ Hnone x Hx). congruence.
Qed.

Lemma starts_within_true (a b : datetime) (p : PersonalTrainingSession.t) :
  MemberService.starts_within a b p = true <-> starts_in a b p.
Proof.
  unfold MemberService.starts_within, starts_in.
  rewrite !andb_true_iff, SessionStatus_eqb_eq, Z.ltb_lt, Z.geb_leb, Z.leb_le. tauto.
Qed.

Lemma availability_filter_true (trainer_id : Z) (scheduled_time : datetime)
      (duration_minutes : Z) (a : TrainerAvailability.t) :
  (TrainerAvailability.trainer_id a =? trainer_id)
  && DayOfWeek.eqb (TrainerAvailability.day_of_week a)
                   (DayOfWeek.of_date (dt_date scheduled_time))
  && (TrainerAvailability.start_time a <=? dt_time scheduled_time)
  && (TrainerAvailability.end_time a
      >=? dt_time (scheduled_time + timedelta_minutes duration_minutes)) = true
  <-> contains_session trainer_id scheduled_time duration_minutes a.
Proof.
  unfold contains_session.
  rewrite !andb_true_iff, Z.eqb_eq, DayOfWeek_eqb_eq, Z.geb_leb, !Z.leb_le. tauto.
Qed.

(** The result of the booking, step by step. *)
Lemma book_session_result (s : Session) now member_id trainer_id scheduled_time
      duration_minutes room_id notes :
  let end_time := scheduled_time + timedelta_minutes duration_minutes in
  let out := fst (MemberService.book_personal_training_session
                    s now member_id trainer_id scheduled_time duration_minutes
                    room_id notes) in
  let ready := bookable_session s now member_id trainer_id scheduled_time
                                duration_minutes in
  let trainer_busy :=
    exists p, In p (personal_training_sessions (db s))
              /\ PersonalTrainingSession.trainer_id p = trainer_id
              /\ starts_in scheduled_time end_time p in
  let member_busy :=
    exists p, In p (personal_training_sessions (db s))
              /\ PersonalTrainingSession.member_id p = member_id
              /\ starts_in scheduled_time end_time p in
  (~ In member_id (members (db s)) /\ out = Failure MemberNotFound)
  \/ (In member_id (members (db s)) /\ ~ In trainer_id (trainers (db s))
      /\ out = Failure TrainerNotFound)
  \/ (In member_id (members (db s)) /\ In trainer_id (trainers (db s))
      /\ scheduled_time <= now /\ out = Failure SessionNotInFuture)
  \/ (In member_id (members (db s)) /\ In trainer_id (trainers (db s))
      /\ now < scheduled_time /\ ~ ready
      /\ out = Failure (TrainerUnavailable (DayOfWeek.of_date (dt_date scheduled_time))
                                           (dt_time scheduled_time)))
  \/ (ready /\ trainer_busy /\ out = Failure TrainerConflict)
  \/ (ready /\ ~ trainer_busy /\ member_busy /\ out = Failure MemberConflict)
  \/ (ready /\ ~ trainer_busy /\ ~ member_busy
      /\ out <> Failure MemberNotFound /\ out <> Failure TrainerNotFound
      /\ out <> Failure SessionNotInFuture
      /\ (forall d t, out <> Failure (TrainerUnavailable d t))
      /\ out <> Failure TrainerConflict /\ out <> Failure MemberConflict).
Proof.
  intros end_time out ready trainer_busy member_busy. subst out.
  unfold end_time in *. clear end_time.
  unfold MemberService.book_personal_training_session.
  destruct (mem_id member_id (members (db s))) eqn:Em; cbn [negb fst].
  2:{ left. split; [| reflexivity]. rewrite <- mem_id_In. congruence. }
  apply mem_id_In in Em. right.
  destruct (mem_id trainer_id (trainers (db s))) eqn:Et; cbn [negb fst].
  2:{ left. repeat split; try assumption. rewrite <- mem_id_In. congruence. }
  apply mem_id_In in Et. right.
  destruct (Z.leb_spec scheduled_time now) as [Hpast|Hfuture]; cbn [fst].
  { left. repeat split; assumption. }
  right. cbv zeta.
  destruct (find _ (trainer_availability (db s))) as [a|] eqn:Ea; cbn [fst].
  2:{ left. repeat split; try assumption.
      intros (_ & _ & _ & a & Ha & Hc).
      pose proof (find_none _ _ Ea a Ha) as H. cbn beta in H.
      apply availability_filter_true in Hc. congruence. }
  right.
  assert (Hready : ready).
  { apply find_some in Ea. destruct Ea as [Ha Hc].
    apply availability_filter_true in Hc. repeat split; try assumption.
    exists a. split; assumption. }
  destruct (find _ (personal_training_sessions (db s))) as [p|] eqn:Etc; cbn [fst].
  { left. apply find_some in Etc. destruct Etc as [Hp Hf].
    rewrite andb_true_iff, Z.eqb_eq, starts_within_true in Hf.
    split; [exact Hready |]. split; [exists p; tauto | reflexivity]. }
  right.
  assert (Hfree : ~ trainer_busy).
  { intros (p & Hp & Hid & Hin). pose proof (find_none _ _ Etc p Hp) as H.
    cbn beta in H. apply starts_within_true in Hin.
    rewrite Hid, Z.eqb_refl, Hin in H. discriminate. }
  match goal with
  | |- context [find ?f (personal_training_sessions (db s))] =>
      destruct (find f (personal_training_sessions (db s))) as [p|] eqn:Emc; cbn [fst]
  end.
  { left. apply find_some in Emc. destruct Emc as [Hp Hf].
    rewrite andb_true_iff, Z.eqb_eq, starts_within_true in Hf.
    split; [exact Hready |]. split; [exact Hfree |].
    split; [exists p; tauto | reflexivity]. }
  right.
  assert (Hmfree : ~ member_busy).
  { intros (p & Hp & Hid & Hin). pose proof (find_none _ _ Emc p Hp) as H.
    cbn beta in H. apply starts_within_true in Hin.
    rewrite Hid, Z.eqb_refl, Hin in H. discriminate. }
  split; [assumption |]. split; [assumption |]. split; [assumption |].
  destruct (match room_id with Some _ => _ | None => _ end); cbn [fst];
    [repeat split; try intros ? ?; discriminate |].
  destruct (commit _); cbn [fst]; repeat split; try intros ? ?; discriminate.
Qed.



(** The same booking, evaluated: it succeeds as session 2. *)
Example overlapping_session_accepted :
  results club_session
          [BookSession may_1_noon 1 1 (datetime_combine june_2 (hm 10 0)) 60 None None;
           BookSession may_1_noon 1 1 (datetime_combine june_2 (hm 10 30)) 60 None None]
  = [Success (SessionData
                (PersonalTrainingSession.mk (Some 1) 1 1 None
                   (datetime_combine june_2 (hm 10 0)) 60 None SessionStatus.SCHEDULED));
     Success (SessionData
                (PersonalTrainingSession.mk (Some 2) 1 1 None
                   (datetime_combine june_2 (hm 10 30)) 60 None SessionStatus.SCHEDULED))].
Proof. vm_compute. reflexivity. Qed.

(** For a session that ends on the day it starts, [contains_session] is
    containment of the session interval in the slot laid on that day. *)
Lemma contains_session_same_day (trainer_id : Z) (scheduled_time : datetime)
      (duration_minutes : Z) (a : TrainerAvailability.t) :
  dt_date (scheduled_time + timedelta_minutes duration_minutes) = dt_date scheduled_time ->
  (contains_session trainer_id scheduled_time duration_minutes a <->
   TrainerAvailability.trainer_id a = trainer_id
   /\ TrainerAvailability.day_of_week a = DayOfWeek.of_date (dt_date scheduled_time)
   /\ datetime_combine (dt_date scheduled_time) (TrainerAvailability.start_time a)
      <= scheduled_time
   /\ scheduled_time + timedelta_minutes duration_minutes
      <= datetime_combine (dt_date scheduled_time) (TrainerAvailability.end_time a)).
Proof.
  unfold contains_session, dt_date, dt_time, datetime_combine.
  set (e := scheduled_time + timedelta_minutes duration_minutes).
  intros Hsame.
  assert (Hd : usec_per_day <> 0) by (unfold usec_per_day; lia).
  pose proof (Z.div_mod scheduled_time usec_per_day Hd) as Hs.
  pose proof (Z.div_mod e usec_per_day Hd) as He.
  rewrite Hsame in He.
  set (q := scheduled_time / usec_per_day) in *.
  set (r := scheduled_time mod usec_per_day) in *.
  set (r' := e mod usec_per_day) in *.
  assert (A1 : TrainerAvailability.start_time a <= r <->
               q * usec_per_day + TrainerAvailability.start_time a <= scheduled_time)
    by (unfold usec_per_day in *; lia).
  assert (A2 : r' <= TrainerAvailability.end_time a <->
               e <= q * usec_per_day + TrainerAvailability.end_time a)
    by (unfold usec_per_day in *; lia).
  tauto.
Qed.

(** For an interval that ends on the day it starts, comparing times of
    day is comparing instants. *)
Lemma same_day_window (start finish : datetime) (slot_start slot_end : time) :
  dt_date finish = dt_date start ->
  (slot_start <= dt_time start /\ dt_time finish <= slot_end
   <-> datetime_combine (dt_date start) slot_start <= start
       /\ finish <= datetime_combine (dt_date start) slot_end).
Proof.
  unfold dt_date, dt_time, datetime_combine. intros Hsame.
  assert (Hd : usec_per_day <> 0) by (unfold usec_per_day; lia).
  pose proof (Z.div_mod start usec_per_day Hd) as Hs.
  pose proof (Z.div_mod finish usec_per_day Hd) as He.
  rewrite Hsame in He.
  set (q := start / usec_per_day) in *.
  set (r := start mod usec_per_day) in *.
  set (r' := finish mod usec_per_day) in *.
  unfold usec_per_day in *. lia.
Qed.

(** When the booking fails on the availability check. *)
Lemma trainer_unavailable_iff (s : Session) now member_id trainer_id scheduled_time
      duration_minutes room_id notes day start_time :
  fst (MemberService.book_personal_training_session
         s now member_id trainer_id scheduled_time duration_minutes room_id notes)
  = Failure (TrainerUnavailable day start_time)
  <->
  In member_id (members (db s))
  /\ In trainer_id (trainers (db s))
  /\ now < scheduled_time
  /\ (~ exists a, In a (trainer_availability (db s))
                  /\ contains_session trainer_id scheduled_time duration_minutes a)
  /\ day = DayOfWeek.of_date (dt_date scheduled_time)
  /\ start_time = dt_time scheduled_time.
Proof.
  pose proof (book_session_result s now member_id trainer_id scheduled_time
                                  duration_minutes room_id notes) as H.
  cbv zeta in H. unfold bookable_session in H.
  destruct H as [(? & E) | [(? & ? & E) | [(? & ? & ? & E) | [(? & ? & ? & ? & E)
                | [(? & ? & E) | [(? & ? & ? & E) | (? & ? & ? & ? & ? & ? & Hn & ? & ?)]]]]]];
    try rewrite E.
  1-3, 5-6: split; intros G; [discriminate G | exfalso; intuition lia].
  - split.
    + intros [= <- <-]. intuition.
    + intros (_ & _ & _ & _ & -> & ->). reflexivity.
  - split; intros G; [exfalso; apply (Hn _ _ G) | exfalso; intuition].
Qed.

(** C6, as the code has it.  The availability check compares times of
    day.  For an existing member and trainer and a time in the future (and
    a start and an end that the datetime type holds),
    book_personal_training_session fails with 'Trainer is not available
    on ... at ...' exactly when no slot of the trainer for the weekday of
    the session's start has slot.start <= the start time of day and
    slot.end >= the time of day at which the session ends.  For a session
    that ends on the day it starts, such a slot is one whose window
    contains the session interval, so the call fails exactly unless a
    window contains the session.  A session that runs past midnight has
    its end compared as a wrapped time of day. *)
Theorem trainer_availability_containment (s : Session) now member_id trainer_id
        scheduled_time duration_minutes room_id notes day start_time :
  valid_datetime scheduled_time ->
  valid_datetime (scheduled_time + timedelta_minutes duration_minutes) ->
  let finish := scheduled_time + timedelta_minutes duration_minutes in
  let out := fst (MemberService.book_personal_training_session
                    s now member_id trainer_id scheduled_time duration_minutes
                    room_id notes) in
  (out = Failure (TrainerUnavailable day start_time)
   <->
   In member_id (members (db s))
   /\ In trainer_id (trainers (db s))
   /\ now < scheduled_time
   /\ (~ exists a, In a (trainer_availability (db s))
                   /\ TrainerAvailability.trainer_id a = trainer_id
                   /\ TrainerAvailability.day_of_week a
                      = DayOfWeek.of_date (dt_date scheduled_time)
                   /\ TrainerAvailability.start_time a <= dt_time scheduled_time
                   /\ dt_time finish <= TrainerAvailability.end_time a)
   /\ day = DayOfWeek.of_date (dt_date scheduled_time)
   /\ start_time = dt_time scheduled_time)
  /\ (dt_date finish = dt_date scheduled_time ->
      (out = Failure (TrainerUnavailable day start_time)
       <->
       In member_id (members (db s))
       /\ In trainer_id (trainers (db s))
       /\ now < scheduled_time
       /\ (~ exists a, In a (trainer_availability (db s))
                       /\ TrainerAvailability.trainer_id a = trainer_id
                       /\ TrainerAvailability.day_of_week a
                          = DayOfWeek.of_date (dt_date scheduled_time)
                       /\ datetime_combine (dt_date scheduled_time)
                                           (TrainerAvailability.start_time a)
                          <= scheduled_time
                       /\ finish <= datetime_combine (dt_date scheduled_time)
                                                     (TrainerAvailability.end_time a))
       /\ day = DayOfWeek.of_date (dt_date scheduled_time)
       /\ start_time = dt_time scheduled_time)).
Proof.
  intros _ _ finish out.
  pose proof (trainer_unavailable_iff s now member_id trainer_id scheduled_time
                                      duration_minutes room_id notes day start_time) as H.
  fold out in H. unfold contains_session in H. fold finish in H.
  split; [exact H |].
  intros Hsame. rewrite H.
  assert (Hslot : (exists a, In a (trainer_availability (db s))
                             /\ TrainerAvailability.trainer_id a = trainer_id
                             /\ TrainerAvailability.day_of_week a
                                = DayOfWeek.of_date (dt_date scheduled_time)
                             /\ TrainerAvailability.start_time a <= dt_time scheduled_time
                             /\ dt_time finish <= TrainerAvailability.end_time a)
                  <-> (exists a, In a (trainer_availability (db s))
                                 /\ TrainerAvailability.trainer_id a = trainer_id
                                 /\ TrainerAvailability.day_of_week a
                                    = DayOfWeek.of_date (dt_date scheduled_time)
                                 /\ datetime_combine (dt_date scheduled_time)
                                                     (TrainerAvailability.start_time a)
                                    <= scheduled_time
                                 /\ finish
                                    <= datetime_combine (dt_date scheduled_time)
                                                        (TrainerAvailability.end_time a))).
  { split; intros (a & Ha & Ht & Hd & Hw); exists a;
      (split; [exact Ha |]; split; [exact Ht |]; split; [exact Hd |]);
      apply (same_day_window scheduled_time finish _ _ Hsame); exact Hw. }
  rewrite Hslot. reflexivity.
Qed.

(** With the trainer available on Monday 09:00-12:00, a Monday session at
    11:30 for 60 minutes ends at 12:30 of that day and is rejected,
    although 11:30 lies inside the slot. *)
Lemma trainer_availability_containment_witness :
  trainer_availability (db club_session)
  = [TrainerAvailability.mk (Some 1) 1 DayOfWeek.MONDAY (hm 9 0) (hm 12 0)]
  /\ DayOfWeek.of_date june_2 = DayOfWeek.MONDAY
  /\ hm 9 0 <= hm 11 30 < hm 12 0
  /\ fst (MemberService.book_personal_training_session
            club_session may_1_noon 1 1 (datetime_combine june_2 (hm 11 30)) 60 None None)
     = Failure (TrainerUnavailable DayOfWeek.MONDAY (hm 11 30)).
Proof.
  split; [reflexivity |]. split; [reflexivity |].
  split; [vm_compute; split; congruence |].
  destruct (trainer_availability_containment
              club_session may_1_noon 1 1 (datetime_combine june_2 (hm 11 30)) 60
              None None DayOfWeek.MONDAY (hm 11 30)
              ltac:(vm_compute; split; [congruence | reflexivity])
              ltac:(vm_compute; split; [congruence | reflexivity])) as [_ H].
  apply (H ltac:(vm_compute; reflexivity)).
  split; [left; reflexivity |]. split; [left; reflexivity |].
  split; [vm_compute; reflexivity |].
  split; [| split; reflexivity].
  intros (a & [<- | []] & _ & _ & _ & Hend). vm_compute in Hend.
  apply Hend. reflexivity.
Defined.

(** The claim as the specification words it fails for a session that runs
    past midnight.  Trainer 1 replaces the slot of the scenarios by Monday
    09:00-23:30.  A session on Monday 2025-06-02 at 23:00 for 120 minutes
    ends on Tuesday at 01:00: no window of the trainer contains it, and
    yet the call does not fail with TrainerUnavailable but books the
    session, because the end is compared as the time of day 01:00. *)
Lemma overnight_session_outside_availability :
  let s := session (club_run the_club
                             [DeleteAvailability 1 1;
                              SetAvailability 1 (Some DayOfWeek.MONDAY)
                                              (hm 9 0) (hm 23 30)]) in
  let start := datetime_combine june_2 (hm 23 0) in
  let finish := start + timedelta_minutes 120 in
  let out := MemberService.book_personal_training_session
               s may_1_noon 1 1 start 120 None None in
  trainer_availability (db s)
  = [TrainerAvailability.mk (Some 2) 1 DayOfWeek.MONDAY (hm 9 0) (hm 23 30)]
  /\ In 1 (members (db s)) /\ In 1 (trainers (db s)) /\ may_1_noon < start
  /\ DayOfWeek.of_date (dt_date start) = DayOfWeek.MONDAY
  /\ finish = datetime_combine (june_2 + 1) (hm 1 0)
  /\ (forall a, In a (trainer_availability (db s)) ->
                ~ (datetime_combine (dt_date start) (TrainerAvailability.start_time a)
                   <= start
                   /\ finish <= datetime_combine (dt_date start)
                                                 (TrainerAvailability.end_time a)))
  /\ fst out <> Failure (TrainerUnavailable DayOfWeek.MONDAY (hm 23 0))
  /\ success (fst out) = true.
Proof.
  intros s start finish out.
  split; [reflexivity |].
  split; [left; reflexivity |]. split; [left; reflexivity |].
  split; [vm_compute; reflexivity |]. split; [reflexivity |].
  split; [reflexivity |]. split.
  - intros a [<- | []] [_ H]. vm_compute in H. apply H. reflexivity.
  - vm_compute. split; congruence.
Qed.

(** ** Rescheduling a personal training session *)

Lemma session_with_no_pending (s : Session) : pending s = [] -> mkSession (db s) [] = s.
Proof. destruct s as [d p]. cbn. intros ->. reflexivity. Qed.




(** ** The time check of create_class *)

(** C8, as the code has it.  For an existing trainer and room, a capacity
    within the room's and a positive duration, create_class fails with
    'Cannot schedule class in the past' exactly when [scheduled_time] is
    strictly before the clock reading; a class scheduled at the very
    instant [now] passes the check. *)
Theorem create_class_past_schedule (s : Session) now name trainer_id room_id
        scheduled_time duration_minutes capacity description (room : Room.t) :
  In trainer_id (trainers (db s)) ->
  AdminService.get_room_by_id s room_id = Some room ->
  match capacity with Some c => c <= Room.capacity room | None => True end ->
  0 < duration_minutes ->
  (fst (AdminService.create_class s now name trainer_id room_id scheduled_time
                                  duration_minutes capacity description)
   = Failure PastSchedule
   <-> scheduled_time < now).
Proof.
  intros Ht Hroom Hcap Hdur. unfold AdminService.create_class.
  apply mem_id_In in Ht. rewrite Ht, Hroom. cbn [negb].
  assert (Hc : exists c, match capacity with
                         | None => inl (Room.capacity room)
                         | Some c =>
                             if c >? Room.capacity room
                             then inr (CapacityExceeded c (Room.capacity room))
                             else inl c
                         end = inl c).
  { destruct capacity as [c|]; [| eexists; reflexivity].
    rewrite Z.gtb_ltb. destruct (Z.ltb_spec (Room.capacity room) c); [lia |].
    eexists; reflexivity. }
  destruct Hc as [c ->].
  destruct (Z.leb_spec duration_minutes 0); [lia |].
  destruct (Z.ltb_spec scheduled_time now); cbn [fst].
  - tauto.
  - split; [| lia]. cbv zeta.
    destruct (AdminService.is_room_available _ _ _ _ _); cbn [negb fst];
      [| discriminate].
    destruct (commit _); discriminate.
Qed.

Lemma create_class_past_schedule_witness :
  fst (AdminService.create_class club_session may_1_noon "Yoga" 1 1
                                 (may_1_noon - 1) 60 (Some 10) None)
  = Failure PastSchedule
  <-> may_1_noon - 1 < may_1_noon.
Proof.
  apply (create_class_past_schedule club_session may_1_noon "Yoga" 1 1
                                    (may_1_noon - 1) 60 (Some 10) None studio_a).
  - left. reflexivity.
  - reflexivity.
  - vm_compute. discriminate.
  - lia.
Defined.

(** A class scheduled exactly at the clock reading is created. *)
Lemma create_class_at_now_accepted :
  ~ (may_1_noon < may_1_noon)
  /\ mem_id 1 (trainers (db club_session)) = true
  /\ AdminService.get_room_by_id club_session 1 = Some studio_a
  /\ fst (AdminService.create_class club_session may_1_noon "Yoga" 1 1
                                    may_1_noon 60 (Some 10) None)
     = Success (ClassData (FitnessClass.mk (Some 1) "Yoga" None 1 1 may_1_noon 60 10
                                           ClassStatus.SCHEDULED))
  /\ fst (AdminService.create_class club_session may_1_noon "Yoga" 1 1
                                    may_1_noon 60 (Some 10) None)
     <> Failure PastSchedule.
Proof.
  split; [lia |]. vm_compute. repeat split; congruence.
Qed.

(** ** Classes that run past midnight *)

Lemma find_snoc {A} (f : A -> bool) (l : list A) (x : A) :
  find f (l ++ [x]) =
  match find f l with
  | Some y => Some y
  | None => if f x then Some x else None
  end.
Proof.
  induction l as [|a l IH]; cbn; [reflexivity |].
  destruct (f a); [reflexivity | exact IH].
Qed.

Lemma commit_add_pair_eq (s : Session) (op1 op2 : PendingOp) :
  pending s = [] ->
  commit (add op2 (add op1 s)) =
  match apply_op (db s) op1 with
  | Some d1 =>
      match apply_op d1 op2 with
      | Some d2 => Some (mkSession d2 [])
      | None => None
      end
  | None => None
  end.
Proof.
  intros Hp. unfold commit, add. cbn [pending db]. rewrite Hp. cbn [app flush].
  destruct (apply_op (db s) op1) as [d1|]; [| reflexivity].
  destruct (apply_op d1 op2); reflexivity.
Qed.


(** A class shorter than a day that ends on the next day has a wrapped end
    time of day earlier than its start time of day. *)
Lemma wrapped_end_before_start (scheduled_time : datetime) (duration_minutes : Z) :
  duration_minutes < 1440 ->
  dt_date (scheduled_time + timedelta_minutes duration_minutes)
  = dt_date scheduled_time + 1 ->
  dt_time (scheduled_time + timedelta_minutes duration_minutes) < dt_time scheduled_time.
Proof.
  unfold dt_date, dt_time, timedelta_minutes. intros Hdur Hnext.
  assert (Hd : usec_per_day <> 0) by (unfold usec_per_day; lia).
  pose proof (Z.div_mod scheduled_time usec_per_day Hd) as Hs.
  pose proof (Z.div_mod (scheduled_time + duration_minutes * usec_per_minute)
                        usec_per_day Hd) as He.
  rewrite Hnext in He.
  unfold usec_per_day, usec_per_minute in *. lia.
Qed.




(** * Further properties of the services *)

(** ** Failed calls *)

Lemma rollback_add (s : Session) (op : PendingOp) :
  pending s = [] -> rollback (add op s) = s.
Proof. intros Hp. unfold rollback, add. cbn [db]. apply session_with_no_pending, Hp. Qed.

Lemma reschedule_failure_state (s : Session) now member_id session_id new_time :
  pending s = [] ->
  success (fst (MemberService.reschedule_pt_session
                  s now member_id session_id new_time)) = false ->
  snd (MemberService.reschedule_pt_session s now member_id session_id new_time) = s.
Proof.
  intros Hp. unfold MemberService.reschedule_pt_session.
  destruct (MemberService.find_session s member_id session_id) as [old|];
    [| reflexivity].
  destruct (negb _); [reflexivity |].
  match goal with
  | |- context [MemberService.book_personal_training_session ?s1 ?n ?m ?t ?sch ?dur ?r ?nt] =>
      pose proof (book_session_outcome s1 n m t sch dur r nt) as H
  end.
  cbv zeta in H. destruct H as [[e He] | [[He _] | (s2 & Ec & He)]]; rewrite He.
  - intros _. cbn [fst snd]. apply rollback_add, Hp.
  - intros _. cbn [fst snd]. unfold rollback, add. cbn [db].
    apply session_with_no_pending, Hp.
  - rewrite (commit_nil s2 (commit_pending _ _ Ec)). cbn [fst success]. discriminate.
Qed.




(** ** Room availability and the calls that book rooms *)

Lemma find_ext_in {A} (f g : A -> bool) (l : list A) :
  (forall x, In x l -> f x = g x) -> find f l = find g l.
Proof.
  induction l as [|a l IH]; intros H; cbn; [reflexivity |].
  rewrite (H a (or_introl eq_refl)). destruct (g a); [reflexivity |].
  apply IH. intros x Hx. apply H. right. assumption.
Qed.

(** On the rows the query returns, conflicts_with of a fresh booking is
    the overlap test of is_room_available. *)
Lemma find_conflict_is_overlap (s : Session) room_id booking_date start_time end_time
      purpose admin_id :
  find (fun booking =>
          RoomBooking.conflicts_with
            (RoomBooking.mk None room_id booking_date start_time end_time
                            purpose admin_id None) booking)
       (AdminService.existing_bookings s room_id booking_date)
  = find (fun booking =>
            (start_time <? RoomBooking.end_time booking)
            && (RoomBooking.start_time booking <? end_time))
         (AdminService.existing_bookings s room_id booking_date).
Proof.
  apply find_ext_in. intros b Hb. apply existing_bookings_In in Hb.
  destruct Hb as (_ & Hr & Hd & st & Hst & Hne).
  unfold RoomBooking.conflicts_with, RoomBooking.is_cancelled. cbn.
  rewrite Hr, Hd, Hst, !Z.eqb_refl. cbn.
  destruct st; try reflexivity. contradiction.
Qed.




(** Availability after one more confirmed booking of the room and date. *)
Lemma is_room_available_snoc (s s' : Session) (w : RoomBooking.t)
      room_id booking_date start_time end_time :
  room_bookings (db s') = room_bookings (db s) ++ [w] ->
  RoomBooking.room_id w = room_id ->
  RoomBooking.booking_date w = booking_date ->
  RoomBooking.status w = Some BookingStatus.CONFIRMED ->
  AdminService.is_room_available s' room_id booking_date start_time end_time
  = AdminService.is_room_available s room_id booking_date start_time end_time
    && negb ((start_time <? RoomBooking.end_time w)
             && (RoomBooking.start_time w <? end_time)).
Proof.
  intros Hrb Hr Hd Hst.
  unfold AdminService.is_room_available, AdminService.existing_bookings.
  rewrite Hrb, filter_app. cbn [filter]. rewrite Hr, Hd, Hst, !Z.eqb_refl. cbn [andb negb BookingStatus.eqb].
  rewrite find_snoc. destruct (find _ _); [reflexivity |].
  destruct ((start_time <? RoomBooking.end_time w)
            && (RoomBooking.start_time w <? end_time)); reflexivity.
Qed.

Lemma book_room_success_available (s : Session) now room_id booking_date
      start_time end_time purpose admin_id :
  success (fst (AdminService.book_room s now room_id booking_date start_time end_time
                                       purpose admin_id)) = true ->
  AdminService.is_room_available s room_id booking_date start_time end_time = true.
Proof.
  unfold AdminService.book_room, AdminService.is_room_available.
  destruct (AdminService.get_room_by_id s room_id); [| discriminate].
  destruct (start_time >=? end_time); [discriminate |].
  destruct (booking_date <? dt_date now); [discriminate |].
  cbv zeta. rewrite find_conflict_is_overlap.
  destruct (find _ _); [discriminate | reflexivity].
Qed.

(** The state a successful create_class leaves. *)
Lemma create_class_success_state (s : Session) now name trainer_id room_id scheduled_time
      duration_minutes capacity description :
  pending s = [] ->
  schedulable s now trainer_id room_id scheduled_time duration_minutes capacity ->
  storable_class s room_id name duration_minutes capacity ->
  AdminService.is_room_available
    s room_id (dt_date scheduled_time) (dt_time scheduled_time)
    (dt_time (scheduled_time + timedelta_minutes duration_minutes)) = true ->
  exists room cap,
    AdminService.get_room_by_id s room_id = Some room
    /\ cap = match capacity with Some c => c | None => Room.capacity room end
    /\ AdminService.create_class s now name trainer_id room_id scheduled_time
                                 duration_minutes capacity description
       = (Success (ClassData
                     (FitnessClass.mk (Some (next_class_id (db s))) name description
                                      trainer_id room_id scheduled_time duration_minutes
                                      cap ClassStatus.SCHEDULED)),
          mkSession
            (with_room_bookings
               (room_bookings (db s)
                  ++ [class_booking (next_booking_id (db s)) name room_id
                                    scheduled_time duration_minutes])
               (next_booking_id (db s) + 1)
               (with_fitness_classes
                  (fitness_classes (db s)
                     ++ [FitnessClass.mk (Some (next_class_id (db s))) name description
                                         trainer_id room_id scheduled_time
                                         duration_minutes cap ClassStatus.SCHEDULED])
                  (next_class_id (db s) + 1) (db s)))
            []).
Proof.
  intros Hp (Ht & (room & Hroom & Hcap) & Hdur & Hnow) (Hname & Hmax & Hlow & Hhigh) Hav.
  exists room, (match capacity with Some c => c | None => Room.capacity room end).
  split; [assumption |]. split; [reflexivity |].
  unfold AdminService.create_class.
  apply mem_id_In in Ht. rewrite Ht, Hroom. cbn [negb].
  specialize (Hhigh room Hroom).
  assert (Hfit : fits_integer (match capacity with
                               | Some c => c
                               | None => Room.capacity room
                               end) = true).
  { unfold fits_integer. destruct capacity as [c|]; [lia |].
    specialize (Hlow room Hroom). lia. }
  assert (Hc : match capacity with
               | None => inl (Room.capacity room)
               | Some c =>
                   if c >? Room.capacity room
                   then inr (CapacityExceeded c (Room.capacity room))
                   else inl c
               end = inl (match capacity with Some c => c | None => Room.capacity room end)).
  { destruct capacity as [c|]; [| reflexivity].
    rewrite Z.gtb_ltb. destruct (Z.ltb_spec (Room.capacity room) c); [lia |].
    reflexivity. }
  rewrite Hc.
  destruct (Z.leb_spec duration_minutes 0); [lia |].
  destruct (Z.ltb_spec scheduled_time now); [lia |].
  cbv zeta. rewrite Hav. cbn [negb].
  rewrite (commit_add_pair_eq _ _ _ Hp). cbn [apply_op].
  cbn [FitnessClass.trainer_id FitnessClass.room_id FitnessClass.name
       FitnessClass.duration_minutes FitnessClass.capacity].
  assert (Hre : room_exists room_id (db s) = true).
  { apply room_exists_get. congruence. }
  assert (Hfd : fits_integer duration_minutes = true) by (unfold fits_integer; lia).
  apply Nat.leb_le in Hname.
  rewrite Ht, Hre, Hname, Hfd, Hfit. cbn [andb].
  cbn [RoomBooking.room_id RoomBooking.booked_by_admin_id].
  unfold room_exists in *. cbn [rooms with_fitness_classes]. rewrite Hre.
  reflexivity.
Qed.

(** X3. A class blocks its room.  After create_class succeeds (its
    checks pass, the name fits the column of 100 characters, duration and
    capacity fit their INTEGER columns, and start and end are dates the
    datetime type holds), the room is reported unavailable on the class
    date for every window that overlaps the stored window of the class
    (start < class end and class start < end, as times of day), and
    book_room refuses every such window, whoever asks and whenever. *)
Theorem class_blocks_its_room (s : Session) now name trainer_id room_id scheduled_time
        duration_minutes capacity description :
  pending s = [] ->
  schedulable s now trainer_id room_id scheduled_time duration_minutes capacity ->
  storable_class s room_id name duration_minutes capacity ->
  valid_datetime scheduled_time ->
  valid_datetime (scheduled_time + timedelta_minutes duration_minutes) ->
  AdminService.is_room_available
    s room_id (dt_date scheduled_time) (dt_time scheduled_time)
    (dt_time (scheduled_time + timedelta_minutes duration_minutes)) = true ->
  let s' := snd (AdminService.create_class s now name trainer_id room_id scheduled_time
                                           duration_minutes capacity description) in
  forall start_time end_time,
    start_time < dt_time (scheduled_time + timedelta_minutes duration_minutes) ->
    dt_time scheduled_time < end_time ->
    AdminService.is_room_available s' room_id (dt_date scheduled_time)
                                   start_time end_time = false
    /\ forall now' purpose admin_id,
         success (fst (AdminService.book_room s' now' room_id (dt_date scheduled_time)
                                              start_time end_time purpose admin_id))
         = false.
Proof.
  intros Hp Hok Hst _ _ Hav s' start_time end_time H1 H2.
  destruct (create_class_success_state s now name trainer_id room_id scheduled_time
              duration_minutes capacity description Hp Hok Hst Hav)
    as (room & cap & _ & _ & E).
  assert (Hno : AdminService.is_room_available s' room_id (dt_date scheduled_time)
                                               start_time end_time = false).
  { subst s'. rewrite E. cbn [snd].
    erewrite is_room_available_snoc with (s := s);
      [| reflexivity | reflexivity | reflexivity | reflexivity].
    cbn [class_booking RoomBooking.end_time RoomBooking.start_time].
    apply Z.ltb_lt in H1. apply Z.ltb_lt in H2. rewrite H1, H2.
    cbn [andb negb]. apply andb_false_r. }
  split; [exact Hno |].
  intros now' purpose admin_id.
  destruct (success _) eqn:Es; [| reflexivity].
  apply book_room_success_available in Es. congruence.
Qed.

(** A yoga class on Sunday 09:00-10:00 blocks 09:30-10:30 in Studio A. *)
Lemma class_blocks_its_room_witness :
  let s' := snd (AdminService.create_class
                   club_session may_1_noon "Yoga" 1 1
                   (datetime_combine june_1 (hm 9 0)) 60 (Some 10) None) in
  AdminService.is_room_available s' 1 june_1 (hm 9 30) (hm 10 30) = false
  /\ success (fst (AdminService.book_room s' may_1_noon 1 june_1 (hm 9 30) (hm 10 30)
                                          None (Some 1))) = false.
Proof.
  intros s'.
  assert (Hok : schedulable club_session may_1_noon 1 1
                            (datetime_combine june_1 (hm 9 0)) 60 (Some 10)).
  { split; [left; reflexivity |]. split; [| vm_compute; split; congruence].
    exists studio_a. split; [reflexivity | vm_compute; congruence]. }
  assert (Hst : storable_class club_session 1 "Yoga" 60 (Some 10)).
  { split; [vm_compute; lia |]. split; [lia |]. split; [lia |].
    intros room [= <-]. vm_compute. congruence. }
  destruct (class_blocks_its_room
              club_session may_1_noon "Yoga" 1 1 (datetime_combine june_1 (hm 9 0)) 60
              (Some 10) None eq_refl Hok Hst
              ltac:(vm_compute; split; [congruence | reflexivity])
              ltac:(vm_compute; split; [congruence | reflexivity])
              ltac:(vm_compute; reflexivity)
              (hm 9 30) (hm 10 30) ltac:(vm_compute; reflexivity)
              ltac:(vm_compute; reflexivity)) as [H1 H2].
  split; [exact H1 | apply H2].
Defined.

(** X4. The same room can hold two classes over the same midnight.  A
    class that the columns can store (names of at most 100 characters, a
    capacity within INTEGER), shorter than a day, that ends on the day
    after it starts is stored with a wrapped window that does not overlap
    itself, so a second create_class for the same room and time is
    accepted as well, and both bookings are stored. *)
Theorem overnight_class_booked_twice (s : Session) now name name' trainer_id room_id
        scheduled_time duration_minutes capacity description description' :
  pending s = [] ->
  schedulable s now trainer_id room_id scheduled_time duration_minutes capacity ->
  storable_class s room_id name duration_minutes capacity ->
  (String.length name' <= 100)%nat ->
  valid_datetime scheduled_time ->
  valid_datetime (scheduled_time + timedelta_minutes duration_minutes) ->
  duration_minutes < 1440 ->
  dt_date (scheduled_time + timedelta_minutes duration_minutes)
  = dt_date scheduled_time + 1 ->
  AdminService.is_room_available
    s room_id (dt_date scheduled_time) (dt_time scheduled_time)
    (dt_time (scheduled_time + timedelta_minutes duration_minutes)) = true ->
  let s1 := snd (AdminService.create_class s now name trainer_id room_id scheduled_time
                                           duration_minutes capacity description) in
  let out2 := AdminService.create_class s1 now name' trainer_id room_id scheduled_time
                                        duration_minutes capacity description' in
  success (fst out2) = true
  /\ room_bookings (db (snd out2))
     = room_bookings (db s)
       ++ [class_booking (next_booking_id (db s)) name room_id
                         scheduled_time duration_minutes;
           class_booking (next_booking_id (db s) + 1) name' room_id
                         scheduled_time duration_minutes].
Proof.
  intros Hp Hok Hst Hname' _ _ Hdur Hnext Hav s1 out2.
  destruct (create_class_success_state s now name trainer_id room_id scheduled_time
              duration_minutes capacity description Hp Hok Hst Hav)
    as (room & cap & Hroom & _ & E).
  assert (Es1 : s1 = snd (AdminService.create_class s now name trainer_id room_id
                            scheduled_time duration_minutes capacity description))
    by reflexivity.
  rewrite E in Es1. cbn [snd] in Es1.
  assert (Hp1 : pending s1 = []) by (rewrite Es1; reflexivity).
  assert (Hok1 : schedulable s1 now trainer_id room_id scheduled_time
                             duration_minutes capacity).
  { destruct Hok as (Ht & (room0 & Hroom0 & Hcap) & Hd & Hn).
    split; [rewrite Es1; exact Ht |]. split; [| split; assumption].
    exists room0. split; [| assumption]. rewrite Es1. exact Hroom0. }
  assert (Hav1 : AdminService.is_room_available
                   s1 room_id (dt_date scheduled_time) (dt_time scheduled_time)
                   (dt_time (scheduled_time + timedelta_minutes duration_minutes))
                 = true).
  { rewrite (is_room_available_snoc s s1
               (class_booking (next_booking_id (db s)) name room_id
                              scheduled_time duration_minutes));
      try reflexivity; [| rewrite Es1; reflexivity].
    rewrite Hav. cbn [class_booking RoomBooking.end_time RoomBooking.start_time andb].
    pose proof (wrapped_end_before_start _ _ Hdur Hnext) as Hw.
    destruct (Z.ltb_spec (dt_time scheduled_time)
                (dt_time (scheduled_time + timedelta_minutes duration_minutes)));
      [lia | reflexivity]. }
  assert (Hst1 : storable_class s1 room_id name' duration_minutes capacity).
  { destruct Hst as (_ & Hmax & Hlow & Hhigh).
    split; [exact Hname' |]. split; [exact Hmax |]. split.
    - destruct capacity as [c|]; [exact Hlow |].
      intros room0 Hr. apply Hlow. rewrite Es1 in Hr. exact Hr.
    - intros room0 Hr. apply Hhigh. rewrite Es1 in Hr. exact Hr. }
  destruct (create_class_success_state s1 now name' trainer_id room_id scheduled_time
              duration_minutes capacity description' Hp1 Hok1 Hst1 Hav1)
    as (room1 & cap1 & _ & _ & E1).
  subst out2. rewrite E1. cbn [fst snd success db room_bookings with_room_bookings].
  split; [reflexivity |].
  rewrite Es1. cbn [db room_bookings with_room_bookings next_booking_id].
  rewrite <- app_assoc. reflexivity.
Qed.

(** Two classes on Sunday 23:30 for 60 minutes in Studio A. *)
Lemma overnight_class_booked_twice_witness :
  let s1 := snd (AdminService.create_class
                   club_session may_1_noon "Late" 1 1
                   (datetime_combine june_1 (hm 23 30)) 60 (Some 10) None) in
  let out2 := AdminService.create_class
                s1 may_1_noon "Later" 1 1
                (datetime_combine june_1 (hm 23 30)) 60 (Some 10) None in
  success (fst out2) = true
  /\ room_bookings (db (snd out2))
     = [class_booking 1 "Late" 1 (datetime_combine june_1 (hm 23 30)) 60;
        class_booking 2 "Later" 1 (datetime_combine june_1 (hm 23 30)) 60].
Proof.
  assert (Hok : schedulable club_session may_1_noon 1 1
                            (datetime_combine june_1 (hm 23 30)) 60 (Some 10)).
  { split; [left; reflexivity |]. split; [| vm_compute; split; congruence].
    exists studio_a. split; [reflexivity | vm_compute; congruence]. }
  assert (Hst : storable_class club_session 1 "Late" 60 (Some 10)).
  { split; [vm_compute; lia |]. split; [lia |]. split; [lia |].
    intros room [= <-]. vm_compute. congruence. }
  exact (overnight_class_booked_twice
           club_session may_1_noon "Late" "Later" 1 1
           (datetime_combine june_1 (hm 23 30)) 60 (Some 10) None None
           eq_refl Hok Hst ltac:(vm_compute; lia)
           ltac:(vm_compute; split; [congruence | reflexivity])
           ltac:(vm_compute; split; [congruence | reflexivity])
           ltac:(lia) ltac:(vm_compute; reflexivity) ltac:(vm_compute; reflexivity)).
Defined.

(** ** Cancelling a class *)




(** ** Registering for a class *)

Lemma existsb_false_iff {A} (f : A -> bool) (l : list A) :
  existsb f l = false <-> forall x, In x l -> f x = false.
Proof.
  split.
  - intros H x Hx. destruct (f x) eqn:E; [| reflexivity].
    assert (existsb f l = true) by (apply existsb_exists; exists x; tauto).
    congruence.
  - intros H. destruct (existsb f l) eqn:E; [| reflexivity].
    apply existsb_exists in E. destruct E as (x & Hx & Hf).
    rewrite (H x Hx) in Hf. discriminate.
Qed.

Lemma find_none_iff {A} (f : A -> bool) (l : list A) :
  find f l = None <-> forall x, In x l -> f x = false.
Proof.
  split; [apply find_none |].
  intros H. destruct (find f l) as [x|] eqn:E; [| reflexivity].
  apply find_some in E. destruct E as [Hx Hf]. rewrite (H x Hx) in Hf. discriminate.
Qed.

Lemma register_for_class_success (s : Session) now member_id class_id :
  pending s = [] ->
  success (fst (MemberService.register_for_class s now member_id class_id)) = true ->
  (exists c,
      registrable s now member_id class_id c
      /\ (forall r, In r (class_registrations (db s)) ->
                    ~ (ClassRegistration.member_id r = member_id
                       /\ ClassRegistration.class_id r = class_id))
      /\ registered_count (db s) class_id < FitnessClass.capacity c
      /\ ~ (exists p, In p (personal_training_sessions (db s))
                      /\ PersonalTrainingSession.member_id p = member_id
                      /\ starts_in (FitnessClass.scheduled_time c)
                                   (FitnessClass.get_end_time c) p))
  /\ MemberService.register_for_class s now member_id class_id
     = (Success (RegistrationData
                   (ClassRegistration.mk (Some (next_registration_id (db s)))
                                         member_id class_id
                                         RegistrationStatus.REGISTERED)),
        mkSession
          (with_class_registrations
             (class_registrations (db s)
                ++ [ClassRegistration.mk (Some (next_registration_id (db s)))
                                         member_id class_id
                                         RegistrationStatus.REGISTERED])
             (next_registration_id (db s) + 1) (db s))
          []).
Proof.
  intros Hp. unfold MemberService.register_for_class.
  destruct (mem_id member_id (members (db s))) eqn:Em; cbn [negb]; [| discriminate].
  destruct (find _ (fitness_classes (db s))) as [c|] eqn:Ec; [| discriminate].
  destruct (ClassStatus.eqb (FitnessClass.status c) ClassStatus.SCHEDULED) eqn:Est;
    cbn [negb]; [| discriminate].
  destruct (Z.leb_spec (FitnessClass.scheduled_time c) now) as [|Hfut]; [discriminate |].
  destruct (find _ (class_registrations (db s))) eqn:Eex; [discriminate |].
  cbv zeta. fold (registered_count (db s) class_id).
  rewrite Z.geb_leb.
  destruct (Z.leb_spec (FitnessClass.capacity c) (registered_count (db s) class_id))
    as [|Hcap]; [discriminate |].
  destruct (find _ (personal_training_sessions (db s))) eqn:Epc; [discriminate |].
  rewrite (commit_add_eq _ _ Hp). cbn [apply_op].
  cbn [ClassRegistration.member_id ClassRegistration.class_id].
  destruct (_ && _) eqn:Efk; cbn [fst success]; [| discriminate].
  intros _. split; [| reflexivity].
  exists c. repeat split.
  - apply mem_id_In. assumption.
  - assumption.
  - apply ClassStatus_eqb_eq. assumption.
  - assumption.
  - intros r Hr [Hm Hc].
    rewrite !andb_true_iff, negb_true_iff in Efk. destruct Efk as [_ Efk].
    rewrite existsb_false_iff in Efk. specialize (Efk r Hr). cbn beta in Efk.
    rewrite Hm, Hc, !Z.eqb_refl in Efk. discriminate.
  - assumption.
  - intros (p & Hp' & Hm & Hin).
    pose proof (find_none _ _ Epc p Hp') as H. cbn beta in H.
    apply starts_within_true in Hin. rewrite Hm, Z.eqb_refl, Hin in H. discriminate.
Qed.




(** ** What a call writes *)

Lemma commit_add_flush (s s2 : Session) (op : PendingOp) :
  pending s = [] -> commit (add op s) = Some s2 -> flush [op] (db s) = Some (db s2).
Proof.
  intros Hp Ec. apply commit_flush in Ec. cbn [add pending db] in Ec.
  rewrite Hp in Ec. exact Ec.
Qed.

(** The database after a call is the database before with the statements
    of the call flushed: none when the call fails. *)
Lemma call_flush (s : Session) (c : Call) :
  pending s = [] ->
  exists ops, Forall (issues c) ops /\ flush ops (db s) = Some (db (snd (call s c))).
Proof.
  intros Hp.
  assert (Hnone : forall s', db s' = db s ->
                             exists ops, Forall (issues c) ops
                                         /\ flush ops (db s) = Some (db s')).
  { intros s' E. exists []. split; [constructor | rewrite E; reflexivity]. }
  assert (Hone : forall s' op, issues c op -> commit (add op s) = Some s' ->
                               exists ops, Forall (issues c) ops
                                           /\ flush ops (db s) = Some (db s')).
  { intros s' op Hop Ec. exists [op]. split; [repeat constructor; exact Hop |].
    apply commit_add_flush; assumption. }
  destruct c; cbn [call].
  - unfold AdminService.book_room.
    case_paths; cbn [snd]; try (apply Hnone; reflexivity).
    eapply Hone; [| eassumption]. reflexivity.
  - unfold AdminService.cancel_room_booking.
    case_paths; cbn [snd]; try (apply Hnone; reflexivity).
    eapply Hone; [| eassumption]. reflexivity.
  - unfold AdminService.create_class.
    case_paths; cbn [snd]; try (apply Hnone; reflexivity).
    match goal with
    | H : commit (add ?op2 (add ?op1 s)) = Some ?s3 |- _ =>
        exists [op1; op2]; split;
        [ constructor; [left; eexists; reflexivity |];
          constructor; [right; eexists; reflexivity | constructor]
        | apply commit_flush in H; cbn [add pending db] in H; rewrite Hp in H; exact H ]
    end.
  - unfold AdminService.cancel_class.
    case_paths; cbn [snd]; try (apply Hnone; reflexivity).
    eapply Hone; [| eassumption]. reflexivity.
  - pose proof (book_session_outcome s now member_id trainer_id scheduled_time
                                     duration_minutes room_id notes) as H.
    cbv zeta in H. destruct H as [[e ->] | [[-> _] | (s2 & Ec & ->)]]; cbn [snd];
      try (apply Hnone; reflexivity).
    eapply Hone; [| eassumption]. reflexivity.
  - unfold MemberService.cancel_pt_session.
    case_paths; cbn [snd]; try (apply Hnone; reflexivity).
    eapply Hone; [| eassumption]. reflexivity.
  - unfold MemberService.reschedule_pt_session.
    destruct (MemberService.find_session s member_id session_id) as [old|];
      [| apply Hnone; reflexivity].
    destruct (negb _); [apply Hnone; reflexivity |].
    match goal with
    | |- context [MemberService.book_personal_training_session ?s1 ?n ?m ?t ?sch ?dur ?r ?nt] =>
        pose proof (book_session_outcome s1 n m t sch dur r nt) as H
    end.
    cbv zeta in H. destruct H as [[e ->] | [[-> _] | (s2 & Ec & ->)]];
      try (apply Hnone; reflexivity).
    rewrite (commit_nil s2 (commit_pending _ _ Ec)). cbn [snd db].
    apply commit_flush in Ec. cbn [add pending db] in Ec. rewrite Hp in Ec.
    cbn [app] in Ec. eexists. split; [| exact Ec].
    constructor; [left; reflexivity |].
    constructor; [| constructor]. right. do 4 eexists. reflexivity.
  - unfold MemberService.register_for_class.
    case_paths; cbn [snd]; try (apply Hnone; reflexivity).
    eapply Hone; [| eassumption]. reflexivity.
  - unfold MemberService.cancel_class_registration.
    case_paths; cbn [snd]; try (apply Hnone; reflexivity).
    eapply Hone; [| eassumption]. reflexivity.
Qed.

(** ** The registration invariant *)

Lemma registered_count_same (d d' : Database) (k : Z) :
  class_registrations d' = class_registrations d ->
  registered_count d' k = registered_count d k.
Proof. unfold registered_count. intros ->. reflexivity. Qed.

Lemma registered_count_snoc (d d' : Database) (x : ClassRegistration.t) (k : Z) :
  class_registrations d' = class_registrations d ++ [x] ->
  registered_count d' k
  = registered_count d k
    + (if (ClassRegistration.class_id x =? k)
          && RegistrationStatus.eqb (ClassRegistration.status x)
                                    RegistrationStatus.REGISTERED
       then 1 else 0).
Proof.
  unfold registered_count. intros ->. rewrite filter_app, length_app. cbn [filter].
  destruct (_ && _); cbn [List.length]; lia.
Qed.

Lemma registered_count_zero (d : Database) (k : Z) :
  (forall r, In r (class_registrations d) -> ClassRegistration.class_id r <> k) ->
  registered_count d k = 0.
Proof.
  unfold registered_count. intros H.
  induction (class_registrations d) as [|r l IH]; [reflexivity |]. cbn [filter].
  destruct (Z.eqb_spec (ClassRegistration.class_id r) k) as [E|E].
  - exfalso. apply (H r (or_introl eq_refl) E).
  - cbn [andb]. apply IH. intros x Hx. apply H. right. assumption.
Qed.

Lemma registered_count_unregister (d d' : Database) (id k : Z) (st : RegistrationStatus.t) :
  st <> RegistrationStatus.REGISTERED ->
  class_registrations d'
  = update_where ClassRegistration.registration_id (ClassRegistration.set_status st) id
                 (class_registrations d) ->
  registered_count d' k <= registered_count d k.
Proof.
  unfold registered_count, update_where. intros Hst ->.
  apply inj_le. induction (class_registrations d) as [|r l IH]; [apply le_n |].
  cbn [map filter].
  destruct (has_id (ClassRegistration.registration_id r) id).
  - cbn [ClassRegistration.set_status ClassRegistration.class_id ClassRegistration.status].
    assert (E : RegistrationStatus.eqb st RegistrationStatus.REGISTERED = false).
    { destruct st; try reflexivity. contradiction. }
    rewrite E, andb_false_r.
    destruct (_ && _); cbn [List.length]; [apply le_S |]; exact IH.
  - destruct (_ && _); cbn [List.length]; [apply le_n_S |]; exact IH.
Qed.

Lemma registration_inv_same (d d' : Database) :
  fitness_classes d' = fitness_classes d ->
  class_registrations d' = class_registrations d ->
  next_class_id d' = next_class_id d ->
  registration_inv d -> registration_inv d'.
Proof.
  intros Hc Hr Hn (H1 & H2 & H3 & H4 & H5).
  unfold registration_inv. rewrite Hc, Hr, Hn.
  repeat split; try assumption.
  intros c k Hin Hk. rewrite (registered_count_same d d' k Hr). apply H5; assumption.
Qed.

Lemma registration_inv_add_class (d : Database) (c : FitnessClass.t) :
  registration_inv d ->
  registration_inv
    (with_fitness_classes
       (fitness_classes d ++ [FitnessClass.inserted (next_class_id d) c])
       (next_class_id d + 1) d).
Proof.
  intros (H1 & H2 & H3 & H4 & H5). unfold registration_inv.
  cbn [class_registrations fitness_classes next_class_id with_fitness_classes].
  split; [exact H1 |]. split; [| split; [| split]].
  - rewrite map_app. cbn [map FitnessClass.inserted FitnessClass.class_id].
    apply NoDup_app; [assumption | constructor; [intros [] | constructor] |].
    intros key Hk [<- | []]. apply in_map_iff in Hk. destruct Hk as (x & Hkx & Hx).
    destruct (H3 x Hx) as (k & Hid & Hlt). rewrite Hid in Hkx.
    injection Hkx as ->. lia.
  - intros x Hx. apply in_app_iff in Hx. destruct Hx as [Hx | [<- | []]].
    + destruct (H3 x Hx) as (k & Hid & Hlt). exists k. split; [assumption | lia].
    + exists (next_class_id d). split; [reflexivity | lia].
  - intros r Hr. specialize (H4 r Hr). lia.
  - intros x k Hx Hk.
    rewrite (registered_count_same d _ k) by reflexivity.
    apply in_app_iff in Hx. destruct Hx as [Hx | [<- | []]].
    + apply H5; assumption.
    + cbn in Hk. injection Hk as <-.
      rewrite registered_count_zero; [lia |].
      intros r Hr. specialize (H4 r Hr). lia.
Qed.

Lemma registration_inv_set_class_status (d : Database) (id : Z) (st : ClassStatus.t) :
  registration_inv d ->
  registration_inv
    (with_fitness_classes
       (update_where FitnessClass.class_id (FitnessClass.set_status st) id
                     (fitness_classes d))
       (next_class_id d) d).
Proof.
  intros (H1 & H2 & H3 & H4 & H5). unfold registration_inv.
  cbn [class_registrations fitness_classes next_class_id with_fitness_classes].
  assert (Hin : forall x, In x (update_where FitnessClass.class_id
                                             (FitnessClass.set_status st) id
                                             (fitness_classes d)) ->
                          exists x0, In x0 (fitness_classes d)
                                     /\ FitnessClass.class_id x = FitnessClass.class_id x0
                                     /\ FitnessClass.capacity x = FitnessClass.capacity x0).
  { intros x Hx. unfold update_where in Hx. apply in_map_iff in Hx.
    destruct Hx as (x0 & <- & Hx0). exists x0. split; [assumption |].
    destruct (has_id _ _); split; reflexivity. }
  split; [exact H1 |]. split; [| split; [| split]].
  - rewrite update_where_keys; [assumption | reflexivity].
  - intros x Hx. destruct (Hin x Hx) as (x0 & Hx0 & Hid & _). rewrite Hid.
    apply H3. assumption.
  - exact H4.
  - intros x k Hx Hk. destruct (Hin x Hx) as (x0 & Hx0 & Hid & Hcap).
    rewrite (registered_count_same d _ k) by reflexivity.
    rewrite Hcap. apply H5; [assumption | congruence].
Qed.

Lemma registration_inv_unregister (d : Database) (id : Z) (st : RegistrationStatus.t) :
  st <> RegistrationStatus.REGISTERED ->
  registration_inv d ->
  registration_inv
    (with_class_registrations
       (update_where ClassRegistration.registration_id (ClassRegistration.set_status st) id
                     (class_registrations d))
       (next_registration_id d) d).
Proof.
  intros Hst (H1 & H2 & H3 & H4 & H5). unfold registration_inv.
  cbn [class_registrations fitness_classes next_class_id with_class_registrations].
  assert (Hmap : forall (B : Type) (f : ClassRegistration.t -> B),
             (forall r, f (ClassRegistration.set_status st r) = f r) ->
             map f (update_where ClassRegistration.registration_id
                                 (ClassRegistration.set_status st) id
                                 (class_registrations d))
             = map f (class_registrations d)).
  { intros B f Hf. unfold update_where. rewrite map_map. apply map_ext.
    intros r. destruct (has_id _ _); auto. }
  split; [| split; [| split; [| split]]].
  - rewrite Hmap; [assumption | reflexivity].
  - assumption.
  - assumption.
  - intros r Hr. unfold update_where in Hr. apply in_map_iff in Hr.
    destruct Hr as (r0 & <- & Hr0). specialize (H4 r0 Hr0).
    destruct (has_id _ _); exact H4.
  - intros c k Hc Hk.
    eapply Z.le_trans; [| apply (H5 c k Hc Hk)].
    eapply registered_count_unregister; [exact Hst | reflexivity].
Qed.

Lemma registration_inv_keeps (d d' : Database) (op : PendingOp) :
  keeps_registrations op -> registration_inv d -> apply_op d op = Some d' ->
  registration_inv d'.
Proof.
  intros Hop Hinv. destruct op; cbn [apply_op keeps_registrations] in *;
    try contradiction;
    try (destruct (_ && _); [| discriminate]);
    intros [= <-].
  - apply (registration_inv_same d); try reflexivity; assumption.
  - apply registration_inv_add_class. assumption.
  - apply (registration_inv_same d); try reflexivity; assumption.
  - apply (registration_inv_same d); try reflexivity; assumption.
  - apply registration_inv_set_class_status. assumption.
  - apply registration_inv_unregister; assumption.
  - apply (registration_inv_same d); try reflexivity; assumption.
Qed.

Lemma registration_inv_flush (ops : list PendingOp) (d d' : Database) :
  Forall keeps_registrations ops -> registration_inv d -> flush ops d = Some d' ->
  registration_inv d'.
Proof.
  intros Hops. revert d. induction Hops as [|op ops Hop _ IH]; intros d Hinv; cbn.
  - intros [= <-]. assumption.
  - destruct (apply_op d op) as [d1|] eqn:E; [| discriminate].
    apply IH. exact (registration_inv_keeps _ _ _ Hop Hinv E).
Qed.

(** The class a key denotes is unique. *)
Lemma class_of_key (d : Database) (c c' : FitnessClass.t) (k : Z) :
  NoDup (map FitnessClass.class_id (fitness_classes d)) ->
  In c (fitness_classes d) -> In c' (fitness_classes d) ->
  FitnessClass.class_id c = Some k -> FitnessClass.class_id c' = Some k ->
  c = c'.
Proof.
  induction (fitness_classes d) as [|x l IH]; cbn; [contradiction |].
  intros Hnd. apply NoDup_cons_iff in Hnd. destruct Hnd as [Hx Hnd].
  intros [-> | Hc] [-> | Hc'] Hk Hk'; auto.
  - exfalso. apply Hx. rewrite Hk, <- Hk'. apply in_map. assumption.
  - exfalso. apply Hx. rewrite Hk', <- Hk. apply in_map. assumption.
Qed.

Lemma registration_inv_register (s : Session) now member_id class_id :
  pending s = [] -> registration_inv (db s) ->
  registration_inv (db (snd (MemberService.register_for_class s now member_id class_id))).
Proof.
  intros Hp Hinv.
  destruct (success (fst (MemberService.register_for_class s now member_id class_id)))
    eqn:Es.
  2:{ pose proof (call_flush s (RegisterForClass now member_id class_id) Hp) as H.
      cbn [call] in H. destruct H as (ops & Hops & Hf).
      (* a failed call flushes nothing *)
      revert Es Hf. unfold MemberService.register_for_class.
      case_paths; cbn [fst snd success rollback add db]; intros; try discriminate;
        assumption. }
  destruct (register_for_class_success s now member_id class_id Hp Es)
    as ((c & (Hm & Hc & Hst & Hfut) & Hnew & Hcap & _) & E).
  rewrite E. cbn [snd db].
  destruct Hinv as (H1 & H2 & H3 & H4 & H5). unfold registration_inv.
  cbn [class_registrations fitness_classes next_class_id with_class_registrations].
  apply find_some in Hc. destruct Hc as [Hcin Hcid]. apply has_id_true in Hcid.
  split; [| split; [| split; [| split]]]; try assumption.
  - rewrite map_app. cbn [map ClassRegistration.member_id ClassRegistration.class_id].
    apply NoDup_app; [assumption | constructor; [intros [] | constructor] |].
    intros pr Hpr [<- | []]. apply in_map_iff in Hpr.
    destruct Hpr as (r & [= Hrm Hrc] & Hr). apply (Hnew r Hr). tauto.
  - intros r Hr. apply in_app_iff in Hr. destruct Hr as [Hr | [<- | []]].
    + apply H4. assumption.
    + cbn. destruct (H3 c Hcin) as (k & Hk & Hlt). congruence.
  - intros c' k Hc' Hk.
    erewrite registered_count_snoc by reflexivity.
    cbn [ClassRegistration.class_id ClassRegistration.status RegistrationStatus.eqb].
    destruct (Z.eqb_spec class_id k) as [<- | Hne]; cbn [andb].
    + assert (c = c') by (eapply class_of_key; eassumption). subst c'. lia.
    + specialize (H5 c' k Hc' Hk). lia.
Qed.

Lemma issues_keeps_registrations (c : Call) (op : PendingOp) :
  (forall now m k, c <> RegisterForClass now m k) ->
  issues c op -> keeps_registrations op.
Proof.
  intros Hc. destruct c; cbn [issues].
  - intros ->. exact I.
  - intros ->. exact I.
  - intros [[fc ->] | [rb ->]]; exact I.
  - intros ->. exact I.
  - intros ->. exact I.
  - intros ->. exact I.
  - intros [-> | (tr & dur & r & n & ->)]; exact I.
  - exfalso. eapply Hc. reflexivity.
  - intros ->. cbn. discriminate.
Qed.

Lemma call_registration_inv (s : Session) (c : Call) :
  pending s = [] -> registration_inv (db s) -> registration_inv (db (snd (call s c))).
Proof.
  intros Hp Hinv.
  assert (Hother : (forall now m k, c <> RegisterForClass now m k) ->
                   registration_inv (db (snd (call s c)))).
  { intros Hc. destruct (call_flush s c Hp) as (ops & Hops & Hf).
    refine (registration_inv_flush ops _ _ _ Hinv Hf).
    eapply Forall_impl; [| exact Hops].
    intros op. apply issues_keeps_registrations. exact Hc. }
  destruct c; try (apply Hother; discriminate).
  cbn [call]. apply registration_inv_register; assumption.
Qed.

Lemma run_registration_inv (cs : list Call) (s : Session) :
  pending s = [] -> registration_inv (db s) -> registration_inv (db (run s cs)).
Proof.
  revert s. induction cs as [|c cs IH]; intros s Hp Hinv; cbn [run]; [assumption |].
  apply IH; [apply call_pending | apply call_registration_inv]; assumption.
Qed.

Lemma NoDup_map_eq {A B} (f : A -> B) (l : list A) (x y : A) :
  NoDup (map f l) -> In x l -> In y l -> f x = f y -> x = y.
Proof.
  induction l as [|a l IH]; cbn; [contradiction |].
  intros Hnd. apply NoDup_cons_iff in Hnd. destruct Hnd as [Ha Hnd].
  intros [-> | Hx] [-> | Hy] E; auto.
  - exfalso. apply Ha. rewrite E. apply in_map. assumption.
  - exfalso. apply Ha. rewrite <- E. apply in_map. assumption.
Qed.

(** X7. Registration never overbooks a class.  Whatever the tables
    hold, a register_for_class that succeeds leaves its class with at most
    capacity-many REGISTERED registrations, and the counts of the other
    classes as they were.  And from tables that satisfy
    [registration_inv] (empty ones, for one), after any sequence of the
    calls of [Call] (book_room, cancel_room_booking, create_class,
    cancel_class, the three session calls, register_for_class and
    cancel_class_registration) the number of REGISTERED registrations of
    every class is at most its capacity (and zero when the capacity is not
    positive).  AdminService.update_class is not among these calls: it
    compares a new capacity with the room only, not with the
    registrations, and the second part is not claimed once it has been
    used. *)
Theorem class_capacity_never_exceeded :
  (forall (s : Session) now member_id class_id,
      pending s = [] ->
      success (fst (MemberService.register_for_class s now member_id class_id)) = true ->
      let s' := snd (MemberService.register_for_class s now member_id class_id) in
      exists c,
        AdminService.get_class_by_id s class_id = Some c
        /\ AdminService.get_class_by_id s' class_id = Some c
        /\ registered_count (db s') class_id = registered_count (db s) class_id + 1
        /\ registered_count (db s') class_id <= FitnessClass.capacity c
        /\ forall k, k <> class_id ->
                     registered_count (db s') k = registered_count (db s) k)
  /\ (forall (s0 : Session) (calls : list Call),
         pending s0 = [] -> registration_inv (db s0) ->
         forall c k,
           In c (fitness_classes (db (run s0 calls))) ->
           FitnessClass.class_id c = Some k ->
           registered_count (db (run s0 calls)) k <= Z.max 0 (FitnessClass.capacity c)).
Proof.
  split.
  - intros s now member_id class_id Hp Hok s'.
    destruct (register_for_class_success s now member_id class_id Hp Hok)
      as [(c & (_ & Hfind & _ & _) & _ & Hroom & _) E].
    assert (Es' : s' = snd (MemberService.register_for_class s now member_id class_id))
      by reflexivity.
    rewrite E in Es'. cbn [snd] in Es'.
    assert (Hcount : forall k,
               registered_count (db s') k
               = registered_count (db s) k + (if class_id =? k then 1 else 0)).
    { intros k.
      rewrite (registered_count_snoc
                 (db s) (db s')
                 (ClassRegistration.mk (Some (next_registration_id (db s))) member_id
                                       class_id RegistrationStatus.REGISTERED) k)
        by (rewrite Es'; reflexivity).
      cbn [ClassRegistration.class_id ClassRegistration.status RegistrationStatus.eqb].
      rewrite andb_true_r. reflexivity. }
    exists c. split; [exact Hfind |].
    split; [rewrite Es'; exact Hfind |].
    split; [rewrite Hcount, Z.eqb_refl; reflexivity |].
    split; [rewrite Hcount, Z.eqb_refl; lia |].
    intros k Hk. rewrite Hcount.
    destruct (Z.eqb_spec class_id k); [congruence | lia].
  - intros s0 calls Hp Hinv. apply (run_registration_inv calls s0 Hp Hinv).
Qed.

Lemma registration_inv_club : registration_inv (db club_session).
Proof.
  unfold registration_inv. cbn.
  split; [constructor |]. split; [constructor |].
  split; [intros c [] |]. split; [intros r [] | intros c k []].
Qed.

(** A class of capacity 1 and two members who ask for it: the first
    registration fills the class, the second is refused. *)
Lemma class_capacity_never_exceeded_witness :
  let s1 := run club_session
                [CreateClass may_1_noon "Yoga" 1 1 (datetime_combine june_1 (hm 9 0)) 60
                             (Some 1) None] in
  let s := run club_session
               [CreateClass may_1_noon "Yoga" 1 1 (datetime_combine june_1 (hm 9 0)) 60
                            (Some 1) None;
                RegisterForClass may_1_noon 1 1;
                RegisterForClass may_1_noon 2 1] in
  (exists c,
      AdminService.get_class_by_id s1 1 = Some c
      /\ registered_count
           (db (snd (MemberService.register_for_class s1 may_1_noon 1 1))) 1
         <= FitnessClass.capacity c)
  /\ registered_count (db s) 1 <= Z.max 0 1.
Proof.
  intros s1 s. split.
  - destruct (proj1 class_capacity_never_exceeded s1 may_1_noon 1 1 eq_refl eq_refl)
      as (c & Hc & _ & _ & Hle & _).
    exists c. split; [exact Hc | exact Hle].
  - apply (proj2 class_capacity_never_exceeded
             club_session
             [CreateClass may_1_noon "Yoga" 1 1 (datetime_combine june_1 (hm 9 0)) 60
                          (Some 1) None;
              RegisterForClass may_1_noon 1 1;
              RegisterForClass may_1_noon 2 1]
             eq_refl registration_inv_club
             (FitnessClass.mk (Some 1) "Yoga" None 1 1 (datetime_combine june_1 (hm 9 0))
                              60 1 ClassStatus.SCHEDULED) 1).
    + left. reflexivity.
    + reflexivity.
Defined.

(** X8. One registration row per member and class.  From tables that
    satisfy [registration_inv], after any sequence of service calls two
    rows of class_registrations with the same member and the same class
    are the same row: a member never holds two registrations of one
    class, cancelled or not. *)
Theorem one_registration_per_member_and_class (s0 : Session) (calls : list Call) :
  pending s0 = [] -> registration_inv (db s0) ->
  forall r1 r2,
    In r1 (class_registrations (db (run s0 calls))) ->
    In r2 (class_registrations (db (run s0 calls))) ->
    ClassRegistration.member_id r1 = ClassRegistration.member_id r2 ->
    ClassRegistration.class_id r1 = ClassRegistration.class_id r2 ->
    r1 = r2.
Proof.
  intros Hp Hinv r1 r2 H1 H2 Hm Hc.
  destruct (run_registration_inv calls s0 Hp Hinv) as (Hnd & _).
  apply (NoDup_map_eq _ _ r1 r2 Hnd H1 H2). congruence.
Qed.

(** After register, cancel and register again, the cancelled row of
    member 1 is still the only one. *)
Lemma one_registration_per_member_and_class_witness :
  let s := run club_session
               [CreateClass may_1_noon "Yoga" 1 1 (datetime_combine june_1 (hm 9 0)) 60
                            (Some 10) None;
                RegisterForClass may_1_noon 1 1;
                CancelRegistration may_1_noon 1 1;
                RegisterForClass may_1_noon 1 1] in
  class_registrations (db s)
  = [ClassRegistration.mk (Some 1) 1 1 RegistrationStatus.CANCELLED]
  /\ ClassRegistration.mk (Some 1) 1 1 RegistrationStatus.CANCELLED
     = ClassRegistration.mk (Some 1) 1 1 RegistrationStatus.CANCELLED.
Proof.
  intros s. split; [reflexivity |].
  apply (one_registration_per_member_and_class
           club_session
           [CreateClass may_1_noon "Yoga" 1 1 (datetime_combine june_1 (hm 9 0)) 60
                        (Some 10) None;
            RegisterForClass may_1_noon 1 1;
            CancelRegistration may_1_noon 1 1;
            RegisterForClass may_1_noon 1 1]
           eq_refl registration_inv_club);
    first [left; reflexivity | reflexivity].
Defined.

(** ** Personal training sessions: booking, cancelling, rescheduling *)

Lemma session_room_query_none (s : Session) (r : Z) (scheduled_time : datetime)
      (duration_minutes : Z) :
  find (fun b =>
          (RoomBooking.room_id b =? r)
          && (RoomBooking.booking_date b =? dt_date scheduled_time)
          && match RoomBooking.status b with
             | Some st => BookingStatus.eqb st BookingStatus.CONFIRMED
             | None => false
             end
          && (RoomBooking.start_time b
              <? dt_time (scheduled_time + timedelta_minutes duration_minutes))
          && (RoomBooking.end_time b >? dt_time scheduled_time))
       (room_bookings (db s)) = None
  <-> forall b, In b (room_bookings (db s)) ->
                ~ (RoomBooking.room_id b = r
                   /\ RoomBooking.booking_date b = dt_date scheduled_time
                   /\ RoomBooking.status b = Some BookingStatus.CONFIRMED
                   /\ RoomBooking.start_time b
                      < dt_time (scheduled_time + timedelta_minutes duration_minutes)
                   /\ dt_time scheduled_time < RoomBooking.end_time b).
Proof.
  rewrite find_none_iff.
  assert (Hst : forall b, match RoomBooking.status b with
                          | Some st => BookingStatus.eqb st BookingStatus.CONFIRMED
                          | None => false
                          end = true
                          <-> RoomBooking.status b = Some BookingStatus.CONFIRMED).
  { intros b. destruct (RoomBooking.status b) as [st|]; [| split; discriminate].
    rewrite BookingStatus_eqb_eq. split; congruence. }
  split; intros H b Hb.
  - intros (H1 & H2 & H3 & H4 & H5). specialize (H b Hb). cbn beta in H.
    apply Hst in H3. apply Z.eqb_eq in H1, H2. apply Z.ltb_lt in H4.
    rewrite Z.gtb_ltb in H. apply Z.ltb_lt in H5.
    rewrite H1, H2, H3, H4, H5 in H. discriminate.
  - destruct (_ && _) eqn:E; [| reflexivity]. exfalso. apply (H b Hb).
    rewrite !andb_true_iff, !Z.eqb_eq, Hst, Z.ltb_lt, Z.gtb_ltb, Z.ltb_lt in E. tauto.
Qed.

Lemma fits_integer_true (n : Z) :
  fits_integer n = true <-> -2147483648 <= n <= 2147483647.
Proof. unfold fits_integer. rewrite andb_true_iff, !Z.leb_le. tauto. Qed.

Lemma book_session_success (s : Session) now member_id trainer_id scheduled_time
      duration_minutes room_id notes :
  pending s = [] ->
  success (fst (MemberService.book_personal_training_session
                  s now member_id trainer_id scheduled_time duration_minutes
                  room_id notes)) = true ->
  (bookable_session s now member_id trainer_id scheduled_time duration_minutes
   /\ no_session_starts_in s member_id trainer_id scheduled_time duration_minutes
   /\ session_room_ok s room_id scheduled_time duration_minutes
   /\ -2147483648 <= duration_minutes <= 2147483647)
  /\ MemberService.book_personal_training_session
       s now member_id trainer_id scheduled_time duration_minutes room_id notes
     = (Success (SessionData
                   (PersonalTrainingSession.mk (Some (next_session_id (db s))) member_id
                                               trainer_id room_id scheduled_time
                                               duration_minutes notes
                                               SessionStatus.SCHEDULED)),
        mkSession
          (with_sessions
             (personal_training_sessions (db s)
                ++ [PersonalTrainingSession.mk (Some (next_session_id (db s))) member_id
                                               trainer_id room_id scheduled_time
                                               duration_minutes notes
                                               SessionStatus.SCHEDULED])
             (next_session_id (db s) + 1) (db s))
          []).
Proof.
  intros Hp. unfold MemberService.book_personal_training_session.
  destruct (mem_id member_id (members (db s))) eqn:Em; cbn [negb]; [| discriminate].
  destruct (mem_id trainer_id (trainers (db s))) eqn:Et; cbn [negb]; [| discriminate].
  destruct (Z.leb_spec scheduled_time now) as [|Hfut]; [discriminate |].
  cbv zeta.
  destruct (find _ (trainer_availability (db s))) as [a|] eqn:Ea; [| discriminate].
  destruct (find _ (personal_training_sessions (db s))) eqn:Etc; [discriminate |].
  match goal with
  | |- context [find ?f (personal_training_sessions (db s))] =>
      destruct (find f (personal_training_sessions (db s))) eqn:Emc; [discriminate |]
  end.
  destruct (match room_id with Some _ => _ | None => _ end) eqn:Erc; [discriminate |].
  rewrite (commit_add_eq _ _ Hp). cbn [apply_op].
  cbn [PersonalTrainingSession.member_id PersonalTrainingSession.trainer_id
       PersonalTrainingSession.room_id PersonalTrainingSession.duration_minutes].
  rewrite Em, Et. cbn [andb].
  destruct (match room_id with Some r => room_exists r (db s) | None => true end) eqn:Efk;
    cbn [andb fst success]; [| discriminate].
  destruct (fits_integer duration_minutes) eqn:Efit; cbn [fst success]; [| discriminate].
  apply fits_integer_true in Efit.
  intros _. split; [| reflexivity]. split; [| split; [| split; [| exact Efit]]].
  - apply find_some in Ea. destruct Ea as [Ha Hc]. apply availability_filter_true in Hc.
    repeat split; try (apply mem_id_In; assumption); try assumption.
    exists a. split; assumption.
  - intros p Hp' [Hid | Hid] Hin; apply starts_within_true in Hin.
    + pose proof (find_none _ _ Etc p Hp') as H. cbn beta in H.
      rewrite Hid, Z.eqb_refl, Hin in H. discriminate.
    + pose proof (find_none _ _ Emc p Hp') as H. cbn beta in H.
      rewrite Hid, Z.eqb_refl, Hin in H. discriminate.
  - unfold session_room_ok. destruct room_id as [r|]; [| exact I].
    split; [exact Efk |].
    destruct (Z.eqb_spec r 0); [left; assumption | right].
    apply session_room_query_none. exact Erc.
Qed.

Lemma book_session_accepts (s : Session) now member_id trainer_id scheduled_time
      duration_minutes room_id notes :
  pending s = [] ->
  bookable_session s now member_id trainer_id scheduled_time duration_minutes ->
  no_session_starts_in s member_id trainer_id scheduled_time duration_minutes ->
  session_room_ok s room_id scheduled_time duration_minutes ->
  -2147483648 <= duration_minutes <= 2147483647 ->
  success (fst (MemberService.book_personal_training_session
                  s now member_id trainer_id scheduled_time duration_minutes
                  room_id notes)) = true.
Proof.
  intros Hp (Hm & Ht & Hfut & a & Ha & Hc) Hfree Hroom Hfit.
  apply fits_integer_true in Hfit.
  unfold MemberService.book_personal_training_session.
  apply mem_id_In in Hm, Ht. rewrite Hm, Ht. cbn [negb].
  destruct (Z.leb_spec scheduled_time now); [lia |]. cbv zeta.
  destruct (find _ (trainer_availability (db s))) eqn:Ea.
  2:{ pose proof (find_none _ _ Ea a Ha) as Hnone. cbn beta in Hnone.
      apply availability_filter_true in Hc. congruence. }
  assert (Etc : find (fun p =>
                        (PersonalTrainingSession.trainer_id p =? trainer_id)
                        && MemberService.starts_within
                             scheduled_time
                             (scheduled_time + timedelta_minutes duration_minutes) p)
                     (personal_training_sessions (db s)) = None).
  { apply find_none_iff. intros p Hp'. destruct (_ && _) eqn:E; [| reflexivity].
    rewrite andb_true_iff, Z.eqb_eq, starts_within_true in E.
    destruct (Hfree p Hp' (or_introl (proj1 E)) (proj2 E)). }
  assert (Emc : find (fun p =>
                        (PersonalTrainingSession.member_id p =? member_id)
                        && MemberService.starts_within
                             scheduled_time
                             (scheduled_time + timedelta_minutes duration_minutes) p)
                     (personal_training_sessions (db s)) = None).
  { apply find_none_iff. intros p Hp'. destruct (_ && _) eqn:E; [| reflexivity].
    rewrite andb_true_iff, Z.eqb_eq, starts_within_true in E.
    destruct (Hfree p Hp' (or_intror (proj1 E)) (proj2 E)). }
  rewrite Etc, Emc.
  assert (Erc : match room_id with
                | Some r =>
                    if r =? 0 then None
                    else
                      find (fun b =>
                              (RoomBooking.room_id b =? r)
                              && (RoomBooking.booking_date b =? dt_date scheduled_time)
                              && match RoomBooking.status b with
                                 | Some st => BookingStatus.eqb st BookingStatus.CONFIRMED
                                 | None => false
                                 end
                              && (RoomBooking.start_time b
                                  <? dt_time (scheduled_time
                                              + timedelta_minutes duration_minutes))
                              && (RoomBooking.end_time b >? dt_time scheduled_time))
                           (room_bookings (db s))
                | None => None
                end = None).
  { destruct room_id as [r|]; [| reflexivity]. destruct Hroom as [_ [-> | Hno]].
    - reflexivity.
    - destruct (r =? 0); [reflexivity |]. apply session_room_query_none. exact Hno. }
  rewrite Erc. rewrite (commit_add_eq _ _ Hp). cbn [apply_op].
  cbn [PersonalTrainingSession.member_id PersonalTrainingSession.trainer_id
       PersonalTrainingSession.room_id PersonalTrainingSession.duration_minutes].
  rewrite Hm, Ht. cbn [andb].
  assert (Efk : match room_id with Some r => room_exists r (db s) | None => true end
                = true).
  { destruct room_id as [r|]; [apply Hroom | reflexivity]. }
  rewrite Efk, Hfit. reflexivity.
Qed.



(** X10. A session cannot be moved onto its own start.  While the
    re-booking runs, the old session is still SCHEDULED in the database
    (its cancellation is pending, and the queries do not flush), so it
    counts as a conflict of its own trainer.  Hence rescheduling a
    scheduled session to a time whose window contains the old start time
    (the same time, for one, or up to one duration earlier) never
    succeeds and changes nothing; when the earlier checks of the booking
    pass, the failure is 'Trainer has a conflicting session at this
    time'. *)
Theorem reschedule_onto_own_start_fails (s : Session) now member_id session_id new_time
        (old : PersonalTrainingSession.t) :
  pending s = [] ->
  MemberService.find_session s member_id session_id = Some old ->
  PersonalTrainingSession.status old = SessionStatus.SCHEDULED ->
  new_time <= PersonalTrainingSession.scheduled_time old
  < new_time + timedelta_minutes (PersonalTrainingSession.duration_minutes old) ->
  let out := MemberService.reschedule_pt_session s now member_id session_id new_time in
  success (fst out) = false
  /\ snd out = s
  /\ (bookable_session s now member_id (PersonalTrainingSession.trainer_id old) new_time
                       (PersonalTrainingSession.duration_minutes old) ->
      fst out = Failure TrainerConflict).
Proof.
  intros Hp Hfind Hst Hwin out.
  assert (Hbusy : exists p, In p (personal_training_sessions (db s))
                            /\ PersonalTrainingSession.trainer_id p
                               = PersonalTrainingSession.trainer_id old
                            /\ starts_in new_time
                                 (new_time + timedelta_minutes
                                               (PersonalTrainingSession.duration_minutes old))
                                 p).
  { exists old. split; [| split; [reflexivity | split; assumption]].
    unfold MemberService.find_session in Hfind. apply (find_some _ _ Hfind). }
  pose proof (book_session_result
                (add (SetSessionStatus session_id SessionStatus.CANCELLED) s)
                now member_id (PersonalTrainingSession.trainer_id old) new_time
                (PersonalTrainingSession.duration_minutes old)
                (PersonalTrainingSession.room_id old)
                (PersonalTrainingSession.notes old)) as Hres.
  cbv zeta in Hres. cbn [add db] in Hres.
  assert (Hfail : success (fst out) = false
                  /\ (bookable_session
                        s now member_id (PersonalTrainingSession.trainer_id old) new_time
                        (PersonalTrainingSession.duration_minutes old) ->
                      fst out = Failure TrainerConflict)).
  { subst out. unfold MemberService.reschedule_pt_session. rewrite Hfind.
    apply SessionStatus_eqb_eq in Hst. rewrite Hst. cbn [negb].
    destruct (MemberService.book_personal_training_session _ _ _ _ _ _ _ _)
      as [r s2] eqn:Eb.
    cbn [fst] in Hres.
    destruct Hres as [(? & E) | [(? & ? & E) | [(? & ? & ? & E) | [(? & ? & ? & Hnr & E)
                     | [(? & ? & E) | [(? & Hn & _) | (? & Hn & _)]]]]]];
      try (exfalso; apply Hn; exact Hbusy);
      rewrite E; cbn [fst success]; (split; [reflexivity |]);
      try reflexivity;
      intros (Hm & Ht & Hfut & Hslot); exfalso;
      first [ tauto | lia | apply Hnr; repeat split; assumption ]. }
  destruct Hfail as [Hf Hconf]. split; [exact Hf |]. split; [| exact Hconf].
  apply reschedule_failure_state; assumption.
Qed.

(** Moving session 1 (Monday 10:00) to the time it already has. *)
Lemma reschedule_onto_own_start_fails_witness :
  let s := run club_session
               [BookSession may_1_noon 1 1 (datetime_combine june_2 (hm 10 0)) 60
                            None None] in
  let out := MemberService.reschedule_pt_session
               s may_1_noon 1 1 (datetime_combine june_2 (hm 10 0)) in
  success (fst out) = false /\ snd out = s /\ fst out = Failure TrainerConflict.
Proof.
  intros s out.
  destruct (reschedule_onto_own_start_fails
              s may_1_noon 1 1 (datetime_combine june_2 (hm 10 0))
              (PersonalTrainingSession.mk (Some 1) 1 1 None
                 (datetime_combine june_2 (hm 10 0)) 60 None SessionStatus.SCHEDULED)
              eq_refl eq_refl eq_refl ltac:(vm_compute; split; congruence))
    as (H1 & H2 & H3).
  split; [exact H1 |]. split; [exact H2 |]. apply H3.
  split; [left; reflexivity |]. split; [left; reflexivity |].
  split; [vm_compute; reflexivity |].
  exists (TrainerAvailability.mk (Some 1) 1 DayOfWeek.MONDAY (hm 9 0) (hm 12 0)).
  split; [left; reflexivity |]. repeat split; vm_compute; congruence.
Defined.

(** X11. A successful reschedule is one commit that cancels and rebooks.
    When reschedule_pt_session succeeds, the old session was found for the
    member and was SCHEDULED; afterwards the rows with its key are
    CANCELLED and one SCHEDULED session is appended with the next key, the
    new time and the old trainer, duration, room and notes; the other
    tables are unchanged. *)
Theorem reschedule_success_moves_session (s : Session) now member_id session_id new_time :
  pending s = [] ->
  success (fst (MemberService.reschedule_pt_session
                  s now member_id session_id new_time)) = true ->
  exists old,
    MemberService.find_session s member_id session_id = Some old
    /\ PersonalTrainingSession.status old = SessionStatus.SCHEDULED
    /\ snd (MemberService.reschedule_pt_session s now member_id session_id new_time)
       = mkSession
           (with_sessions
              (update_where PersonalTrainingSession.session_id
                            (PersonalTrainingSession.set_status SessionStatus.CANCELLED)
                            session_id (personal_training_sessions (db s))
                 ++ [PersonalTrainingSession.mk
                       (Some (next_session_id (db s))) member_id
                       (PersonalTrainingSession.trainer_id old)
                       (PersonalTrainingSession.room_id old) new_time
                       (PersonalTrainingSession.duration_minutes old)
                       (PersonalTrainingSession.notes old) SessionStatus.SCHEDULED])
              (next_session_id (db s) + 1) (db s))
           [].
Proof.
  intros Hp. unfold MemberService.reschedule_pt_session.
  destruct (MemberService.find_session s member_id session_id) as [old|];
    [| discriminate].
  destruct (SessionStatus.eqb (PersonalTrainingSession.status old) SessionStatus.SCHEDULED)
    eqn:Est; cbn [negb]; [| discriminate].
  match goal with
  | |- context [MemberService.book_personal_training_session ?s1 ?n ?m ?t ?sch ?dur ?r ?nt] =>
      pose proof (book_session_outcome s1 n m t sch dur r nt) as H
  end.
  cbv zeta in H. destruct H as [[e He] | [[He _] | (s2 & Ec & He)]]; rewrite He;
    try discriminate.
  rewrite (commit_nil s2 (commit_pending _ _ Ec)). cbn [fst snd]. intros _.
  exists old. split; [reflexivity |].
  split; [apply SessionStatus_eqb_eq; assumption |].
  apply commit_flush in Ec. cbn [add pending db] in Ec. rewrite Hp in Ec.
  cbn [app flush apply_op] in Ec.
  cbn [PersonalTrainingSession.member_id PersonalTrainingSession.trainer_id
       PersonalTrainingSession.room_id] in Ec.
  destruct (_ && _) in Ec; [| discriminate].
  injection Ec as <-. reflexivity.
Qed.

(** Session 1 of member 1 moves from Monday 10:00 to Monday 11:00. *)
Lemma reschedule_success_moves_session_witness :
  let s := run club_session
               [BookSession may_1_noon 1 1 (datetime_combine june_2 (hm 10 0)) 60
                            None None] in
  personal_training_sessions
    (db (snd (MemberService.reschedule_pt_session
                s may_1_noon 1 1 (datetime_combine june_2 (hm 11 0)))))
  = [PersonalTrainingSession.mk (Some 1) 1 1 None (datetime_combine june_2 (hm 10 0)) 60
                                None SessionStatus.CANCELLED;
     PersonalTrainingSession.mk (Some 2) 1 1 None (datetime_combine june_2 (hm 11 0)) 60
                                None SessionStatus.SCHEDULED].
Proof.
  intros s.
  destruct (reschedule_success_moves_session
              s may_1_noon 1 1 (datetime_combine june_2 (hm 11 0)) eq_refl
              ltac:(vm_compute; reflexivity)) as (old & Hfind & _ & E).
  rewrite E. injection Hfind as <-. reflexivity.
Defined.

Lemma update_where_no_match {A} (key : A -> option Z) (upd : A -> A) (id : Z) (l : list A) :
  (forall r, In r l -> has_id (key r) id = false) ->
  update_where key upd id l = l.
Proof.
  intros H. unfold update_where. rewrite <- (map_id l) at 2. apply map_ext_in.
  intros r Hr. rewrite (H r Hr). reflexivity.
Qed.

Lemma well_keyed_no_next (d : Database) :
  sessions_well_keyed d ->
  forall p, In p (personal_training_sessions d) ->
            has_id (PersonalTrainingSession.session_id p) (next_session_id d) = false.
Proof.
  intros Hk p Hp. destruct (Hk p Hp) as (id & -> & Hlt). cbn.
  apply Z.eqb_neq. lia.
Qed.

(** X12. Cancelling a session frees its slot.  Unlike a class
    registration, a cancelled personal training session does not block a
    new one: after a booking succeeded, the member can cancel it while it
    is in the future, and the very same booking (same member, trainer,
    time, duration and room) then succeeds again, as long as it is still
    in the future. *)
Theorem cancelled_session_frees_its_slot (s : Session) now now' now'' member_id trainer_id
        scheduled_time duration_minutes room_id notes :
  pending s = [] ->
  sessions_well_keyed (db s) ->
  success (fst (MemberService.book_personal_training_session
                  s now member_id trainer_id scheduled_time duration_minutes
                  room_id notes)) = true ->
  now' < scheduled_time -> now'' < scheduled_time ->
  let s1 := snd (MemberService.book_personal_training_session
                   s now member_id trainer_id scheduled_time duration_minutes
                   room_id notes) in
  let cancelled := MemberService.cancel_pt_session s1 now' member_id
                                                   (next_session_id (db s)) in
  fst cancelled = Success (Message "Session cancelled successfully")
  /\ success (fst (MemberService.book_personal_training_session
                     (snd cancelled) now'' member_id trainer_id scheduled_time
                     duration_minutes room_id notes)) = true.
Proof.
  intros Hp Hk Hok Hnow' Hnow'' s1 cancelled.
  destruct (book_session_success _ _ _ _ _ _ _ _ Hp Hok)
    as (((Hm & Ht & Hfut & Hslot) & Hfree & Hroom & Hfit) & E).
  set (p1 := PersonalTrainingSession.mk (Some (next_session_id (db s))) member_id
               trainer_id room_id scheduled_time duration_minutes notes
               SessionStatus.SCHEDULED) in *.
  assert (Es1 : s1 = mkSession
                       (with_sessions (personal_training_sessions (db s) ++ [p1])
                                      (next_session_id (db s) + 1) (db s)) []).
  { subst s1. rewrite E. reflexivity. }
  assert (Hold : forall p, In p (personal_training_sessions (db s)) ->
                           has_id (PersonalTrainingSession.session_id p)
                                  (next_session_id (db s))
                           && (PersonalTrainingSession.member_id p =? member_id) = false).
  { intros p Hp'. rewrite (well_keyed_no_next _ Hk p Hp'). reflexivity. }
  assert (Ec : cancelled
               = (Success (Message "Session cancelled successfully"),
                  mkSession
                    (with_sessions
                       (personal_training_sessions (db s)
                          ++ [PersonalTrainingSession.set_status SessionStatus.CANCELLED p1])
                       (next_session_id (db s) + 1) (db s)) [])).
  { subst cancelled. rewrite Es1.
    unfold MemberService.cancel_pt_session, MemberService.find_session.
    cbn [db personal_training_sessions with_sessions].
    rewrite find_snoc. rewrite (proj2 (find_none_iff _ _) Hold).
    unfold p1.
    cbn [PersonalTrainingSession.session_id PersonalTrainingSession.member_id has_id].
    rewrite !Z.eqb_refl.
    cbn [andb PersonalTrainingSession.status SessionStatus.eqb
         PersonalTrainingSession.scheduled_time].
    destruct (Z.leb_spec scheduled_time now'); [lia |].
    rewrite commit_add_eq by reflexivity.
    cbn [apply_op db personal_training_sessions next_session_id with_sessions].
    unfold update_where. rewrite map_app.
    fold (update_where PersonalTrainingSession.session_id
            (PersonalTrainingSession.set_status SessionStatus.CANCELLED)
            (next_session_id (db s)) (personal_training_sessions (db s))).
    rewrite update_where_no_match
      by (apply well_keyed_no_next; assumption).
    cbn [map PersonalTrainingSession.session_id has_id].
    rewrite Z.eqb_refl. destruct (db s). reflexivity. }
  rewrite Ec. cbn [fst snd]. split; [reflexivity |].
  apply book_session_accepts.
  - reflexivity.
  - split; [exact Hm |]. split; [exact Ht |]. split; [exact Hnow'' |]. exact Hslot.
  - intros p Hin Hid Hstart. cbn [db personal_training_sessions with_sessions] in Hin.
    apply in_app_iff in Hin. destruct Hin as [Hin | [<- | []]].
    + apply (Hfree p Hin Hid Hstart).
    + destruct Hstart as [Hst _]. cbn in Hst. discriminate.
  - exact Hroom.
  - exact Hfit.
Qed.

(** Member 1 books Monday 10:00 with trainer 1, cancels, and books again. *)
Lemma cancelled_session_frees_its_slot_witness :
  let s1 := snd (MemberService.book_personal_training_session
                   club_session may_1_noon 1 1 (datetime_combine june_2 (hm 10 0)) 60
                   None None) in
  let cancelled := MemberService.cancel_pt_session s1 may_1_noon 1 1 in
  fst cancelled = Success (Message "Session cancelled successfully")
  /\ success (fst (MemberService.book_personal_training_session
                     (snd cancelled) may_1_noon 1 1
                     (datetime_combine june_2 (hm 10 0)) 60 None None)) = true.
Proof.
  apply (cancelled_session_frees_its_slot
           club_session may_1_noon may_1_noon may_1_noon 1 1
           (datetime_combine june_2 (hm 10 0)) 60 None None).
  - reflexivity.
  - intros p [].
  - vm_compute. reflexivity.
  - vm_compute. reflexivity.
  - vm_compute. reflexivity.
Defined.



(** ** Cancelling a registration *)




(** ** Tables no booking call writes *)

Lemma apply_op_frame (d d' : Database) (op : PendingOp) :
  apply_op d op = Some d' ->
  rooms d' = rooms d /\ trainers d' = trainers d /\ members d' = members d
  /\ admins d' = admins d /\ trainer_availability d' = trainer_availability d.
Proof.
  destruct op; cbn [apply_op];
    try (destruct (_ && _); [| discriminate]);
    intros [= <-]; repeat split; reflexivity.
Qed.

Lemma flush_frame (ops : list PendingOp) (d d' : Database) :
  flush ops d = Some d' ->
  rooms d' = rooms d /\ trainers d' = trainers d /\ members d' = members d
  /\ admins d' = admins d /\ trainer_availability d' = trainer_availability d.
Proof.
  revert d. induction ops as [|op ops IH]; intros d; cbn.
  - intros [= <-]. repeat split; reflexivity.
  - destruct (apply_op d op) as [d1|] eqn:E; [| discriminate].
    intros H. apply IH in H. apply apply_op_frame in E.
    destruct H as (H1 & H2 & H3 & H4 & H5), E as (E1 & E2 & E3 & E4 & E5).
    repeat split; congruence.
Qed.

Lemma call_frame (s : Session) (c : Call) :
  pending s = [] ->
  rooms (db (snd (call s c))) = rooms (db s)
  /\ trainers (db (snd (call s c))) = trainers (db s)
  /\ members (db (snd (call s c))) = members (db s)
  /\ admins (db (snd (call s c))) = admins (db s)
  /\ trainer_availability (db (snd (call s c))) = trainer_availability (db s).
Proof.
  intros Hp. destruct (call_flush s c Hp) as (ops & _ & Hf).
  exact (flush_frame _ _ _ Hf).
Qed.

Lemma club_call_pending (c : Club) (k : ClubCall) :
  pending (session c) = [] -> pending (session (club_call c k)) = [].
Proof.
  intros Hp. destruct k; cbn [club_call session].
  - apply call_pending. assumption.
  - unfold AdminService.create_room.
    case_paths; cbn [snd session rollback pending]; auto.
  - unfold TrainerService.set_availability.
    case_paths; cbn [snd session rollback pending]; auto.
  - unfold TrainerService.delete_availability.
    case_paths; cbn [snd session rollback pending]; auto.
Qed.

(** ** Trainer availability *)

Lemma ForallOrdPairs_snoc {A} (R : A -> A -> Prop) (l : list A) (x : A) :
  ForallOrdPairs R l -> (forall a, In a l -> R a x) -> ForallOrdPairs R (l ++ [x]).
Proof.
  induction 1 as [|a l Ha Hl IH]; intros Hx; cbn.
  - constructor; constructor.
  - constructor.
    + apply Forall_app. split; [assumption |].
      constructor; [apply Hx; left; reflexivity | constructor].
    + apply IH. intros b Hb. apply Hx. right. assumption.
Qed.

Lemma ForallOrdPairs_filter {A} (R : A -> A -> Prop) (f : A -> bool) (l : list A) :
  ForallOrdPairs R l -> ForallOrdPairs R (filter f l).
Proof.
  induction 1 as [|a l Ha Hl IH]; cbn; [constructor |].
  destruct (f a); [| assumption]. constructor; [| assumption].
  rewrite Forall_forall in *. intros b Hb. apply filter_In in Hb. apply Ha, Hb.
Qed.

Lemma NoDup_map_filter {A B} (g : A -> B) (f : A -> bool) (l : list A) :
  NoDup (map g l) -> NoDup (map g (filter f l)).
Proof.
  induction l as [|a l IH]; cbn; [intros; constructor |].
  intros Hnd. apply NoDup_cons_iff in Hnd. destruct Hnd as [Ha Hnd].
  destruct (f a); cbn; [| apply IH; assumption].
  constructor; [| apply IH; assumption].
  intros Hin. apply Ha. apply in_map_iff in Hin. destruct Hin as (x & <- & Hx).
  apply in_map. apply filter_In in Hx. apply Hx.
Qed.

Lemma overlaps_with_sym (x y : TrainerAvailability.t) :
  TrainerAvailability.overlaps_with x y = TrainerAvailability.overlaps_with y x.
Proof.
  unfold TrainerAvailability.overlaps_with.
  rewrite (Z.eqb_sym (TrainerAvailability.trainer_id y)).
  rewrite (DayOfWeek_eqb_sym (TrainerAvailability.day_of_week y)).
  rewrite (andb_comm (TrainerAvailability.start_time y <? _)).
  reflexivity.
Qed.

Lemma slots_on_In (s : Session) (trainer_id : Z) (day : DayOfWeek.t)
      (a : TrainerAvailability.t) :
  In a (TrainerService.slots_on s trainer_id day) <->
  In a (trainer_availability (db s))
  /\ TrainerAvailability.trainer_id a = trainer_id
  /\ TrainerAvailability.day_of_week a = day.
Proof.
  unfold TrainerService.slots_on.
  rewrite filter_In, andb_true_iff, Z.eqb_eq, DayOfWeek_eqb_eq. tauto.
Qed.

(** A slot that overlaps none of the slots the query returns overlaps no
    slot of the table. *)
Lemma no_overlap_with_table (s : Session) (x : TrainerAvailability.t) :
  find (fun slot => TrainerAvailability.overlaps_with x slot)
       (TrainerService.slots_on s (TrainerAvailability.trainer_id x)
                                (TrainerAvailability.day_of_week x)) = None ->
  forall a, In a (trainer_availability (db s)) ->
            TrainerAvailability.overlaps_with x a = false.
Proof.
  intros Hnone a Ha.
  destruct (TrainerAvailability.overlaps_with x a) eqn:E; [| reflexivity].
  rewrite <- E. apply (find_none _ _ Hnone).
  apply overlaps_with_true in E. apply slots_on_In. intuition congruence.
Qed.

(** The outcome of set_availability on a session with an empty unit of
    work: the failure of a check, or the slot appended. *)
Lemma set_availability_outcome (c : Club) trainer_id day_of_week start_time end_time :
  pending (session c) = [] ->
  let out := TrainerService.set_availability c trainer_id day_of_week
                                             start_time end_time in
  (exists e, out = (TrainerService.Failure e, c) /\ e <> TrainerService.SlotExists)
  \/ (exists day,
         day_of_week = Some day
         /\ In trainer_id (trainers (db (session c)))
         /\ start_time < end_time
         /\ (forall a, In a (trainer_availability (db (session c))) ->
                       TrainerAvailability.overlaps_with
                         (TrainerAvailability.mk None trainer_id day start_time end_time)
                         a = false)
         /\ out = (TrainerService.Success
                     (TrainerService.SlotData
                        (TrainerAvailability.mk (Some (next_availability_id c))
                                                trainer_id day start_time end_time)),
                   mkClub
                     (mkSession
                        (with_trainer_availability
                           (trainer_availability (db (session c))
                              ++ [TrainerAvailability.mk (Some (next_availability_id c))
                                                         trainer_id day start_time end_time])
                           (db (session c)))
                        [])
                     (next_room_id c) (next_availability_id c + 1))).
Proof.
  intros Hp out. subst out. unfold TrainerService.set_availability. cbv zeta.
  destruct (mem_id trainer_id (trainers (db (session c)))) eqn:Et; cbn [negb].
  2:{ left. eexists. split; [reflexivity | discriminate]. }
  destruct day_of_week as [day|].
  2:{ left. eexists. split; [reflexivity | discriminate]. }
  rewrite Z.geb_leb. destruct (Z.leb_spec end_time start_time) as [|Hlt].
  { left. eexists. split; [reflexivity | discriminate]. }
  destruct (find _ _) as [slot|] eqn:Efind.
  { left. eexists. split; [reflexivity | discriminate]. }
  right. exists day.
  pose proof (no_overlap_with_table
                (session c)
                (TrainerAvailability.mk None trainer_id day start_time end_time)
                Efind) as Hno.
  rewrite Hp. cbn [flush]. unfold TrainerService.insert_slot.
  cbn [TrainerAvailability.trainer_id TrainerAvailability.day_of_week
       TrainerAvailability.start_time TrainerAvailability.end_time].
  rewrite Et.
  assert (Huq : existsb
                  (fun a' =>
                     (TrainerAvailability.trainer_id a' =? trainer_id)
                     && DayOfWeek.eqb (TrainerAvailability.day_of_week a') day
                     && (TrainerAvailability.start_time a' =? start_time)
                     && (TrainerAvailability.end_time a' =? end_time))
                  (trainer_availability (db (session c))) = false).
  { apply existsb_false_iff. intros a Ha. destruct (_ && _) eqn:E; [| reflexivity].
    rewrite !andb_true_iff, !Z.eqb_eq, DayOfWeek_eqb_eq in E.
    destruct E as [[[E1 E2] E3] E4].
    assert (Hov : TrainerAvailability.overlaps_with
                    (TrainerAvailability.mk None trainer_id day start_time end_time) a
                  = true).
    { apply overlaps_with_true. cbn. repeat split; try congruence; lia. }
    rewrite (Hno a Ha) in Hov. discriminate. }
  rewrite Huq. cbn [andb negb].
  repeat split; try assumption; try reflexivity.
  apply mem_id_In. assumption.
Qed.

Lemma set_availability_inv (c : Club) trainer_id day_of_week start_time end_time :
  pending (session c) = [] -> availability_inv c ->
  availability_inv (snd (TrainerService.set_availability c trainer_id day_of_week
                                                         start_time end_time)).
Proof.
  intros Hp Hinv.
  destruct (set_availability_outcome c trainer_id day_of_week start_time end_time Hp)
    as [(e & -> & _) | (day & _ & _ & _ & Hno & ->)]; [exact Hinv |].
  destruct Hinv as (Hk & Hnd & Hfree). unfold availability_inv.
  cbn [snd session db trainer_availability with_trainer_availability next_availability_id].
  split; [| split].
  - intros a Ha. apply in_app_iff in Ha. destruct Ha as [Ha | [<- | []]].
    + destruct (Hk a Ha) as (id & Hid & Hlt). exists id. split; [assumption | lia].
    + exists (next_availability_id c). split; [reflexivity | lia].
  - rewrite map_app. cbn [map TrainerAvailability.availability_id].
    apply NoDup_app; [assumption | constructor; [intros [] | constructor] |].
    intros key Hkey [<- | []]. apply in_map_iff in Hkey.
    destruct Hkey as (a & Hka & Ha). destruct (Hk a Ha) as (id & Hid & Hlt).
    rewrite Hid in Hka. injection Hka as ->. lia.
  - apply ForallOrdPairs_snoc; [assumption |].
    intros a Ha. rewrite overlaps_with_sym. rewrite <- (Hno a Ha).
    reflexivity.
Qed.

Lemma delete_availability_inv (c : Club) trainer_id availability_id :
  pending (session c) = [] -> availability_inv c ->
  availability_inv (snd (TrainerService.delete_availability c trainer_id availability_id)).
Proof.
  intros Hp (Hk & Hnd & Hfree). unfold TrainerService.delete_availability. cbv zeta.
  destruct (find _ _); [| repeat split; assumption].
  rewrite Hp. cbn [flush snd]. unfold availability_inv.
  cbn [session db trainer_availability with_trainer_availability next_availability_id].
  split; [| split].
  - intros a Ha. apply filter_In in Ha. apply Hk, Ha.
  - apply NoDup_map_filter. assumption.
  - apply ForallOrdPairs_filter. assumption.
Qed.

Lemma create_room_keeps_availability (c : Club) name capacity room_type :
  pending (session c) = [] ->
  trainer_availability (db (session (snd (AdminService.create_room c name capacity
                                                                    room_type))))
  = trainer_availability (db (session c))
  /\ next_availability_id (snd (AdminService.create_room c name capacity room_type))
     = next_availability_id c.
Proof.
  intros Hp. unfold AdminService.create_room. cbv zeta. rewrite Hp. cbn [flush].
  case_paths; cbn [snd session rollback db]; split; reflexivity.
Qed.

Lemma club_call_availability_inv (c : Club) (k : ClubCall) :
  pending (session c) = [] -> availability_inv c -> availability_inv (club_call c k).
Proof.
  intros Hp Hinv. destruct k; cbn [club_call].
  - destruct (call_frame (session c) c0 Hp) as (_ & _ & _ & _ & E).
    unfold availability_inv in *. cbn [session next_availability_id]. rewrite E.
    exact Hinv.
  - destruct (create_room_keeps_availability c name capacity room_type Hp) as [E1 E2].
    unfold availability_inv in *. rewrite E1, E2. exact Hinv.
  - apply set_availability_inv; assumption.
  - apply delete_availability_inv; assumption.
Qed.

Lemma club_run_availability_inv (ks : list ClubCall) (c : Club) :
  pending (session c) = [] -> availability_inv c -> availability_inv (club_run c ks).
Proof.
  revert c. induction ks as [|k ks IH]; intros c Hp Hinv; cbn [club_run]; [assumption |].
  apply IH; [apply club_call_pending | apply club_call_availability_inv]; assumption.
Qed.

(** X15. A trainer's availability slots never overlap.  From a table
    whose slots do not overlap (an empty one, for one), after any sequence
    of calls of the services (set_availability, delete_availability,
    create_room and every booking call) two distinct slots of one trainer
    on one weekday never have overlapping half-open windows. *)
Theorem availability_slots_never_overlap (c0 : Club) (ks : list ClubCall) :
  pending (session c0) = [] -> availability_inv c0 ->
  forall a b,
    In a (trainer_availability (db (session (club_run c0 ks)))) ->
    In b (trainer_availability (db (session (club_run c0 ks)))) ->
    TrainerAvailability.availability_id a <> TrainerAvailability.availability_id b ->
    TrainerAvailability.trainer_id a = TrainerAvailability.trainer_id b ->
    TrainerAvailability.day_of_week a = TrainerAvailability.day_of_week b ->
    ~ (TrainerAvailability.start_time a < TrainerAvailability.end_time b
       /\ TrainerAvailability.start_time b < TrainerAvailability.end_time a).
Proof.
  intros Hp Hinv a b Ha Hb Hid Ht Hd Hov.
  destruct (club_run_availability_inv ks c0 Hp Hinv) as (_ & _ & Hfree).
  assert (E : TrainerAvailability.overlaps_with a b = true)
    by (apply overlaps_with_true; tauto).
  destruct (ForallOrdPairs_In Hfree a b Ha Hb) as [-> | [H | H]].
  - apply Hid. reflexivity.
  - congruence.
  - rewrite overlaps_with_sym in H. congruence.
Qed.

Lemma availability_inv_the_club : availability_inv the_club.
Proof.
  unfold availability_inv. cbn. split; [| split].
  - intros a [<- | []]. exists 1. split; [reflexivity | lia].
  - repeat constructor. intros [].
  - repeat constructor.
Qed.

(** Trainer 1 (Monday 09:00-12:00) adds Monday 12:00-14:00, is refused
    Monday 11:00-13:00, and adds Tuesday 11:00-13:00. *)
Lemma availability_slots_never_overlap_witness :
  let c := club_run the_club
                    [SetAvailability 1 (Some DayOfWeek.MONDAY) (hm 12 0) (hm 14 0);
                     SetAvailability 1 (Some DayOfWeek.MONDAY) (hm 11 0) (hm 13 0);
                     SetAvailability 1 (Some DayOfWeek.TUESDAY) (hm 11 0) (hm 13 0)] in
  trainer_availability (db (session c))
  = [TrainerAvailability.mk (Some 1) 1 DayOfWeek.MONDAY (hm 9 0) (hm 12 0);
     TrainerAvailability.mk (Some 2) 1 DayOfWeek.MONDAY (hm 12 0) (hm 14 0);
     TrainerAvailability.mk (Some 3) 1 DayOfWeek.TUESDAY (hm 11 0) (hm 13 0)]
  /\ ~ (hm 9 0 < hm 14 0 /\ hm 12 0 < hm 12 0).
Proof.
  intros c. split; [reflexivity |].
  apply (availability_slots_never_overlap
           the_club
           [SetAvailability 1 (Some DayOfWeek.MONDAY) (hm 12 0) (hm 14 0);
            SetAvailability 1 (Some DayOfWeek.MONDAY) (hm 11 0) (hm 13 0);
            SetAvailability 1 (Some DayOfWeek.TUESDAY) (hm 11 0) (hm 13 0)]
           eq_refl availability_inv_the_club
           (TrainerAvailability.mk (Some 1) 1 DayOfWeek.MONDAY (hm 9 0) (hm 12 0))
           (TrainerAvailability.mk (Some 2) 1 DayOfWeek.MONDAY (hm 12 0) (hm 14 0))).
  - left. reflexivity.
  - right. left. reflexivity.
  - discriminate.
  - reflexivity.
  - reflexivity.
Defined.

(** X16. An exact duplicate of a slot is reported as an overlap.  The
    branch of set_availability for the unique constraint ('This exact
    time slot already exists') is never taken: a slot equal to an existing
    one has start before end and so overlaps it, and the overlap check
    comes first. *)
Theorem duplicate_slot_is_an_overlap (c : Club) trainer_id day_of_week start_time end_time :
  pending (session c) = [] ->
  fst (TrainerService.set_availability c trainer_id day_of_week start_time end_time)
  <> TrainerService.Failure TrainerService.SlotExists
  /\ forall a,
       In a (trainer_availability (db (session c))) ->
       In trainer_id (trainers (db (session c))) ->
       TrainerAvailability.trainer_id a = trainer_id ->
       day_of_week = Some (TrainerAvailability.day_of_week a) ->
       TrainerAvailability.start_time a = start_time ->
       TrainerAvailability.end_time a = end_time ->
       start_time < end_time ->
       exists st en,
         TrainerService.set_availability c trainer_id day_of_week start_time end_time
         = (TrainerService.Failure (TrainerService.Overlap st en), c).
Proof.
  intros Hp. split.
  - destruct (set_availability_outcome c trainer_id day_of_week start_time end_time Hp)
      as [(e & -> & He) | (day & _ & _ & _ & _ & ->)]; cbn [fst]; congruence.
  - intros a Ha Ht Hta Hday Hst Hen Hlt.
    unfold TrainerService.set_availability. cbv zeta.
    apply mem_id_In in Ht. rewrite Ht, Hday. cbn [negb].
    rewrite Z.geb_leb. destruct (Z.leb_spec end_time start_time); [lia |].
    destruct (find _ _) as [slot|] eqn:Efind; [do 2 eexists; reflexivity |].
    exfalso.
    assert (Hin : In a (TrainerService.slots_on (session c) trainer_id
                                                (TrainerAvailability.day_of_week a)))
      by (apply slots_on_In; tauto).
    pose proof (find_none _ _ Efind a Hin) as Hnone. cbn beta in Hnone.
    assert (Hov : TrainerAvailability.overlaps_with
                    (TrainerAvailability.mk None trainer_id
                       (TrainerAvailability.day_of_week a) start_time end_time) a = true).
    { apply overlaps_with_true. cbn. repeat split; try congruence; lia. }
    congruence.
Qed.

(** Trainer 1 asks for Monday 09:00-12:00 a second time. *)
Lemma duplicate_slot_is_an_overlap_witness :
  exists st en,
    TrainerService.set_availability the_club 1 (Some DayOfWeek.MONDAY) (hm 9 0) (hm 12 0)
    = (TrainerService.Failure (TrainerService.Overlap st en), the_club).
Proof.
  destruct (duplicate_slot_is_an_overlap
              the_club 1 (Some DayOfWeek.MONDAY) (hm 9 0) (hm 12 0) eq_refl) as [_ H].
  apply (H (TrainerAvailability.mk (Some 1) 1 DayOfWeek.MONDAY (hm 9 0) (hm 12 0)));
    first [left; reflexivity | reflexivity].
Defined.

Lemma with_trainer_availability_id (d : Database) :
  with_trainer_availability (trainer_availability d) d = d.
Proof. destruct d; reflexivity. Qed.

Lemma with_trainer_availability_twice (l l' : list TrainerAvailability.t) (d : Database) :
  with_trainer_availability l (with_trainer_availability l' d)
  = with_trainer_availability l d.
Proof. destruct d; reflexivity. Qed.

Lemma filter_all {A} (f : A -> bool) (l : list A) :
  (forall x, In x l -> f x = true) -> filter f l = l.
Proof.
  induction l as [|a l IH]; intros H; cbn; [reflexivity |].
  rewrite (H a (or_introl eq_refl)), IH; [reflexivity |].
  intros x Hx. apply H. right. exact Hx.
Qed.

Lemma find_app {A} (f : A -> bool) (l l' : list A) :
  find f (l ++ l') = match find f l with Some y => Some y | None => find f l' end.
Proof.
  induction l as [|a l IH]; cbn; [reflexivity |].
  destruct (f a); [reflexivity | exact IH].
Qed.

(** X17. What a new slot changes for is_available_at.  After a
    successful set_availability of (trainer, day, start, end),
    is_available_at answers true exactly where it did before, and also
    for that trainer on that day at the times in [[start, end)]. *)
Theorem new_slot_extends_is_available_at (c c' : Club) trainer_id day start_time end_time
        (r : TrainerService.Data) :
  pending (session c) = [] ->
  TrainerService.set_availability c trainer_id (Some day) start_time end_time
  = (TrainerService.Success r, c') ->
  forall trainer_id' day' check_time,
    TrainerService.is_available_at (session c') trainer_id' day' check_time
    = TrainerService.is_available_at (session c) trainer_id' day' check_time
      || ((trainer_id' =? trainer_id) && DayOfWeek.eqb day' day
          && (start_time <=? check_time) && (check_time <? end_time)).
Proof.
  intros Hp Hset trainer_id' day' check_time.
  destruct (set_availability_outcome c trainer_id (Some day) start_time end_time Hp)
    as [(e & He & _) | (day0 & Hday & _ & _ & _ & Hout)];
    cbv zeta in *; [congruence |].
  injection Hday as <-. rewrite Hout in Hset. injection Hset as _ <-.
  unfold TrainerService.is_available_at, TrainerService.slots_on.
  cbn [session db trainer_availability with_trainer_availability].
  rewrite filter_app, find_app.
  destruct (find _ (filter _ (trainer_availability (db (session c))))); [reflexivity |].
  cbn [filter TrainerAvailability.trainer_id TrainerAvailability.day_of_week orb].
  rewrite (Z.eqb_sym trainer_id trainer_id'), (DayOfWeek_eqb_sym day day').
  destruct ((trainer_id' =? trainer_id) && DayOfWeek.eqb day' day); [| reflexivity].
  cbn [find TrainerAvailability.start_time TrainerAvailability.end_time andb].
  destruct ((start_time <=? check_time) && (check_time <? end_time)); reflexivity.
Qed.

(** Trainer 1 adds Tuesday 11:00-13:00 and is then available on Tuesday
    at 12:59, not at 13:00. *)
Lemma new_slot_extends_is_available_at_witness :
  let c' := club_call the_club
                      (SetAvailability 1 (Some DayOfWeek.TUESDAY) (hm 11 0) (hm 13 0)) in
  TrainerService.is_available_at (session c') 1 DayOfWeek.TUESDAY (hm 12 59) = true
  /\ TrainerService.is_available_at (session c') 1 DayOfWeek.TUESDAY (hm 13 0) = false.
Proof.
  intros c'.
  pose proof (new_slot_extends_is_available_at
                the_club c' 1 DayOfWeek.TUESDAY (hm 11 0) (hm 13 0) _ eq_refl eq_refl)
    as H.
  split; rewrite H; reflexivity.
Defined.

(** X18. Deleting the slot just set restores the table.  When
    set_availability succeeds, delete_availability with the same trainer
    and the id it returned succeeds and leaves the database as it was
    before the slot was set. *)
Theorem set_then_delete_availability (c c' : Club) trainer_id day_of_week start_time
        end_time (a : TrainerAvailability.t) :
  pending (session c) = [] -> availability_inv c ->
  TrainerService.set_availability c trainer_id day_of_week start_time end_time
  = (TrainerService.Success (TrainerService.SlotData a), c') ->
  exists id,
    TrainerAvailability.availability_id a = Some id
    /\ TrainerService.success (fst (TrainerService.delete_availability c' trainer_id id))
       = true
    /\ db (session (snd (TrainerService.delete_availability c' trainer_id id)))
       = db (session c).
Proof.
  intros Hp (Hk & _ & _) Hset.
  destruct (set_availability_outcome c trainer_id day_of_week start_time end_time Hp)
    as [(e & He & _) | (day & _ & _ & _ & _ & Hout)];
    cbv zeta in *; [congruence |].
  rewrite Hout in Hset. injection Hset as <- <-.
  exists (next_availability_id c). split; [reflexivity |].
  unfold TrainerService.delete_availability. cbv zeta.
  cbn [session db trainer_availability with_trainer_availability pending].
  rewrite find_snoc.
  assert (Hold : forall a, In a (trainer_availability (db (session c))) ->
                           has_id (TrainerAvailability.availability_id a)
                                  (next_availability_id c) = false).
  { intros a Ha. destruct (Hk a Ha) as (id & -> & Hlt). cbn [has_id].
    apply Z.eqb_neq. lia. }
  assert (Hnew : has_id (Some (next_availability_id c)) (next_availability_id c) = true)
    by (cbn [has_id]; apply Z.eqb_refl).
  cbn [TrainerAvailability.availability_id TrainerAvailability.trainer_id].
  rewrite Hnew, Z.eqb_refl. cbn [andb].
  assert (Hres : forall o : option TrainerAvailability.t,
             match o with
             | Some y => Some y
             | None => Some (TrainerAvailability.mk (Some (next_availability_id c))
                                                    trainer_id day start_time end_time)
             end <> None) by (intros []; discriminate).
  destruct (match find _ (trainer_availability (db (session c))) with
            | Some y => Some y
            | None => _
            end) eqn:E; [| exfalso; exact (Hres _ E)].
  cbn [flush fst snd TrainerService.success session db trainer_availability
       with_trainer_availability].
  split; [reflexivity |].
  rewrite filter_app. cbn [filter TrainerAvailability.availability_id].
  rewrite Hnew. cbn [negb]. rewrite app_nil_r.
  rewrite filter_all; [| intros x Hx; rewrite (Hold x Hx); reflexivity].
  rewrite with_trainer_availability_twice. apply with_trainer_availability_id.
Qed.

(** Trainer 1 sets Tuesday 11:00-13:00 (slot 2) and deletes it again. *)
Lemma set_then_delete_availability_witness :
  exists id,
    Some 2 = Some id
    /\ TrainerService.success
         (fst (TrainerService.delete_availability
                 (club_call the_club
                            (SetAvailability 1 (Some DayOfWeek.TUESDAY) (hm 11 0) (hm 13 0)))
                 1 id)) = true
    /\ db (session (snd (TrainerService.delete_availability
                           (club_call the_club
                                      (SetAvailability 1 (Some DayOfWeek.TUESDAY)
                                                       (hm 11 0) (hm 13 0)))
                           1 id)))
       = db (session the_club).
Proof.
  exact (set_then_delete_availability
           the_club _ 1 (Some DayOfWeek.TUESDAY) (hm 11 0) (hm 13 0) _
           eq_refl availability_inv_the_club eq_refl).
Defined.

(** X19. A booked session that ends on the day it starts lies inside the
    trainer's availability as is_available_at reports it.  When
    book_personal_training_session succeeds and the session ends on the
    day it starts, TrainerService.is_available_at answers True for the
    trainer at every instant from the start of the session up to, not
    including, its end (weekday and time of day of that instant).  A
    session that runs past midnight is outside this statement: it can be
    booked over times at which is_available_at answers False
    ([overnight_session_not_available]). *)
Theorem booked_session_within_is_available_at (s : Session) now member_id trainer_id
        scheduled_time duration_minutes room_id notes :
  pending s = [] ->
  success (fst (MemberService.book_personal_training_session
                  s now member_id trainer_id scheduled_time duration_minutes
                  room_id notes)) = true ->
  dt_date (scheduled_time + timedelta_minutes duration_minutes) = dt_date scheduled_time ->
  forall t : datetime,
    scheduled_time <= t < scheduled_time + timedelta_minutes duration_minutes ->
    TrainerService.is_available_at s trainer_id (DayOfWeek.of_date (dt_date t)) (dt_time t)
    = true.
Proof.
  intros Hp Hok Hsame t Hin.
  destruct (book_session_success s now member_id trainer_id scheduled_time
                                 duration_minutes room_id notes Hp Hok)
    as [[(_ & _ & _ & a & Ha & Ht & Hd & Hst & Hen) _] _].
  assert (Ht' : dt_date t = dt_date scheduled_time
                /\ dt_time scheduled_time <= dt_time t
                   < dt_time (scheduled_time + timedelta_minutes duration_minutes)).
  { revert Hsame Hin. unfold dt_date, dt_time.
    set (finish := scheduled_time + timedelta_minutes duration_minutes).
    intros Hsame Hin.
    assert (Hd0 : usec_per_day <> 0) by (unfold usec_per_day; lia).
    assert (Hpos : 0 < usec_per_day) by (unfold usec_per_day; lia).
    pose proof (Z.div_mod scheduled_time usec_per_day Hd0) as E1.
    pose proof (Z.div_mod finish usec_per_day Hd0) as E2.
    pose proof (Z.div_mod t usec_per_day Hd0) as E3.
    pose proof (Z.mod_pos_bound scheduled_time usec_per_day Hpos) as B1.
    pose proof (Z.mod_pos_bound finish usec_per_day Hpos) as B2.
    pose proof (Z.mod_pos_bound t usec_per_day Hpos) as B3.
    rewrite Hsame in E2.
    set (q := scheduled_time / usec_per_day) in *.
    set (qt := t / usec_per_day) in *.
    set (r := scheduled_time mod usec_per_day) in *.
    set (rf := finish mod usec_per_day) in *.
    set (rt := t mod usec_per_day) in *.
    unfold usec_per_day in *. lia. }
  destruct Ht' as [Edate Htime]. rewrite Edate.
  unfold TrainerService.is_available_at.
  destruct (find _ _) eqn:E; [reflexivity | exfalso].
  assert (Hslot : In a (TrainerService.slots_on
                          s trainer_id (DayOfWeek.of_date (dt_date scheduled_time))))
    by (apply slots_on_In; tauto).
  pose proof (find_none _ _ E a Hslot) as Hnone. cbn beta in Hnone.
  apply andb_false_iff in Hnone. rewrite Z.leb_gt, Z.ltb_ge in Hnone. lia.
Qed.

(** Member 1 books trainer 1 on Monday 2025-06-02 from 10:00 for 60
    minutes; the trainer is available on Monday at 10:59. *)
Lemma booked_session_within_is_available_at_witness :
  TrainerService.is_available_at
    club_session 1
    (DayOfWeek.of_date (dt_date (datetime_combine june_2 (hm 10 59))))
    (dt_time (datetime_combine june_2 (hm 10 59)))
  = true.
Proof.
  apply (booked_session_within_is_available_at
           club_session may_1_noon 1 1 (datetime_combine june_2 (hm 10 0)) 60 None None
           eq_refl eq_refl eq_refl (datetime_combine june_2 (hm 10 59))).
  vm_compute. split; [discriminate | reflexivity].
Defined.

(** Past midnight the statement fails.  With trainer 1 available on
    Monday 09:00-23:30 (and at no other time), the session of Monday 2025-06-02 at 23:00 for 120
    minutes is booked, and is_available_at answers False on Monday at
    23:45 and on Tuesday at 00:30, both during the session. *)
Lemma overnight_session_not_available :
  let s := session (club_run the_club
                             [DeleteAvailability 1 1;
                              SetAvailability 1 (Some DayOfWeek.MONDAY)
                                              (hm 9 0) (hm 23 30)]) in
  success (fst (MemberService.book_personal_training_session
                  s may_1_noon 1 1 (datetime_combine june_2 (hm 23 0)) 120 None None))
  = true
  /\ TrainerService.is_available_at s 1 DayOfWeek.MONDAY (hm 23 45) = false
  /\ TrainerService.is_available_at s 1 DayOfWeek.TUESDAY (hm 0 30) = false.
Proof. vm_compute. repeat split; reflexivity. Qed.

(** ** Rooms *)

Lemma with_rooms_rooms (l : list Room.t) (d : Database) : rooms (with_rooms l d) = l.
Proof. destruct d; reflexivity. Qed.

Lemma find_name_none (name : string) (l : list Room.t) :
  find (fun r => String.eqb (Room.name r) name) l = None <-> ~ In name (map Room.name l).
Proof.
  rewrite find_none_iff. split.
  - intros H Hin. apply in_map_iff in Hin. destruct Hin as (r & <- & Hr).
    specialize (H r Hr). rewrite String.eqb_refl in H. discriminate.
  - intros H r Hr. apply String.eqb_neq. intros E. apply H. rewrite <- E.
    apply in_map. exact Hr.
Qed.

Lemma existsb_name_false (name : string) (l : list Room.t) :
  find (fun r => String.eqb (Room.name r) name) l = None ->
  existsb (fun r => String.eqb (Room.name r) name) l = false.
Proof.
  intros H. apply existsb_false_iff. intros r Hr. exact (find_none _ _ H r Hr).
Qed.

(** The outcomes of create_room on an empty unit of work. *)
Lemma create_room_outcome (c : Club) name capacity room_type :
  pending (session c) = [] ->
  let out := AdminService.create_room c name capacity room_type in
  (exists e, out = (AdminService.RoomFailure e, c)
             /\ (0 < capacity <= 2147483647 -> room_type <> None ->
                 ~ In name (map Room.name (rooms (db (session c)))) ->
                 (String.length name <= 100)%nat -> False))
  \/ (0 < capacity <= 2147483647 /\ room_type <> None
      /\ ~ In name (map Room.name (rooms (db (session c))))
      /\ (String.length name <= 100)%nat
      /\ out = (AdminService.RoomCreated (Room.mk (next_room_id c) name capacity),
                mkClub (mkSession
                          (with_rooms (rooms (db (session c))
                                         ++ [Room.mk (next_room_id c) name capacity])
                                      (db (session c)))
                          [])
                       (next_room_id c + 1) (next_availability_id c))).
Proof.
  intros Hp out. unfold out, AdminService.create_room. cbv zeta. rewrite Hp.
  cbn [flush]. unfold rollback. rewrite <- Hp.
  replace (mkSession (db (session c)) (pending (session c))) with (session c)
    by (destruct (session c); reflexivity).
  replace (mkClub (session c) (next_room_id c) (next_availability_id c)) with c
    by (destruct c; reflexivity).
  destruct (Z.leb_spec capacity 0).
  { left. eexists. split; [reflexivity | lia]. }
  destruct room_type as [ty|].
  2:{ left. eexists. split; [reflexivity | congruence]. }
  destruct (find _ _) as [r0|] eqn:Efind.
  { left. eexists. split; [reflexivity |]. intros _ _ Hfree _.
    apply find_name_none in Hfree. congruence. }
  rewrite (existsb_name_false _ _ Efind). cbn [negb]. rewrite andb_true_r.
  destruct (Z.leb_spec capacity 2147483647).
  2:{ left. eexists. split; [reflexivity | lia]. }
  cbn [andb].
  destruct (Nat.leb_spec (String.length name) 100).
  - right. repeat split; try assumption; try discriminate.
    apply find_name_none. exact Efind.
  - left. eexists. split; [reflexivity |]. intros _ _ _ Hlen. lia.
Qed.

Lemma create_room_inv (c : Club) name capacity room_type :
  pending (session c) = [] -> rooms_inv c ->
  rooms_inv (snd (AdminService.create_room c name capacity room_type)).
Proof.
  intros Hp Hinv.
  destruct (create_room_outcome c name capacity room_type Hp)
    as [(e & -> & _) | ([Hcap _] & _ & Hfree & Hlen & ->)]; [exact Hinv |].
  destruct Hinv as (Hk & Hids & Hnames). unfold rooms_inv.
  cbn [snd session db next_room_id]. rewrite with_rooms_rooms.
  split; [| split].
  - intros r Hr. apply in_app_iff in Hr. destruct Hr as [Hr | [<- | []]].
    + destruct (Hk r Hr) as (? & ? & ?). repeat split; [lia | assumption | assumption].
    + cbn. repeat split; [lia | assumption | assumption].
  - rewrite map_app. cbn [map Room.room_id].
    apply NoDup_app; [assumption | constructor; [intros [] | constructor] |].
    intros key Hkey [<- | []]. apply in_map_iff in Hkey.
    destruct Hkey as (r & Hkr & Hr). destruct (Hk r Hr) as (Hlt & _). lia.
  - rewrite map_app. cbn [map Room.name].
    apply NoDup_app; [assumption | constructor; [intros [] | constructor] |].
    intros key Hkey [<- | []]. exact (Hfree Hkey).
Qed.

Lemma availability_keeps_rooms (c : Club) trainer_id :
  pending (session c) = [] ->
  (forall day_of_week start_time end_time,
      rooms (db (session (snd (TrainerService.set_availability
                                 c trainer_id day_of_week start_time end_time))))
      = rooms (db (session c))
      /\ next_room_id (snd (TrainerService.set_availability
                              c trainer_id day_of_week start_time end_time))
         = next_room_id c)
  /\ (forall availability_id,
         rooms (db (session (snd (TrainerService.delete_availability
                                    c trainer_id availability_id))))
         = rooms (db (session c))
         /\ next_room_id (snd (TrainerService.delete_availability
                                 c trainer_id availability_id))
            = next_room_id c).
Proof.
  intros Hp. split.
  - intros day_of_week start_time end_time.
    destruct (set_availability_outcome c trainer_id day_of_week start_time end_time Hp)
      as [(e & -> & _) | (day & _ & _ & _ & _ & ->)]; [split; reflexivity |].
    cbn [snd session db next_room_id]. destruct (db (session c)). split; reflexivity.
  - intros availability_id. unfold TrainerService.delete_availability. cbv zeta.
    rewrite Hp. cbn [flush]. destruct (find _ _); [| split; reflexivity].
    cbn [snd session db next_room_id]. destruct (db (session c)). split; reflexivity.
Qed.

Lemma club_call_rooms_inv (c : Club) (k : ClubCall) :
  pending (session c) = [] -> rooms_inv c -> rooms_inv (club_call c k).
Proof.
  intros Hp Hinv. destruct k; cbn [club_call].
  - destruct (call_frame (session c) c0 Hp) as (E & _).
    unfold rooms_inv in *. cbn [session next_room_id]. rewrite E. exact Hinv.
  - apply create_room_inv; assumption.
  - destruct (availability_keeps_rooms c trainer_id Hp) as [H _].
    destruct (H day_of_week start_time end_time) as [E1 E2].
    unfold rooms_inv in *. rewrite E1, E2. exact Hinv.
  - destruct (availability_keeps_rooms c trainer_id Hp) as [_ H].
    destruct (H availability_id) as [E1 E2].
    unfold rooms_inv in *. rewrite E1, E2. exact Hinv.
Qed.

Lemma club_run_rooms_inv (ks : list ClubCall) (c : Club) :
  pending (session c) = [] -> rooms_inv c -> rooms_inv (club_run c ks).
Proof.
  revert c. induction ks as [|k ks IH]; intros c Hp Hinv; cbn [club_run]; [assumption |].
  apply IH; [apply club_call_pending | apply club_call_rooms_inv]; assumption.
Qed.

Lemma rooms_inv_the_club : rooms_inv the_club.
Proof.
  unfold rooms_inv. cbn. split; [| split].
  - intros r [<- | []]. cbn. repeat split; lia.
  - repeat constructor. intros [].
  - repeat constructor. intros [].
Qed.

(** X20. Room names stay unique and capacities positive.  From a rooms
    table with these properties (an empty one, for one), after any
    sequence of calls of the services no two rooms share a name or an id,
    and every room has a positive capacity and a name that fits its
    column: create_room is the only call that writes the table, and it
    checks the capacity and the name before the INSERT. *)
Theorem room_names_stay_unique (c0 : Club) (ks : list ClubCall) :
  pending (session c0) = [] -> rooms_inv c0 ->
  forall r1 r2,
    In r1 (rooms (db (session (club_run c0 ks)))) ->
    In r2 (rooms (db (session (club_run c0 ks)))) ->
    0 < Room.capacity r1
    /\ (String.length (Room.name r1) <= 100)%nat
    /\ (Room.name r1 = Room.name r2 \/ Room.room_id r1 = Room.room_id r2 -> r1 = r2).
Proof.
  intros Hp Hinv r1 r2 H1 H2.
  destruct (club_run_rooms_inv ks c0 Hp Hinv) as (Hk & Hids & Hnames).
  destruct (Hk r1 H1) as (_ & Hcap & Hlen).
  split; [assumption | split; [assumption |]].
  intros [E | E].
  - exact (NoDup_map_eq Room.name _ r1 r2 Hnames H1 H2 E).
  - exact (NoDup_map_eq Room.room_id _ r1 r2 Hids H1 H2 E).
Qed.

(** Two rooms are created; a third with the name of the first and one
    with capacity 0 are refused. *)
Lemma room_names_stay_unique_witness :
  let c := club_run the_club
                    [CreateRoom "Pool" 20 (Some AdminService.POOL);
                     CreateRoom "Studio A" 15 (Some AdminService.STUDIO);
                     CreateRoom "Yard" 0 (Some AdminService.OUTDOOR)] in
  rooms (db (session c)) = [studio_a; Room.mk 2 "Pool" 20]
  /\ 0 < Room.capacity studio_a
  /\ (String.length (Room.name studio_a) <= 100)%nat
  /\ (Room.name studio_a = "Pool"%string \/ Room.room_id studio_a = 2
      -> studio_a = Room.mk 2 "Pool" 20).
Proof.
  intros c. split; [reflexivity |].
  apply (room_names_stay_unique
           the_club
           [CreateRoom "Pool" 20 (Some AdminService.POOL);
            CreateRoom "Studio A" 15 (Some AdminService.STUDIO);
            CreateRoom "Yard" 0 (Some AdminService.OUTDOOR)]
           eq_refl rooms_inv_the_club studio_a (Room.mk 2 "Pool" 20)).
  - left. reflexivity.
  - right. left. reflexivity.
Defined.

(** X21. When create_room succeeds, and what it stores.  On an empty
    unit of work create_room succeeds exactly when the capacity is
    positive and fits the INTEGER column, the room type is one of the
    enumeration, no room has the name and the name fits its column (100
    characters); the room is then stored under the next id, found under it
    by get_room_by_id, and every other lookup is unchanged. *)
Theorem create_room_succeeds_iff (c : Club) name capacity room_type :
  pending (session c) = [] -> rooms_inv c ->
  let out := AdminService.create_room c name capacity room_type in
  ((exists r, fst out = AdminService.RoomCreated r)
   <-> 0 < capacity <= 2147483647 /\ room_type <> None
       /\ ~ In name (map Room.name (rooms (db (session c))))
       /\ (String.length name <= 100)%nat)
  /\ forall r, fst out = AdminService.RoomCreated r ->
       r = Room.mk (next_room_id c) name capacity
       /\ AdminService.get_room_by_id (session (snd out)) (Room.room_id r) = Some r
       /\ forall room_id, room_id <> Room.room_id r ->
            AdminService.get_room_by_id (session (snd out)) room_id
            = AdminService.get_room_by_id (session c) room_id.
Proof.
  intros Hp (Hk & _ & _) out.
  destruct (create_room_outcome c name capacity room_type Hp)
    as [(e & He & Hno) | (Hcap & Hty & Hfree & Hlen & Hout)];
    fold out in He || fold out in Hout.
  - rewrite He. cbn [fst]. split; [split |].
    + intros (r & Hr). discriminate.
    + intros (? & ? & ? & ?). exfalso. auto.
    + intros r Hr. discriminate.
  - rewrite Hout. cbn [fst snd session]. split; [split |].
    + intros _. split; [exact Hcap |]. repeat split; assumption.
    + intros _. eexists. reflexivity.
    + intros r Hr. injection Hr as <-. split; [reflexivity |].
      unfold AdminService.get_room_by_id. cbn [db]. rewrite with_rooms_rooms.
      cbn [Room.room_id]. split.
      * rewrite find_snoc.
        destruct (find _ _) as [r0|] eqn:E.
        -- apply find_some in E. destruct E as [Hin E]. apply Z.eqb_eq in E.
           destruct (Hk r0 Hin) as (Hlt & _). lia.
        -- cbn [Room.room_id]. rewrite Z.eqb_refl. reflexivity.
      * intros room_id Hne. rewrite find_snoc. cbn [Room.room_id].
        destruct (find _ _); [reflexivity |].
        destruct (Z.eqb_spec (next_room_id c) room_id); [congruence | reflexivity].
Qed.

(** The pool is created in the club of the scenarios and gets id 2. *)
Lemma create_room_succeeds_iff_witness :
  AdminService.get_room_by_id
    (session (snd (AdminService.create_room the_club "Pool" 20 (Some AdminService.POOL))))
    2
  = Some (Room.mk 2 "Pool" 20).
Proof.
  destruct (create_room_succeeds_iff the_club "Pool" 20 (Some AdminService.POOL)
                                     eq_refl rooms_inv_the_club) as [_ H].
  exact (proj1 (proj2 (H (Room.mk 2 "Pool" 20) eq_refl))).
Defined.

(** ** The registrations of a class *)

Lemma filter_update_where_length {A} (key : A -> option Z) (upd : A -> A) (id : Z)
      (f : A -> bool) (l : list A) :
  (forall r, f (upd r) = f r) ->
  List.length (filter f (update_where key upd id l)) = List.length (filter f l).
Proof.
  intros H. unfold update_where. induction l as [|a l IH]; cbn; [reflexivity |].
  destruct (has_id (key a) id); [rewrite H |]; destruct (f a); cbn; rewrite IH;
    reflexivity.
Qed.

Lemma filter_length_le {A} (f g : A -> bool) (l : list A) :
  (forall x, f x = true -> g x = true) ->
  (List.length (filter f l) <= List.length (filter g l))%nat.
Proof.
  intros H. induction l as [|a l IH]; cbn; [lia |].
  destruct (f a) eqn:E.
  - rewrite (H a E). cbn. lia.
  - destruct (g a); cbn; lia.
Qed.

Lemma apply_op_registration_rows (d d' : Database) (op : PendingOp) (c : FitnessClass.t) :
  apply_op d op = Some d' ->
  current_registration_count d c <= current_registration_count d' c
  /\ ((forall r, op <> AddRegistration r) ->
      current_registration_count d' c = current_registration_count d c).
Proof.
  unfold current_registration_count, registrations.
  destruct op; cbn [apply_op];
    try (destruct (_ && _); [| discriminate]);
    intros [= <-];
    cbn [class_registrations with_room_bookings with_fitness_classes
         with_class_registrations with_sessions];
    try (split; [lia | reflexivity]).
  - rewrite filter_app, length_app. split; [lia |].
    intros H. exfalso. exact (H r eq_refl).
  - rewrite filter_update_where_length; [split; [lia | reflexivity] |].
    intros r. reflexivity.
Qed.

Lemma flush_registration_rows (ops : list PendingOp) (d d' : Database)
      (c : FitnessClass.t) :
  flush ops d = Some d' ->
  current_registration_count d c <= current_registration_count d' c
  /\ (Forall (fun op => forall r, op <> AddRegistration r) ops ->
      current_registration_count d' c = current_registration_count d c).
Proof.
  revert d. induction ops as [|op ops IH]; intros d; cbn.
  - intros [= <-]. split; [lia | reflexivity].
  - destruct (apply_op d op) as [d1|] eqn:E; [| discriminate].
    intros H. destruct (IH _ H) as [H1 H2].
    destruct (apply_op_registration_rows _ _ _ c E) as [E1 E2].
    split; [lia |]. intros Hall. inversion Hall; subst.
    rewrite H2, E2; auto.
Qed.

Lemma call_registration_rows (s : Session) (k : Call) (c : FitnessClass.t) :
  pending s = [] ->
  current_registration_count (db s) c <= current_registration_count (db (snd (call s k))) c.
Proof.
  intros Hp. destruct (call_flush s k Hp) as (ops & _ & Hf).
  exact (proj1 (flush_registration_rows ops _ _ c Hf)).
Qed.

(** X22. Registration rows never go away.  Along any sequence of
    service calls the number of registrations of a class as the model
    counts them (FitnessClass.current_registration_count, every row of the
    class whatever its status) never goes down: cancellations only change
    the status of a row. *)
Theorem registration_rows_never_go_away (s : Session) (ks : list Call)
        (c : FitnessClass.t) :
  pending s = [] ->
  current_registration_count (db s) c <= current_registration_count (db (run s ks)) c.
Proof.
  revert s. induction ks as [|k ks IH]; intros s Hp; cbn [run]; [lia |].
  pose proof (call_registration_rows s k c Hp) as H1.
  pose proof (IH (snd (call s k)) (call_pending s k Hp)) as H2. lia.
Qed.

(** Member 1 registers for the yoga class and cancels; the class still
    counts one registration. *)
Lemma registration_rows_never_go_away_witness :
  1 <= current_registration_count
         (db (run (run club_session
                       [CreateClass may_1_noon "Yoga" 1 1
                                    (datetime_combine june_1 (hm 9 0)) 60 (Some 10) None;
                        RegisterForClass may_1_noon 1 1])
                  [CancelRegistration may_1_noon 1 1]))
         (FitnessClass.mk (Some 1) "Yoga" None 1 1 (datetime_combine june_1 (hm 9 0)) 60 10
                          ClassStatus.SCHEDULED).
Proof.
  exact (registration_rows_never_go_away
           (run club_session
                [CreateClass may_1_noon "Yoga" 1 1
                             (datetime_combine june_1 (hm 9 0)) 60 (Some 10) None;
                 RegisterForClass may_1_noon 1 1])
           [CancelRegistration may_1_noon 1 1]
           (FitnessClass.mk (Some 1) "Yoga" None 1 1 (datetime_combine june_1 (hm 9 0)) 60
                            10 ClassStatus.SCHEDULED)
           eq_refl).
Defined.

(** X23. has_capacity is stricter than the capacity check of
    register_for_class.  The model's count includes cancelled rows, the
    service counts REGISTERED rows only: the service's count never exceeds
    the model's, so a class with has_capacity is never reported full; and
    cancel_class_registration leaves the model's count and has_capacity of
    every class as they were. *)
Theorem has_capacity_counts_cancelled_rows (s : Session) (class_id : Z)
        (c : FitnessClass.t) :
  pending s = [] ->
  find (fun c => has_id (FitnessClass.class_id c) class_id) (fitness_classes (db s))
  = Some c ->
  registered_count (db s) class_id <= current_registration_count (db s) c
  /\ (has_capacity (db s) c = true ->
      forall now member_id,
        fst (MemberService.register_for_class s now member_id class_id)
        <> Failure ClassFull)
  /\ forall now member_id registration_id (c' : FitnessClass.t),
       let s' := snd (MemberService.cancel_class_registration
                        s now member_id registration_id) in
       current_registration_count (db s') c' = current_registration_count (db s) c'
       /\ has_capacity (db s') c' = has_capacity (db s) c'.
Proof.
  intros Hp Hfind.
  assert (Hle : registered_count (db s) class_id <= current_registration_count (db s) c).
  { pose proof (find_some _ _ Hfind) as [_ Hid]. apply has_id_true in Hid.
    unfold registered_count, current_registration_count, registrations.
    apply inj_le, filter_length_le. intros r Hr.
    apply andb_true_iff in Hr. destruct Hr as [Hr _]. apply Z.eqb_eq in Hr.
    rewrite Hid. cbn [has_id]. apply Z.eqb_eq. congruence. }
  split; [exact Hle |]. split.
  - intros Hcap now member_id. unfold has_capacity in Hcap. apply Z.ltb_lt in Hcap.
    unfold MemberService.register_for_class. rewrite Hfind.
    fold (registered_count (db s) class_id).
    destruct (Z.geb_spec (registered_count (db s) class_id) (FitnessClass.capacity c));
      [lia |].
    case_paths; cbn [fst]; discriminate.
  - intros now member_id registration_id c' s'.
    assert (E : current_registration_count (db s') c'
                = current_registration_count (db s) c').
    { destruct (call_flush s (CancelRegistration now member_id registration_id) Hp)
        as (ops & Hops & Hf).
      refine (proj2 (flush_registration_rows ops _ _ c' Hf) _).
      eapply Forall_impl; [| exact Hops].
      intros op Hop r. cbn [issues] in Hop. rewrite Hop. discriminate. }
    split; [exact E |]. unfold has_capacity. rewrite E. reflexivity.
Qed.

(** A class of capacity 1: member 1 registers and cancels.  The class
    counts one registration and has no capacity by has_capacity, with no
    REGISTERED row left; member 2 is accepted. *)
Lemma has_capacity_counts_cancelled_rows_witness :
  let s := run club_session
               [CreateClass may_1_noon "Yoga" 1 1
                            (datetime_combine june_1 (hm 9 0)) 60 (Some 1) None;
                RegisterForClass may_1_noon 1 1;
                CancelRegistration may_1_noon 1 1] in
  let c := FitnessClass.mk (Some 1) "Yoga" None 1 1 (datetime_combine june_1 (hm 9 0)) 60 1
                           ClassStatus.SCHEDULED in
  registered_count (db s) 1 <= current_registration_count (db s) c
  /\ registered_count (db s) 1 = 0
  /\ has_capacity (db s) c = false
  /\ success (fst (MemberService.register_for_class s may_1_noon 2 1)) = true.
Proof.
  intros s c.
  split; [exact (proj1 (has_capacity_counts_cancelled_rows s 1 c eq_refl eq_refl)) |].
  repeat split; reflexivity.
Defined.

(** ** Listings and the calls they lead to *)

Lemma In_insert_by {A} (key : A -> Z) (x y : A) (l : list A) :
  In y (insert_by key x l) <-> y = x \/ In y l.
Proof.
  induction l as [|a l IH]; cbn.
  - intuition congruence.
  - destruct (key x <=? key a); cbn; [intuition congruence |].
    rewrite IH. intuition congruence.
Qed.

Lemma In_order_by {A} (key : A -> Z) (x : A) (l : list A) :
  In x (order_by key l) <-> In x l.
Proof.
  unfold order_by. induction l as [|a l IH]; cbn; [tauto |].
  rewrite In_insert_by, IH. intuition congruence.
Qed.

Lemma find_by_key {A} (key : A -> option Z) (f : A -> bool) (l : list A) (p : A) :
  NoDup (map key l) -> In p l -> f p = true ->
  (forall x, f x = true -> key x = key p) ->
  find f l = Some p.
Proof.
  intros Hnd Hp Hf Hkey.
  destruct (find f l) as [q|] eqn:E.
  - apply find_some in E. destruct E as [Hq Hfq].
    f_equal. exact (NoDup_map_eq key l q p Hnd Hq Hp (Hkey q Hfq)).
  - pose proof (find_none _ _ E p Hp). congruence.
Qed.

(** X24. A class that starts right now is listed but cannot be
    registered for.  Every class that get_available_classes lists (from
    the clock) starts at or after now, and register_for_class refuses it
    as a past class exactly when it starts at now: the listing compares
    with >=, the registration with <=. *)
Theorem listed_class_starting_now (s : Session) now member_id class_id
        (c : FitnessClass.t) :
  NoDup (map FitnessClass.class_id (fitness_classes (db s))) ->
  In member_id (members (db s)) ->
  In c (get_available_classes s now None) ->
  FitnessClass.class_id c = Some class_id ->
  now <= FitnessClass.scheduled_time c
  /\ (fst (MemberService.register_for_class s now member_id class_id) = Failure PastClass
      <-> FitnessClass.scheduled_time c = now).
Proof.
  intros Hnd Hm Hin Hid. unfold get_available_classes in Hin.
  apply In_order_by, filter_In in Hin. destruct Hin as [Hc Hf].
  apply andb_true_iff in Hf. destruct Hf as [Hge Hst].
  rewrite Z.geb_leb in Hge. apply Z.leb_le in Hge.
  split; [exact Hge |].
  assert (Hfind : find (fun c => has_id (FitnessClass.class_id c) class_id)
                       (fitness_classes (db s)) = Some c).
  { apply (find_by_key FitnessClass.class_id); try assumption.
    - apply has_id_true. exact Hid.
    - intros x Hx. apply has_id_true in Hx. congruence. }
  unfold MemberService.register_for_class.
  apply mem_id_In in Hm. rewrite Hm, Hfind, Hst. cbn [negb].
  destruct (Z.leb_spec (FitnessClass.scheduled_time c) now).
  - cbn [fst]. split; [lia | reflexivity].
  - split; [| lia]. case_paths; cbn [fst]; discriminate.
Qed.

(** The yoga class of Sunday 2025-06-01 09:00, at 09:00 of that day. *)
Lemma listed_class_starting_now_witness :
  let s := run club_session
               [CreateClass may_1_noon "Yoga" 1 1
                            (datetime_combine june_1 (hm 9 0)) 60 (Some 10) None] in
  map FitnessClass.class_id (get_available_classes s (datetime_combine june_1 (hm 9 0)) None)
  = [Some 1]
  /\ fst (MemberService.register_for_class s (datetime_combine june_1 (hm 9 0)) 1 1)
     = Failure PastClass.
Proof.
  intros s. split; [reflexivity |].
  apply (listed_class_starting_now
           s (datetime_combine june_1 (hm 9 0)) 1 1
           (FitnessClass.mk (Some 1) "Yoga" None 1 1 (datetime_combine june_1 (hm 9 0)) 60
                            10 ClassStatus.SCHEDULED)).
  - vm_compute. repeat constructor. intros [].
  - left. reflexivity.
  - left. reflexivity.
  - reflexivity.
  - reflexivity.
Defined.


